(** * Reporting layer of semgrep: output.py and semgrep_main.py

    A shallow embedding of the result-reporting code of the scanner
    ([semgrep/output.py], [semgrep/semgrep_main.py], [semgrep/util.py])
    together with the properties of its aggregation state machine, its
    line and text renderers and its [nosem] suppression filter.

    Conventions.
    - A Python [str] is a [string]; characters are the code points below
      256.  [list str] is [list string].
    - Python integers are [Z].
    - [Optional[T]] is [option T]; Python truthiness is written out at
      every test ([truthy_str], [truthy_Z], ...).
    - Code that logs, prints, writes files or raises lives in the monad
      [M], a state monad over the [OutputHandler] object and the list of
      observable [Event]s, with exceptions.
    - What the repository imports from modules outside these three files
      (constants, regular expressions, serialisers, the file system and
      the network) is a field of the record [Env]. *)

From Stdlib Require Import ZArith List String Ascii Bool Lia Arith.
From Stdlib Require Import Permutation DecimalString Sorted OrdersEx.
Import ListNotations.

Open Scope list_scope.
Open Scope string_scope.

Set Implicit Arguments.
Set Warnings "-register-all".

(* ------------------------------------------------------------------ *)
(** ** Python strings *)

Module Py.

(** [bool(s)] for a string. *)
Definition truthy_str (s : string) : bool :=
  match s with EmptyString => false | String _ _ => true end.

(** [bool(n)] for an integer. *)
Definition truthy_Z (n : Z) : bool := negb (n =? 0)%Z.

(** [bool(l)] for a list. *)
Definition truthy_list {A} (l : list A) : bool :=
  match l with [] => false | _ :: _ => true end.

(** [bool(o)] for an [Optional] whose payload has truthiness [t]. *)
Definition truthy_opt {A} (t : A -> bool) (o : option A) : bool :=
  match o with None => false | Some a => t a end.

(** [str.isspace] on one character (code points below 256). *)
Definition isspace (c : ascii) : bool :=
  let n := nat_of_ascii c in
  (((9 <=? n) && (n <=? 13)) || ((28 <=? n) && (n <=? 32))
   || (n =? 133) || (n =? 160))%nat.

(** [s.lstrip(chars)], [chars] given as a predicate. *)
Fixpoint lstrip_by (p : ascii -> bool) (s : string) : string :=
  match s with
  | EmptyString => EmptyString
  | String c s' => if p c then lstrip_by p s' else s
  end.

(** [s.rstrip(chars)]. *)
Fixpoint rstrip_by (p : ascii -> bool) (s : string) : string :=
  match s with
  | EmptyString => EmptyString
  | String c s' =>
      match rstrip_by p s' with
      | EmptyString => if p c then EmptyString else String c EmptyString
      | r => String c r
      end
  end.

Definition strip_by (p : ascii -> bool) (s : string) : string :=
  rstrip_by p (lstrip_by p s).

Definition rstrip : string -> string := rstrip_by isspace.
Definition strip : string -> string := strip_by isspace.

(** [s[:n]] and [s[n:]] for [n >= 0]. *)
Fixpoint take (n : nat) (s : string) : string :=
  match n, s with
  | S n', String c s' => String c (take n' s')
  | _, _ => EmptyString
  end.

Fixpoint drop (n : nat) (s : string) : string :=
  match n, s with
  | S n', String _ s' => drop n' s'
  | _, _ => s
  end.

(** [s[a:b]] for [0 <= a], [0 <= b]. *)
Definition slice (a b : nat) (s : string) : string :=
  take (b - a) (drop a s).

(** [c * n] for a one-character string [c]. *)
Fixpoint repeat_char (c : ascii) (n : nat) : string :=
  match n with
  | O => EmptyString
  | S n' => String c (repeat_char c n')
  end.

(** [s.center(width, fillchar)], CPython's [pad] arithmetic: the left
    margin is [marg/2 + (marg & width & 1)]. *)
Definition center (s : string) (width : Z) (fill : ascii) : string :=
  let len := Z.of_nat (String.length s) in
  if (width <=? len)%Z then s
  else
    let marg := (width - len)%Z in
    let left := (marg / 2 + Z.land (Z.land marg width) 1)%Z in
    repeat_char fill (Z.to_nat left) ++ s
      ++ repeat_char fill (Z.to_nat (marg - left)).

(** [str(n)] / [f"{n}"] for an integer. *)
Definition str_Z (n : Z) : string := NilZero.string_of_int (Z.to_int n).

Definition str_nat (n : nat) : string := str_Z (Z.of_nat n).

(** [sep.join(l)]. *)
Fixpoint join (sep : string) (l : list string) : string :=
  match l with
  | [] => EmptyString
  | [x] => x
  | x :: l' => x ++ sep ++ join sep l'
  end.

(** [s.lower()] on one character below 256: the capitals are [A] to [Z]
    and, in Latin-1, U+00C0 to U+00DE without the multiplication sign
    U+00D7; the small letter of each is 32 code points further. *)
Definition lower_char (c : ascii) : ascii :=
  let n := nat_of_ascii c in
  if ((65 <=? n) && (n <=? 90))%nat
     || ((192 <=? n) && (n <=? 222) && negb (n =? 215))%nat
  then ascii_of_nat (n + 32) else c.

Fixpoint lower (s : string) : string :=
  match s with
  | EmptyString => EmptyString
  | String c s' => String (lower_char c) (lower s')
  end.

(** [s.split(sep)] for a one-character separator: the pieces, never an
    empty list. *)
Fixpoint split_char (sep : ascii) (s : string) : list string :=
  match s with
  | EmptyString => [EmptyString]
  | String c s' =>
      if Ascii.eqb c sep then EmptyString :: split_char sep s'
      else
        match split_char sep s' with
        | [] => [String c EmptyString]
        | p :: ps => String c p :: ps
        end
  end.

(** [l[-1]]. *)
Definition last_opt {A} (l : list A) : option A :=
  match rev l with [] => None | x :: _ => Some x end.

(** [l[:n]] for any integer [n]: a negative [n] counts from the end. *)
Definition list_upto {A} (n : Z) (l : list A) : list A :=
  if (0 <=? n)%Z then firstn (Z.to_nat n) l
  else firstn (List.length l - Z.to_nat (- n)) l.

(** [a < b] on strings: code-point lexicographic order. *)
Definition str_ltb (a b : string) : bool :=
  match String.compare a b with Lt => true | _ => false end.

(** [a < b] on lists of strings: the first position where the two lists
    differ decides, and a proper prefix comes first. *)
Fixpoint strs_ltb (a b : list string) : bool :=
  match a, b with
  | [], [] => false
  | [], _ :: _ => true
  | _ :: _, [] => false
  | x :: a', y :: b' => if String.eqb x y then strs_ltb a' b' else str_ltb x y
  end.

(** [a == b] on lists of strings. *)
Definition strs_eqb (a b : list string) : bool :=
  if list_eq_dec string_dec a b then true else false.

(** One step of a stable insertion sort that uses only [<], as
    [sorted] does: [x] goes before the first element greater than it,
    hence after every element already placed that is not greater. *)
Fixpoint insert_by {A} (lt : A -> A -> bool) (x : A) (l : list A) : list A :=
  match l with
  | [] => [x]
  | y :: l' => if lt x y then x :: y :: l' else y :: insert_by lt x l'
  end.

(** [sorted(l, key=...)] with [lt] the order on keys. *)
Definition sorted_by {A} (lt : A -> A -> bool) (l : list A) : list A :=
  fold_left (fun acc x => insert_by lt x acc) l [].

End Py.

(* ------------------------------------------------------------------ *)
(** ** Data model *)

(** Modelled from the spec: [semgrep.error.Level], declared in
    [semgrep/error.py]; a severity level is ERROR or WARN. *)
Inductive Level := ERROR | WARN.

(** Modelled from the spec: [semgrep.error.SemgrepError] and its
    subclasses, declared in [semgrep/error.py]; a structured error has a
    level, an exit code, an optional path and rule id and its messages, and
    two errors with the same fields are the same error.
    [err_is_timeout] is [isinstance(err, MatchTimeoutError)];
    [err_str] is [str(err)]. *)
Record SemgrepError := mkSemgrepError {
  err_str : string;
  err_code : Z;
  err_level : Level;
  err_is_timeout : bool;
  err_path : string;
  err_rule_id : string
}.

(** A raised Python exception: a [SemgrepError], or any other class. *)
Inductive Exn :=
| ESemgrep (e : SemgrepError)
| EPython (cls : string) (msg : string).

(** [isinstance(ex, SemgrepError)]. *)
Definition is_semgrep_error (ex : Exn) : bool :=
  match ex with ESemgrep _ => true | EPython _ _ => false end.

(** What a call returns: a value or a raised exception. *)
Inductive Result (A : Type) :=
| Ok (a : A)
| Raised (ex : Exn).
Arguments Ok {A} a.
Arguments Raised {A} ex.

(** Modelled from the spec: [semgrep.constants.OutputFormat], declared in
    [semgrep/constants.py]; the seven formats of a run. *)
Inductive OutputFormat := TEXT | JSON | JSON_DEBUG | JUNIT_XML | SARIF | EMACS | VIM.

(** Modelled from the spec: [OutputFormat.is_json], defined in
    [semgrep/constants.py]; the formats of the JSON renderer are [json]
    and [json-debug]. *)
Definition is_json (f : OutputFormat) : bool :=
  match f with JSON | JSON_DEBUG => true | _ => false end.

(** A JSON-ready Python value ([Dict[str, Any]], lists, scalars); a float
    is kept as its [repr]. *)
Inductive json :=
| JNull
| JBool (b : bool)
| JInt (n : Z)
| JFloat (repr : string)
| JStr (s : string)
| JList (l : list json)
| JDict (kv : list (string * json)).

(** Modelled from the spec: [semgrep.rule.Rule], declared in
    [semgrep/rule.py]; a rule has an id, and the rest of its definition is
    only read by its serialisers. *)
Record Rule := mkRule {
  rule_id : string;
  rule_raw : string
}.

(** Modelled from the spec: the position dicts [start] and [end] of a
    finding, with a line and a column counted from 1. *)
Record Position := mkPosition {
  pos_line : Z;
  pos_col : Z
}.

(** Modelled from the spec: [semgrep.rule_match.RuleMatch], declared in
    [semgrep/rule_match.py], with the attributes that [output.py] and
    [semgrep_main.py] read.  [rm_path] is the path as its string,
    and the test [if path:] of the source is kept as the test that this
    string is not empty; [rm_fixed_lines] is [extra.get("fixed_lines")];
    [rm_fix_regex] is the [fix_regex] dict with each value as its [str]. *)
Record RuleMatch := mkRuleMatch {
  rm_id : string;
  rm_path : string;
  rm_message : string;
  rm_severity : string;
  rm_start : Position;
  rm_end : Position;
  rm_lines : list string;
  rm_fixed_lines : option (list string);
  rm_fix : option string;
  rm_fix_regex : option (list (string * string));
  rm_is_ignored : bool
}.

(** [semgrep.profile_manager.ProfileManager]: an opaque handle. *)
Definition ProfileManager := nat.

(** A test case and a test suite of [semgrep.external.junit_xml]. *)
Definition TestCase := string.
Record TestSuite := mkTestSuite {
  ts_name : string;
  ts_cases : list TestCase
}.

(** [OutputSettings]. *)
Record OutputSettings := mkOutputSettings {
  output_format : OutputFormat;
  output_destination : option string;
  error_on_findings : bool;
  verbose_errors : bool;
  strict : bool;
  output_per_finding_max_lines_limit : option Z;
  json_stats : bool;
  json_time : bool;
  timeout_threshold : Z
}.

(** *** Decidable equalities ([==] on values) *)

Definition Level_eq_dec (a b : Level) : {a = b} + {a <> b}.
Proof. decide equality. Defined.

Definition SemgrepError_eq_dec (a b : SemgrepError) : {a = b} + {a <> b}.
Proof.
  decide equality; try apply string_dec; try apply Z.eq_dec;
    try apply Bool.bool_dec; apply Level_eq_dec.
Defined.

Definition Rule_eq_dec (a b : Rule) : {a = b} + {a <> b}.
Proof. decide equality; apply string_dec. Defined.

Definition OutputFormat_eq_dec (a b : OutputFormat) : {a = b} + {a <> b}.
Proof. decide equality. Defined.

Definition format_eqb (a b : OutputFormat) : bool :=
  if OutputFormat_eq_dec a b then true else false.

Definition level_eqb (a b : Level) : bool :=
  if Level_eq_dec a b then true else false.

(** [err in error_set]. *)
Definition error_in (e : SemgrepError) (s : list SemgrepError) : bool :=
  if in_dec SemgrepError_eq_dec e s then true else false.

(* ------------------------------------------------------------------ *)
(** ** What the three files import from elsewhere *)

(** The answer of [requests.post]. *)
Inductive PostAnswer :=
| PostStatus (status_code : Z)
| PostTimeout
| PostError (ex : Exn).

Record Env := mkEnv {
  (** [semgrep.constants] *)
  BREAK_LINE : string;
  BREAK_LINE_CHAR : ascii;
  BREAK_LINE_WIDTH : Z;
  CLI_RULE_ID : string;
  MAX_LINES_FLAG_NAME : string;
  (** [NOSEM_INLINE_RE.search(line)]: no match, or a match and its
      [ids] group *)
  NOSEM_INLINE_RE_search : string -> option (option string);
  (** [COMMA_SEPARATED_LIST_RE.split(s)] *)
  COMMA_SEPARATED_LIST_RE_split : string -> list string;
  (** [semgrep.error]: the constants and the defaults of
      [SemgrepError(msg, code=..., level=...)] *)
  FINDINGS_EXIT_CODE : Z;
  FATAL_EXIT_CODE : Z;
  DEFAULT_LEVEL : Level;
  (** serialisers of the data classes and of the libraries *)
  VERSION : string;
  rm_to_json : RuleMatch -> json;
  rm_to_sarif : RuleMatch -> json;
  rm_to_junit_xml : RuleMatch -> TestCase;
  rule_to_sarif : Rule -> json;
  err_to_dict : SemgrepError -> list (string * json);
  json_dumps : json -> string;
  to_xml_report_string : list TestSuite -> string;
  make_target_stats : list string -> json;
  make_loc_stats : list string -> json;
  dump_stats : ProfileManager -> json;
  (** the terminal, the file system and the network *)
  stdout_isatty : bool;
  stderr_isatty : bool;
  FORCE_COLOR : bool;
  stdout_encodes : string -> bool;
  urlparse : string -> option (string * string);
  get_base_path : string;
  joinpath : string -> string -> string;
  write_file : string -> string -> option Exn;
  requests_post : string -> string -> PostAnswer
}.

(** [SemgrepError(msg, code=code)]. *)
Definition new_SemgrepError (env : Env) (msg : string) (code : Z) : SemgrepError :=
  mkSemgrepError msg code (DEFAULT_LEVEL env) false "" "".

(** [colorama] escape sequences. *)
Module Colorama.
Definition ESC : string := String (ascii_of_nat 27) "[".
Definition Style_BRIGHT : string := ESC ++ "1m".
Definition Style_RESET_ALL : string := ESC ++ "0m".
Definition Fore_RED : string := ESC ++ "31m".
Definition Fore_GREEN : string := ESC ++ "32m".
Definition Fore_YELLOW : string := ESC ++ "33m".
Definition Fore_BLUE : string := ESC ++ "34m".
Definition Fore_RESET : string := ESC ++ "39m".
End Colorama.

(** [dict.get(k)] on an association list. *)
Fixpoint dict_get {V} (k : string) (d : list (string * V)) : option V :=
  match d with
  | [] => None
  | (k', v) :: d' => if String.eqb k k' then Some v else dict_get k d'
  end.

(** [f"{v}"] for an [Optional[str]]. *)
Definition fmt_opt (o : option string) : string :=
  match o with Some s => s | None => "None" end.

(* ------------------------------------------------------------------ *)
(** ** output.py: the line renderer and the format renderers *)

(** [enumerate(l)] mapped through [f], the index counted from [i]. *)
Fixpoint map_enumerate {A B} (f : Z -> A -> B) (i : Z) (l : list A) : list B :=
  match l with
  | [] => []
  | x :: l' => f i x :: map_enumerate f (i + 1)%Z l'
  end.

(** [color_line]. *)
Definition color_line (line : string) (line_number start_line start_col
                       end_line end_col : Z) : string :=
  let start_color := if (line_number >? start_line)%Z then 0%Z else start_col in
  let start_color := Z.max (start_color - 1) 0 in
  let end_color :=
    if (line_number >=? end_line)%Z then end_col
    else (Z.of_nat (String.length line) + 1 + 1)%Z in
  let end_color := Z.max (end_color - 1) 0 in
  Py.take (Z.to_nat start_color) line
  ++ Colorama.Style_BRIGHT
  ++ Py.slice (Z.to_nat start_color) (Z.to_nat (end_color + 1)) line
  ++ Colorama.Style_RESET_ALL
  ++ Py.drop (Z.to_nat (end_color + 1)) line.

Section Renderers.

Variable env : Env.

(** The source lines a finding displays:
    [rule_match.extra.get("fixed_lines") or rule_match.lines]. *)
Definition display_lines (rule_match : RuleMatch) : list string :=
  match rm_fixed_lines rule_match with
  | Some l => if Py.truthy_list l then l else rm_lines rule_match
  | None => rm_lines rule_match
  end.

(** The body of the [for i, line in enumerate(lines)] loop of
    [finding_to_line]: one display line. *)
Definition source_line (rule_match : RuleMatch) (color_output : bool)
           (i : Z) (line : string) : string :=
  let start_line := pos_line (rm_start rule_match) in
  let end_line := pos_line (rm_end rule_match) in
  let start_col := pos_col (rm_start rule_match) in
  let end_col := pos_col (rm_end rule_match) in
  let line := Py.rstrip line in
  let '(line, line_number) :=
    if Py.truthy_Z start_line then
      if color_output then
        (color_line line (start_line + i) start_line start_col end_line end_col,
         Colorama.Fore_GREEN ++ Py.str_Z (start_line + i)
           ++ Colorama.Style_RESET_ALL)
      else (line, Py.str_Z (start_line + i))
    else (line, "") in
  if Py.truthy_str line_number then line_number ++ ":" ++ line else line.

(** The marker of [finding_to_line]:
    [f" [hid {trimmed} additional lines, adjust with {MAX_LINES_FLAG_NAME}] "]
    centred. *)
Definition trimmed_str (trimmed : Z) : string :=
  " [hid " ++ Py.str_Z trimmed ++ " additional lines, adjust with "
  ++ MAX_LINES_FLAG_NAME env ++ "] ".

Definition trimmed_marker (trimmed : Z) : string :=
  Py.center (trimmed_str trimmed) (BREAK_LINE_WIDTH env) (BREAK_LINE_CHAR env).

(** [per_finding_max_lines_limit != 1]. *)
Definition limit_is_not_one (limit : option Z) : bool :=
  match limit with Some n => negb (n =? 1)%Z | None => true end.

(** [finding_to_line]; the generator is the list of what it yields. *)
Definition finding_to_line (rule_match : RuleMatch) (color_output : bool)
           (per_finding_max_lines_limit : option Z) (show_separator : bool)
  : list string :=
  let path := rm_path rule_match in
  if Py.truthy_str path then
    let lines := display_lines rule_match in
    let '(trimmed, lines) :=
      match per_finding_max_lines_limit with
      | Some limit =>
          if Py.truthy_Z limit then
            ((Z.of_nat (List.length lines) - limit)%Z, Py.list_upto limit lines)
          else (0%Z, lines)
      | None => (0%Z, lines)
      end in
    (map_enumerate (source_line rule_match color_output) 0 lines
     ++ (if limit_is_not_one per_finding_max_lines_limit then
           if (trimmed >? 0)%Z then [trimmed_marker trimmed]
           else if show_separator then [BREAK_LINE env]
           else []
         else []))%list
  else [].

(** The rule/message header of [build_normal_output]. *)
Definition rule_header (color_output : bool) (rule_match : RuleMatch) : string :=
  let RESET_COLOR := if color_output then Colorama.Style_RESET_ALL else "" in
  let YELLOW_COLOR := if color_output then Colorama.Fore_YELLOW else "" in
  let RED_COLOR := if color_output then Colorama.Fore_RED else "" in
  let check_id := rm_id rule_match in
  let message := rm_message rule_match in
  let severity := Py.lower (rm_severity rule_match) in
  let severity_prepend :=
    if Py.truthy_str severity then
      if String.eqb severity "error" then
        RED_COLOR ++ "severity:" ++ severity ++ " "
      else if String.eqb severity "warning" then
        YELLOW_COLOR ++ "severity:" ++ severity ++ " "
      else "severity:" ++ severity ++ " "
    else "" in
  severity_prepend ++ YELLOW_COLOR ++ "rule:" ++ check_id ++ ": " ++ message
    ++ RESET_COLOR.

(** [last is None or last != current]. *)
Definition none_or_differs (last : option string) (current : string) : bool :=
  match last with
  | None => true
  | Some l => negb (String.eqb l current)
  end.

(** The test that guards the header in [build_normal_output]. *)
Definition shows_rule_header (last_message : option string)
           (rule_match : RuleMatch) : bool :=
  Py.truthy_str (rm_id rule_match)
  && negb (String.eqb (rm_id rule_match) (CLI_RULE_ID env))
  && none_or_differs last_message (rm_message rule_match).

(** The autofix line of [build_normal_output]. *)
Definition autofix_lines (color_output : bool) (rule_match : RuleMatch)
  : list string :=
  let RESET_COLOR := if color_output then Colorama.Style_RESET_ALL else "" in
  let BLUE_COLOR := if color_output then Colorama.Fore_BLUE else "" in
  if Py.truthy_opt Py.truthy_str (rm_fix rule_match) then
    [BLUE_COLOR ++ "autofix:" ++ RESET_COLOR ++ " " ++ fmt_opt (rm_fix rule_match)]
  else
    match rm_fix_regex rule_match with
    | Some fix_regex =>
        if Py.truthy_list fix_regex then
          [BLUE_COLOR ++ "autofix:" ++ RESET_COLOR ++ " s/"
           ++ fmt_opt (dict_get "regex" fix_regex) ++ "/"
           ++ fmt_opt (dict_get "replacement" fix_regex) ++ "/"
           ++ match dict_get "count" fix_regex with
              | Some c => c
              | None => "g"
              end]
        else []
    | None => []
    end.

(** The loop of [build_normal_output] over the sorted findings, with
    its two variables [last_file] and [last_message]; the next finding
    ([sorted_rule_matches[rule_index + 1]], or [None] at the last index)
    is the head of the rest. *)
Fixpoint normal_output_loop (color_output : bool) (limit : option Z)
         (last_file last_message : option string)
         (sorted_rule_matches : list RuleMatch) : list string :=
  match sorted_rule_matches with
  | [] => []
  | rule_match :: rest =>
      let RESET_COLOR := if color_output then Colorama.Style_RESET_ALL else "" in
      let GREEN_COLOR := if color_output then Colorama.Fore_GREEN else "" in
      let current_file := rm_path rule_match in
      let message := rm_message rule_match in
      let new_file := none_or_differs last_file current_file in
      let file_lines :=
        if new_file then
          ((match last_file with Some _ => [""] | None => [] end)
           ++ [(GREEN_COLOR ++ current_file ++ RESET_COLOR)%string])%list
        else [] in
      let last_message := if new_file then None else last_message in
      let header_lines :=
        if shows_rule_header last_message rule_match
        then [rule_header color_output rule_match] else [] in
      let is_same_file :=
        match rest with
        | next_rule_match :: _ =>
            String.eqb (rm_path next_rule_match) (rm_path rule_match)
        | [] => false
        end in
      (file_lines ++ header_lines
       ++ finding_to_line rule_match color_output limit is_same_file
       ++ autofix_lines color_output rule_match
       ++ normal_output_loop color_output limit
            (Some current_file) (Some message) rest)%list
  end.

(** Modelled from the spec: [path.parts] of the [pathlib] path of a
    finding on a POSIX system, read off the string of the path.  The
    names between the slashes, without the empty ones and the dots, come
    after the root, which is [//] for a string that starts with exactly
    two slashes and [/] for one that starts with any other number of
    them. *)
Definition path_parts (path : string) : list string :=
  let names :=
    filter (fun name => Py.truthy_str name && negb (String.eqb name "."))
           (Py.split_char "/" path) in
  match path with
  | String "/" (String "/" (String "/" _)) => "/" :: names
  | String "/" (String "/" _) => "//" :: names
  | String "/" _ => "/" :: names
  | _ => names
  end.

(** [(a.path, a.id) < (b.path, b.id)]: tuples compare on the first
    component that differs.  Two [pathlib] paths are equal when their
    parts are, and they are ordered as the lists of their parts, so part
    by part and not character by character. *)
Definition path_id_ltb (a b : RuleMatch) : bool :=
  if Py.strs_eqb (path_parts (rm_path a)) (path_parts (rm_path b))
  then Py.str_ltb (rm_id a) (rm_id b)
  else Py.strs_ltb (path_parts (rm_path a)) (path_parts (rm_path b)).

(** [sorted(rule_matches, key=lambda r: (r.path, r.id))]. *)
Definition sort_by_path_id (rule_matches : list RuleMatch) : list RuleMatch :=
  Py.sorted_by path_id_ltb rule_matches.

(** [build_normal_output]. *)
Definition build_normal_output (rule_matches : list RuleMatch)
           (color_output : bool) (per_finding_max_lines_limit : option Z)
  : list string :=
  normal_output_loop color_output per_finding_max_lines_limit None None
    (sort_by_path_id rule_matches).

(** [match_time_matrix.get((rule.id, path_str), 0.0)]. *)
Fixpoint matrix_get (k : string * string)
         (m : list ((string * string) * string)) : string :=
  match m with
  | [] => "0.0"
  | ((r, t), v) :: m' =>
      if String.eqb (fst k) r && String.eqb (snd k) t then v
      else matrix_get k m'
  end.

(** [_build_time_target_json]. *)
Definition _build_time_target_json (rules : list Rule) (target : string)
           (match_time_matrix : list ((string * string) * string)) : json :=
  let path_str := target in
  JDict [("path", JStr path_str);
         ("match_times",
          JList (map (fun rule => JFloat (matrix_get (rule_id rule, path_str)
                                                     match_time_matrix))
                     rules))].

(** [_build_time_json]. *)
Definition _build_time_json (rules : list Rule) (targets : list string)
           (match_time_matrix : list ((string * string) * string)) : json :=
  JDict [("rules", JList (map (fun rule => JDict [("id", JStr (rule_id rule))])
                              rules));
         ("targets",
          JList (map (fun target =>
                        _build_time_target_json rules target match_time_matrix)
                     targets))].

(** [build_output_json]; the keys are in insertion order. *)
Definition build_output_json (rule_matches : list RuleMatch)
           (semgrep_structured_errors : list SemgrepError)
           (all_targets : list string) (show_json_stats report_time : bool)
           (filtered_rules : list Rule)
           (match_time_matrix : list ((string * string) * string))
           (profiler : option ProfileManager)
           (debug_steps_by_rule : option (list (Rule * list json))) : string :=
  let results := [("results", JList (map (rm_to_json env) rule_matches))] in
  let debug :=
    match debug_steps_by_rule with
    | Some d =>
        if Py.truthy_list d then
          [("debug",
            JList [JDict (map (fun rs => (rule_id (fst rs), JList (snd rs))) d)])]
        else []
    | None => []
    end in
  let errors :=
    [("errors",
      JList (map (fun e => JDict (err_to_dict env e)) semgrep_structured_errors))] in
  let stats :=
    if show_json_stats then
      [("stats",
        JDict [("targets", make_target_stats env all_targets);
               ("loc", make_loc_stats env all_targets);
               ("profiler",
                match profiler with
                | Some p => dump_stats env p
                | None => JNull
                end)])]
    else [] in
  let time :=
    if report_time then
      [("time", _build_time_json filtered_rules all_targets match_time_matrix)]
    else [] in
  json_dumps env (JDict (results ++ debug ++ errors ++ stats ++ time)%list).

(** [build_junit_xml_output]. *)
Definition build_junit_xml_output (rule_matches : list RuleMatch)
           (rules : list Rule) : string :=
  let test_cases := map (rm_to_junit_xml env) rule_matches in
  let ts := mkTestSuite "semgrep results" test_cases in
  to_xml_report_string env [ts].

(** [_sarif_tool_info]. *)
Definition _sarif_tool_info : list (string * json) :=
  [("name", JStr "semgrep"); ("semanticVersion", JStr (VERSION env))].

(** [d[k]]: the value, or [KeyError]. *)
Definition dict_item {V} (k : string) (d : list (string * V)) : Result V :=
  match dict_get k d with
  | Some v => Ok v
  | None => Raised (EPython "KeyError" k)
  end.

(** [_sarif_notification_from_error]. *)
Definition _sarif_notification_from_error (error : SemgrepError) : Result json :=
  let error_dict := err_to_dict env error in
  match dict_item "type" error_dict with
  | Raised ex => Raised ex
  | Ok descriptor =>
      let error_to_sarif_level :=
        [("error", JStr "error"); ("warn", JStr "warning")] in
      match dict_item "level" error_dict with
      | Raised ex => Raised ex
      | Ok (JStr lvl) =>
          match dict_item lvl error_to_sarif_level with
          | Raised ex => Raised ex
          | Ok level =>
              let message := dict_get "message" error_dict in
              let message :=
                match message with
                | None | Some JNull => dict_get "long_msg" error_dict
                | m => m
                end in
              let message :=
                match message with
                | None | Some JNull =>
                    match dict_get "short_msg" error_dict with
                    | Some m => m
                    | None => JStr ""
                    end
                | Some m => m
                end in
              Ok (JDict [("descriptor", JDict [("id", descriptor)]);
                         ("message", JDict [("text", message)]);
                         ("level", level)])
          end
      | Ok _ => Raised (EPython "KeyError" "level")
      end
  end.

(** A list comprehension whose element expression may raise. *)
Fixpoint map_result {A B} (f : A -> Result B) (l : list A) : Result (list B) :=
  match l with
  | [] => Ok []
  | x :: l' =>
      match f x with
      | Raised ex => Raised ex
      | Ok y =>
          match map_result f l' with
          | Raised ex => Raised ex
          | Ok ys => Ok (y :: ys)
          end
      end
  end.

(** [build_sarif_output]. *)
Definition build_sarif_output (rule_matches : list RuleMatch)
           (rules : list Rule) (semgrep_structured_errors : list SemgrepError)
  : Result string :=
  match map_result _sarif_notification_from_error semgrep_structured_errors with
  | Raised ex => Raised ex
  | Ok notifications =>
      let output_dict :=
        JDict
          [("$schema",
            JStr "https://raw.githubusercontent.com/oasis-tcs/sarif-spec/master/Schemata/sarif-schema-2.1.0.json");
           ("version", JStr "2.1.0");
           ("runs",
            JList
              [JDict
                 [("tool",
                   JDict
                     [("driver",
                       JDict (_sarif_tool_info
                              ++ [("rules",
                                   JList (map (rule_to_sarif env) rules))])%list)]);
                  ("results", JList (map (rm_to_sarif env) rule_matches));
                  ("invocations",
                   JList
                     [JDict [("toolExecutionNotifications",
                              JList notifications)]])]])] in
      Ok (json_dumps env output_dict)
  end.

(** One line of [iter_emacs_output]; [rule_match.lines[0]] raises
    [IndexError] on a finding without lines. *)
Definition emacs_line (rule_match : RuleMatch) : Result string :=
  let current_file := rm_path rule_match in
  let check_id := rm_id rule_match in
  let severity := Py.lower (rm_severity rule_match) in
  let start_line := pos_line (rm_start rule_match) in
  let start_col := pos_col (rm_start rule_match) in
  match rm_lines rule_match with
  | [] => Raised (EPython "IndexError" "list index out of range")
  | line0 :: _ =>
      let line := Py.rstrip line0 in
      let info :=
        if Py.truthy_str check_id && negb (String.eqb check_id (CLI_RULE_ID env))
        then
          let check_id :=
            match Py.last_opt (Py.split_char "." check_id) with
            | Some c => c
            | None => ""
            end in
          "(" ++ check_id ++ ")"
        else "" in
      Ok (current_file ++ ":" ++ Py.str_Z start_line ++ ":" ++ Py.str_Z start_col
          ++ ":" ++ severity ++ info ++ ":" ++ line)
  end.

(** [iter_emacs_output], consumed by [list]. *)
Definition iter_emacs_output (rule_matches : list RuleMatch) (rules : list Rule)
  : Result (list string) :=
  map_result emacs_line (sort_by_path_id rule_matches).

(** [build_emacs_output]. *)
Definition build_emacs_output (rule_matches : list RuleMatch) (rules : list Rule)
  : Result string :=
  match iter_emacs_output rule_matches rules with
  | Raised ex => Raised ex
  | Ok lines => Ok (Py.join (String (ascii_of_nat 10) "") lines)
  end.

(** [_get_parts] of [build_vim_output]. *)
Definition vim_parts (rule_match : RuleMatch) : Result (list string) :=
  let severity := [("INFO", "I"); ("WARNING", "W"); ("ERROR", "E")] in
  match dict_item (rm_severity rule_match) severity with
  | Raised ex => Raised ex
  | Ok sev =>
      Ok [rm_path rule_match;
          Py.str_Z (pos_line (rm_start rule_match));
          Py.str_Z (pos_col (rm_start rule_match));
          sev;
          rm_id rule_match;
          rm_message rule_match]
  end.

(** [build_vim_output]. *)
Definition build_vim_output (rule_matches : list RuleMatch) (rules : list Rule)
  : Result string :=
  match map_result
          (fun rm =>
             match vim_parts rm with
             | Raised ex => Raised ex
             | Ok parts => Ok (Py.join ":" parts)
             end)
          rule_matches with
  | Raised ex => Raised ex
  | Ok lines => Ok (Py.join (String (ascii_of_nat 10) "") lines)
  end.

End Renderers.

(* ------------------------------------------------------------------ *)
(** ** output.py: [OutputHandler] *)

(** The attributes of an [OutputHandler].  A [Set] or [FrozenSet] is the
    list of its elements without repetition, a [Dict] the list of its
    items in insertion order. *)
Record OutputHandler := mkOutputHandler {
  settings : OutputSettings;
  rule_matches : list RuleMatch;
  debug_steps_by_rule : list (Rule * list json);
  stats_line : option string;
  all_targets : list string;
  profiler : option ProfileManager;
  rules : list Rule;
  semgrep_structured_errors : list SemgrepError;
  error_set : list SemgrepError;
  has_output : bool;
  filtered_rules : list Rule;
  match_time_matrix : list ((string * string) * string);
  final_error : option Exn
}.

(** [OutputHandler.__init__]. *)
Definition new_OutputHandler (output_settings : OutputSettings) : OutputHandler :=
  mkOutputHandler output_settings [] [] None [] None [] [] [] false [] [] None.

(** Assignments [self.attr = v]. *)
Definition set_rule_matches (v : list RuleMatch) (self : OutputHandler)
  : OutputHandler :=
  mkOutputHandler (settings self) v (debug_steps_by_rule self)
    (stats_line self) (all_targets self) (profiler self) (rules self)
    (semgrep_structured_errors self) (error_set self) (has_output self)
    (filtered_rules self) (match_time_matrix self) (final_error self).

Definition set_debug_steps_by_rule (v : list (Rule * list json)) (self : OutputHandler)
  : OutputHandler :=
  mkOutputHandler (settings self) (rule_matches self) v (stats_line
    self) (all_targets self) (profiler self) (rules self)
    (semgrep_structured_errors self) (error_set self) (has_output self)
    (filtered_rules self) (match_time_matrix self) (final_error self).

Definition set_stats_line (v : option string) (self : OutputHandler)
  : OutputHandler :=
  mkOutputHandler (settings self) (rule_matches self)
    (debug_steps_by_rule self) v (all_targets self) (profiler self)
    (rules self) (semgrep_structured_errors self) (error_set self)
    (has_output self) (filtered_rules self) (match_time_matrix self)
    (final_error self).

Definition set_all_targets (v : list string) (self : OutputHandler)
  : OutputHandler :=
  mkOutputHandler (settings self) (rule_matches self)
    (debug_steps_by_rule self) (stats_line self) v (profiler self)
    (rules self) (semgrep_structured_errors self) (error_set self)
    (has_output self) (filtered_rules self) (match_time_matrix self)
    (final_error self).

Definition set_profiler (v : option ProfileManager) (self : OutputHandler)
  : OutputHandler :=
  mkOutputHandler (settings self) (rule_matches self)
    (debug_steps_by_rule self) (stats_line self) (all_targets self) v
    (rules self) (semgrep_structured_errors self) (error_set self)
    (has_output self) (filtered_rules self) (match_time_matrix self)
    (final_error self).

Definition set_rules (v : list Rule) (self : OutputHandler)
  : OutputHandler :=
  mkOutputHandler (settings self) (rule_matches self)
    (debug_steps_by_rule self) (stats_line self) (all_targets self)
    (profiler self) v (semgrep_structured_errors self) (error_set self)
    (has_output self) (filtered_rules self) (match_time_matrix self)
    (final_error self).

Definition set_semgrep_structured_errors (v : list SemgrepError) (self : OutputHandler)
  : OutputHandler :=
  mkOutputHandler (settings self) (rule_matches self)
    (debug_steps_by_rule self) (stats_line self) (all_targets self)
    (profiler self) (rules self) v (error_set self) (has_output self)
    (filtered_rules self) (match_time_matrix self) (final_error self).

Definition set_error_set (v : list SemgrepError) (self : OutputHandler)
  : OutputHandler :=
  mkOutputHandler (settings self) (rule_matches self)
    (debug_steps_by_rule self) (stats_line self) (all_targets self)
    (profiler self) (rules self) (semgrep_structured_errors self) v
    (has_output self) (filtered_rules self) (match_time_matrix self)
    (final_error self).

Definition set_has_output (v : bool) (self : OutputHandler)
  : OutputHandler :=
  mkOutputHandler (settings self) (rule_matches self)
    (debug_steps_by_rule self) (stats_line self) (all_targets self)
    (profiler self) (rules self) (semgrep_structured_errors self)
    (error_set self) v (filtered_rules self) (match_time_matrix self)
    (final_error self).

Definition set_filtered_rules (v : list Rule) (self : OutputHandler)
  : OutputHandler :=
  mkOutputHandler (settings self) (rule_matches self)
    (debug_steps_by_rule self) (stats_line self) (all_targets self)
    (profiler self) (rules self) (semgrep_structured_errors self)
    (error_set self) (has_output self) v (match_time_matrix self)
    (final_error self).

Definition set_match_time_matrix (v : list ((string * string) * string)) (self : OutputHandler)
  : OutputHandler :=
  mkOutputHandler (settings self) (rule_matches self)
    (debug_steps_by_rule self) (stats_line self) (all_targets self)
    (profiler self) (rules self) (semgrep_structured_errors self)
    (error_set self) (has_output self) (filtered_rules self) v
    (final_error self).

Definition set_final_error (v : option Exn) (self : OutputHandler)
  : OutputHandler :=
  mkOutputHandler (settings self) (rule_matches self)
    (debug_steps_by_rule self) (stats_line self) (all_targets self)
    (profiler self) (rules self) (semgrep_structured_errors self)
    (error_set self) (has_output self) (filtered_rules self)
    (match_time_matrix self) v.

(** What a run does that can be seen from outside.  [Rendering] is a
    ghost event: it marks a call of [build_output]. *)
Inductive Event :=
| LogError (msg : string)
| LogInfo (msg : string)
| LogDebug (msg : string)
| PrintStdout (text : string)
| WriteFile (path : string) (content : string)
| HttpPost (url : string) (body : string)
| Rendering (fmt : OutputFormat).

(** *** The monad of the methods: state, events, exceptions *)

Definition M (A : Type) : Type :=
  OutputHandler -> Result A * OutputHandler * list Event.

Definition ret {A} (a : A) : M A := fun self => (Ok a, self, []).

Definition bind {A B} (m : M A) (k : A -> M B) : M B :=
  fun self =>
    match m self with
    | (Ok a, self', ev) =>
        match k a self' with
        | (r, self'', ev') => (r, self'', (ev ++ ev')%list)
        end
    | (Raised ex, self', ev) => (Raised ex, self', ev)
    end.

Definition raise {A} (ex : Exn) : M A := fun self => (Raised ex, self, []).
Definition emit (e : Event) : M unit := fun self => (Ok tt, self, [e]).
Definition get : M OutputHandler := fun self => (Ok self, self, []).
Definition modify (f : OutputHandler -> OutputHandler) : M unit :=
  fun self => (Ok tt, f self, []).
Definition of_result {A} (r : Result A) : M A := fun self => (r, self, []).
Definition when (b : bool) (m : M unit) : M unit := if b then m else ret tt.

Declare Scope m_scope.
Delimit Scope m_scope with M.
Notation "x <- m ;; k" := (bind m (fun x => k))
  (at level 61, m at next level, right associativity) : m_scope.
Notation "m ;; k" := (bind m (fun _ => k))
  (at level 61, right associativity) : m_scope.
Open Scope m_scope.

(** The three components of a run of a method. *)
Definition result_of {A} (r : Result A * OutputHandler * list Event) : Result A :=
  fst (fst r).
Definition state_of {A} (r : Result A * OutputHandler * list Event)
  : OutputHandler := snd (fst r).
Definition events_of {A} (r : Result A * OutputHandler * list Event)
  : list Event := snd r.

(** [timeout_errors[path].append(rule_id)] on a [defaultdict(list)]. *)
Fixpoint defaultdict_append (path rule_id : string)
         (d : list (string * list string)) : list (string * list string) :=
  match d with
  | [] => [(path, [rule_id])]
  | (p, ids) :: d' =>
      if String.eqb p path then (p, (ids ++ [rule_id])%list) :: d'
      else (p, ids) :: defaultdict_append path rule_id d'
  end.

(** [d.update(d')] on dicts keyed by [Rule]: one item. *)
Fixpoint dict_set {V} (k : Rule) (v : V) (d : list (Rule * V)) : list (Rule * V) :=
  match d with
  | [] => [(k, v)]
  | (k', v') :: d' =>
      if Rule_eq_dec k k' then (k', v) :: d' else (k', v') :: dict_set k v d'
  end.

Definition dict_update {V} (d d' : list (Rule * V)) : list (Rule * V) :=
  fold_left (fun acc kv => dict_set (fst kv) (snd kv) acc) d' d.

(** [s.union(keys)] on frozensets of rules. *)
Definition frozenset_union (s keys : list Rule) : list Rule :=
  fold_left (fun acc k => if in_dec Rule_eq_dec k acc then acc else (acc ++ [k])%list)
            keys s.

(** [Path(destination).is_absolute()] on a POSIX system. *)
Definition is_absolute (destination : string) : bool :=
  match destination with
  | String c _ => Ascii.eqb c "/"
  | EmptyString => false
  end.

Section Handler.

Variable env : Env.

(** util.py, [is_url]: [all([result.scheme, result.netloc])], [False] on
    a [ValueError] of [urlparse]. *)
Definition is_url (url : string) : bool :=
  match urlparse env url with
  | Some (scheme, netloc) => Py.truthy_str scheme && Py.truthy_str netloc
  | None => false
  end.

(** util.py, [with_color] without [bold]. *)
Definition with_color (color text : string) : string :=
  if negb (stderr_isatty env) && negb (FORCE_COLOR env) then text
  else color ++ text ++ Colorama.Fore_RESET.

(** [OutputHandler.handle_semgrep_error]. *)
Definition handle_semgrep_error (error : SemgrepError) : M unit :=
  modify (set_has_output true) ;;
  self <- get ;;
  if negb (error_in error (error_set self)) then
    modify (fun self =>
              set_semgrep_structured_errors
                (semgrep_structured_errors self ++ [error])%list self) ;;
    modify (fun self => set_error_set (error :: error_set self) self) ;;
    when (format_eqb (output_format (settings self)) TEXT
          && (negb (level_eqb (err_level error) WARN)
              || verbose_errors (settings self)))
         (emit (LogError (err_str error)))
  else ret tt.

(** The body of the [for path in errors.keys()] loop of
    [handle_semgrep_timeout_errors]: the message logged for one path and
    whether it asks for the threshold hint. *)
Definition timeout_message (timeout_threshold : Z) (path : string)
           (rule_ids : list string) : string * bool :=
  let separator := ", " in
  let num_errs := Z.of_nat (List.length rule_ids) in
  let rule_ids := Py.sorted_by Py.str_ltb rule_ids in
  let error_msg :=
    "Warning: " ++ Py.str_Z num_errs ++ " timeout error(s) in " ++ path
    ++ " when running the following rules: [" ++ Py.join separator rule_ids
    ++ "]" in
  let error_msg :=
    if (num_errs =? timeout_threshold)%Z then
      error_msg ++ String (ascii_of_nat 10) "Semgrep stopped running rules on "
      ++ path ++ " after " ++ Py.str_Z num_errs
      ++ " timeout error(s). See `--timeout-threshold` for more info."
    else error_msg in
  (error_msg, (num_errs >? 5)%Z && negb (Py.truthy_Z timeout_threshold)).

Fixpoint timeout_errors_loop (errors : list (string * list string))
         (print_threshold_hint : bool) : M bool :=
  match errors with
  | [] => ret print_threshold_hint
  | (path, rule_ids) :: errors' =>
      self <- get ;;
      let '(error_msg, hint) :=
        timeout_message (timeout_threshold (settings self)) path rule_ids in
      let print_threshold_hint := print_threshold_hint || hint in
      emit (LogError (with_color Colorama.Fore_RED error_msg)) ;;
      timeout_errors_loop errors' print_threshold_hint
  end.

(** [OutputHandler.handle_semgrep_timeout_errors]. *)
Definition handle_semgrep_timeout_errors
           (errors : list (string * list string)) : M unit :=
  modify (set_has_output true) ;;
  print_threshold_hint <- timeout_errors_loop errors false ;;
  when print_threshold_hint
       (emit (LogError
                (with_color Colorama.Fore_RED
                   "You can use the `--timeout-threshold` flag to set a number of timeouts after which a file will be skipped."))).

(** The [for err in errors] loop of [handle_semgrep_errors], with its
    local [timeout_errors]. *)
Fixpoint semgrep_errors_loop (errors : list SemgrepError)
         (timeout_errors : list (string * list string))
  : M (list (string * list string)) :=
  match errors with
  | [] => ret timeout_errors
  | err :: errors' =>
      self <- get ;;
      if err_is_timeout err && negb (error_in err (error_set self)) then
        modify (fun self =>
                  set_semgrep_structured_errors
                    (semgrep_structured_errors self ++ [err])%list self) ;;
        modify (fun self => set_error_set (err :: error_set self) self) ;;
        semgrep_errors_loop errors'
          (defaultdict_append (err_path err) (err_rule_id err) timeout_errors)
      else
        handle_semgrep_error err ;;
        semgrep_errors_loop errors' timeout_errors
  end.

(** [OutputHandler.handle_semgrep_errors]. *)
Definition handle_semgrep_errors (errors : list SemgrepError) : M unit :=
  timeout_errors <- semgrep_errors_loop errors [] ;;
  self <- get ;;
  when (Py.truthy_list timeout_errors
        && format_eqb (output_format (settings self)) TEXT)
       (handle_semgrep_timeout_errors timeout_errors).

(** [OutputHandler.handle_semgrep_core_output]. *)
Definition handle_semgrep_core_output
           (rule_matches_by_rule : list (Rule * list RuleMatch))
           (debug_steps_by_rule' : list (Rule * list json))
           (stats_line' : string) (all_targets' : list string)
           (profiler' : ProfileManager) (filtered_rules' : list Rule)
           (match_time_matrix' : list ((string * string) * string)) : M unit :=
  modify (set_has_output true) ;;
  modify (fun self =>
            set_rules (frozenset_union (rules self)
                                       (map fst rule_matches_by_rule)) self) ;;
  modify (fun self =>
            set_rule_matches
              (rule_matches self ++ flat_map snd rule_matches_by_rule)%list
              self) ;;
  modify (set_profiler (Some profiler')) ;;
  modify (set_all_targets all_targets') ;;
  modify (set_stats_line (Some stats_line')) ;;
  modify (fun self =>
            set_debug_steps_by_rule
              (dict_update (debug_steps_by_rule self) debug_steps_by_rule')
              self) ;;
  modify (set_filtered_rules filtered_rules') ;;
  modify (set_match_time_matrix match_time_matrix').

(** [OutputHandler.handle_unhandled_exception]. *)
Definition handle_unhandled_exception (ex : Exn) : M unit :=
  match ex with
  | ESemgrep e => handle_semgrep_error e
  | EPython _ _ => ret tt
  end ;;
  modify (set_final_error (Some ex)).

(** [OutputHandler.final_raise]. *)
Definition final_raise (ex : option Exn) (error_stats : option string) : M unit :=
  match ex with
  | None => ret tt
  | Some ex =>
      match ex with
      | ESemgrep e =>
          if level_eqb (err_level e) ERROR then raise ex
          else
            self <- get ;;
            if strict (settings self) then raise ex
            else
              emit (LogInfo
                      (fmt_opt error_stats
                       ++ "; run with --verbose for details or run with --strict to exit non-zero if any file cannot be analyzed"))
      | EPython _ _ => raise ex
      end
  end.

(** [OutputHandler.build_output]. *)
Definition build_output (color_output : bool)
           (per_finding_max_lines_limit : option Z) : M string :=
  self <- get ;;
  let output_format := output_format (settings self) in
  emit (Rendering output_format) ;;
  let debug_steps :=
    if format_eqb output_format JSON_DEBUG
    then Some (debug_steps_by_rule self) else None in
  if is_json output_format then
    ret (build_output_json env (rule_matches self)
           (semgrep_structured_errors self) (all_targets self)
           (json_stats (settings self)) (json_time (settings self))
           (filtered_rules self) (match_time_matrix self) (profiler self)
           debug_steps)
  else if format_eqb output_format JUNIT_XML then
    ret (build_junit_xml_output env (rule_matches self) (rules self))
  else if format_eqb output_format SARIF then
    of_result (build_sarif_output env (rule_matches self) (rules self)
                 (semgrep_structured_errors self))
  else if format_eqb output_format EMACS then
    of_result (build_emacs_output env (rule_matches self) (rules self))
  else if format_eqb output_format VIM then
    of_result (build_vim_output (rule_matches self) (rules self))
  else if format_eqb output_format TEXT then
    ret (Py.join (String (ascii_of_nat 10) "")
           (build_normal_output env (rule_matches self) color_output
              per_finding_max_lines_limit))
  else
    raise (EPython "RuntimeError" "Unhandled output format: OutputFormat").

(** [OutputHandler.post_output]. *)
Definition post_output (output_url output : string) : M unit :=
  emit (LogInfo ("posting to " ++ output_url ++ "...")) ;;
  emit (HttpPost output_url output) ;;
  match requests_post env output_url output with
  | PostStatus status_code =>
      emit (LogDebug ("posted to " ++ output_url ++ " and got status_code:"
                      ++ Py.str_Z status_code))
  | PostTimeout =>
      raise (ESemgrep (new_SemgrepError env
                         ("posting output to " ++ output_url ++ " timed out")
                         (FATAL_EXIT_CODE env)))
  | PostError ex => raise ex
  end.

(** The [save_path] of [save_output]: the destination itself if it is
    absolute, else under [config_resolver.get_base_path()]. *)
Definition save_path_of (destination : string) : string :=
  if is_absolute destination then destination
  else joinpath env (get_base_path env) destination.

(** [OutputHandler.save_output]. *)
Definition save_output (destination output : string) : M unit :=
  if is_url destination then post_output destination output
  else
    let save_path := save_path_of destination in
    match write_file env save_path output with
    | None => emit (WriteFile save_path output)
    | Some ex => raise ex
    end.

(** [print(output, file=self.stdout)] under its [try]. *)
Definition print_output (output : string) : M unit :=
  if stdout_encodes env output then emit (PrintStdout output)
  else
    raise (EPython "Exception"
             "Received output encoding error, please set PYTHONIOENCODING=utf-8").

(** The first half of [close]: render and deliver. *)
Definition close_output : M unit :=
  self <- get ;;
  if has_output self then
    output <- build_output
                (match output_destination (settings self) with
                 | None => true
                 | Some _ => false
                 end && stdout_isatty env)
                (output_per_finding_max_lines_limit (settings self)) ;;
    when (Py.truthy_str output) (print_output output) ;;
    match stats_line self with
    | Some line => when (Py.truthy_str line) (emit (LogInfo line))
    | None => ret tt
    end ;;
    match output_destination (settings self) with
    | Some destination =>
        when (Py.truthy_str destination) (save_output destination output)
    | None => ret tt
    end
  else ret tt.

(** The second half of [close] up to the call of [final_raise]: the
    final error and the error statistics. *)
Definition final_outcome (self : OutputHandler) : option Exn * option string :=
  match final_error self with
  | Some ex => (Some ex, None)
  | None =>
      if Py.truthy_list (rule_matches self)
         && error_on_findings (settings self) then
        (Some (ESemgrep (new_SemgrepError env "" (FINDINGS_EXIT_CODE env))), None)
      else if Py.truthy_list (semgrep_structured_errors self) then
        (option_map ESemgrep (Py.last_opt (semgrep_structured_errors self)),
         Some (Py.str_nat (List.length (semgrep_structured_errors self))
               ++ " files could not be analyzed"))
      else (None, None)
  end.

(** [OutputHandler.close]. *)
Definition close : M unit :=
  close_output ;;
  self <- get ;;
  let '(final_error, error_stats) := final_outcome self in
  final_raise final_error error_stats.

End Handler.

(* ------------------------------------------------------------------ *)
(** ** semgrep_main.py: the [nosem] filter *)

(** The class of word characters, dash and dot of the filter; for [re] on
    a [str], a word character is an alphanumeric one or the underscore. *)
Definition re_word (c : ascii) : bool :=
  let n := nat_of_ascii c in
  (((48 <=? n) && (n <=? 57)) || ((65 <=? n) && (n <=? 90))
   || ((97 <=? n) && (n <=? 122)) || (n =? 95)
   || (n =? 170) || (n =? 178) || (n =? 179) || (n =? 181) || (n =? 185)
   || (n =? 186) || ((188 <=? n) && (n <=? 190))
   || ((192 <=? n) && (n <=? 214)) || ((216 <=? n) && (n <=? 246))
   || (248 <=? n))%nat.

Definition id_char (c : ascii) : bool :=
  re_word c || Ascii.eqb c "-" || Ascii.eqb c ".".

(** [sub] of the runs of that class by the empty string: [x] without the
    characters of the class. *)
Fixpoint sub_id_chars (x : string) : string :=
  match x with
  | EmptyString => EmptyString
  | String c x' => if id_char c then sub_id_chars x' else String c (sub_id_chars x')
  end.

(** [s.strip(...)] with the two quote characters as argument. *)
Definition strip_quotes : string -> string :=
  Py.strip_by (fun c => Ascii.eqb c (ascii_of_nat 34)
                       || Ascii.eqb c (ascii_of_nat 39)).

(** A set of strings built from a sequence: its elements, once each. *)
Definition set_of (l : list string) : list string := nodup string_dec l.

Section Nosem.

Variable env : Env.

(** The order in which a [for] loop visits a set of strings. *)
Variable set_iter : list string -> list string.

(** The two assignments to [pattern_ids] in [rule_match_nosem]. *)
Definition pattern_ids (ids_str : string) : list string :=
  let pattern_ids :=
    set_of (map (fun pattern_id => strip_quotes (Py.strip pattern_id))
                (filter (fun pattern_id => Py.truthy_str (Py.strip pattern_id))
                        (COMMA_SEPARATED_LIST_RE_split env ids_str))) in
  set_of (filter (fun x => negb (Py.truthy_str (sub_id_chars x))) pattern_ids).

(** The [for pattern_id in pattern_ids] loop of [rule_match_nosem], with
    its variable [result]; the debug log is returned with the result. *)
Fixpoint nosem_loop (rule_match : RuleMatch) (strict : bool)
         (ids : list string) (result : bool) : Result bool * list Event :=
  match ids with
  | [] => (Ok result, [])
  | pattern_id :: ids' =>
      if String.eqb (rm_id rule_match) pattern_id then
        let '(r, ev) := nosem_loop rule_match strict ids' (result || true) in
        (r, LogDebug ("found 'nosem' comment with id '" ++ pattern_id
                      ++ "', skipping rule '" ++ rm_id rule_match
                      ++ "' on line "
                      ++ Py.str_Z (pos_line (rm_start rule_match))) :: ev)
      else
        let message :=
          "found 'nosem' comment with id '" ++ pattern_id
          ++ "', but no corresponding rule trying '" ++ rm_id rule_match
          ++ "'" in
        if strict then
          (Raised (ESemgrep (new_SemgrepError env message (FATAL_EXIT_CODE env))),
           [])
        else
          let '(r, ev) := nosem_loop rule_match strict ids' result in
          (r, LogDebug message :: ev)
  end.

(** [rule_match_nosem]. *)
Definition rule_match_nosem (rule_match : RuleMatch) (strict : bool)
  : Result bool * list Event :=
  match rm_lines rule_match with
  | [] => (Ok false, [])
  | line0 :: _ =>
      match NOSEM_INLINE_RE_search env line0 with
      | None => (Ok false, [])
      | Some None =>
          (Ok true,
           [LogDebug ("found 'nosem' comment, skipping rule '"
                      ++ rm_id rule_match ++ "' on line "
                      ++ Py.str_Z (pos_line (rm_start rule_match)))])
      | Some (Some ids_str) =>
          nosem_loop rule_match strict (set_iter (pattern_ids ids_str)) false
      end
  end.

End Nosem.

(** *** The two regular expressions of [semgrep.constants] *)

(** [c] matches [[,\s]]. *)
Definition is_list_sep (c : ascii) : bool := Ascii.eqb c "," || Py.isspace c.

(** Modelled from the spec: [COMMA_SEPARATED_LIST_RE.split], the regular
    expression being defined in [semgrep/constants.py]; the list of
    identifiers is cut at each comma or white space. *)
Fixpoint comma_separated_split (s : string) : list string :=
  match s with
  | EmptyString => [EmptyString]
  | String c s' =>
      if is_list_sep c then EmptyString :: comma_separated_split s'
      else
        match comma_separated_split s' with
        | [] => [String c EmptyString]
        | p :: ps => String c p :: ps
        end
  end.

(** [s] starts with [p], letter case ignored. *)
Fixpoint starts_with_nocase (p s : string) : bool :=
  match p, s with
  | EmptyString, _ => true
  | String a p', String b s' =>
      Ascii.eqb (Py.lower_char a) (Py.lower_char b) && starts_with_nocase p' s'
  | String _ _, EmptyString => false
  end.

(** The [ids] group after [" nosem"]: an optional [grep], then a colon,
    at most one white space and the rest of the line if it starts an
    identifier. *)
Definition nosem_ids (rest : string) : option string :=
  let rest := if starts_with_nocase "grep" rest then Py.drop 4 rest else rest in
  match rest with
  | String c r1 =>
      if Ascii.eqb c ":" then
        let r2 :=
          match r1 with
          | String w r' => if Py.isspace w then r' else r1
          | EmptyString => r1
          end in
        match r2 with
        | String d _ => if is_list_sep d then None else Some r2
        | EmptyString => None
        end
      else None
  | EmptyString => None
  end.

(** Modelled from the spec: [NOSEM_INLINE_RE.search], the regular
    expression being defined in [semgrep/constants.py]; an inline
    annotation is [nosem] or [nosemgrep] after a space, in any letter case,
    with an optional list of identifiers after a colon. *)
Fixpoint nosem_inline_search (line : string) : option (option string) :=
  match line with
  | EmptyString => None
  | String _ line' =>
      if starts_with_nocase " nosem" line then Some (nosem_ids (Py.drop 6 line))
      else nosem_inline_search line'
  end.

(* ------------------------------------------------------------------ *)
(** ** util.py *)

Module Util.

(** [YML_EXTENSIONS], [YML_SUFFIXES] and [YML_TEST_SUFFIXES]; the set is
    the list of its two elements. *)
Definition YML_EXTENSIONS : list string := [".yml"; ".yaml"].
Definition YML_SUFFIXES : list (list string) :=
  map (fun ext => [ext]) YML_EXTENSIONS.
Definition YML_TEST_SUFFIXES : list (list string) :=
  map (fun ext => [".test"; ext]) YML_EXTENSIONS.

(** [flatten]; the generator is the list of what it yields. *)
Fixpoint flatten {A} (L : list (list A)) : list A :=
  match L with
  | [] => []
  | list :: L' => list ++ flatten L'
  end.

(** The levels of [logging] that [set_flags] uses. *)
Inductive LogLevel := LOG_DEBUG | LOG_INFO | LOG_ERROR.

(** The globals of [util.py] and the part of the logger [semgrep] that
    [set_flags] writes: the levels of its handlers and its own level. *)
Record Globals := mkGlobals {
  DEBUG : bool;
  QUIET : bool;
  FORCE_COLOR : bool;
  logger_handlers : list LogLevel;
  logger_level : option LogLevel
}.

(** The module as it is loaded. *)
Definition initial_globals : Globals :=
  mkGlobals false false false [] None.

(** [set_flags]. *)
Definition set_flags (debug_level quiet force_color : bool) (g : Globals)
  : Globals :=
  let handlers : list LogLevel := [] in
  let level := LOG_INFO in
  let level :=
    if debug_level then LOG_DEBUG
    else if quiet then LOG_ERROR
    else level in
  let handlers := (handlers ++ [level])%list in
  mkGlobals (if debug_level then true else DEBUG g)
            (if quiet then true else QUIET g)
            (if force_color then true else FORCE_COLOR g)
            handlers (Some level).

(** [partition]: [filter] and [itertools.filterfalse] on the two copies
    that [itertools.tee] makes of the iterable. *)
Definition partition {A} (pred : A -> bool) (iterable : list A)
  : list A * list A :=
  (filter pred iterable, filter (fun x => negb (pred x)) iterable).

(** [set(l)] for elements compared by [eq_dec]. *)
Definition to_set {A} (eq_dec : forall a b : A, {a = b} + {a <> b})
           (l : list A) : list A :=
  nodup eq_dec l.

(** [partition_set]. *)
Definition partition_set {A} (eq_dec : forall a b : A, {a = b} + {a <> b})
           (pred : A -> bool) (iterable : list A) : list A * list A :=
  (to_set eq_dec (filter pred iterable),
   to_set eq_dec (filter (fun x => negb (pred x)) iterable)).

(** [itertools.combinations(s, r)]: the subsequences of length [r], in
    the lexicographic order of their positions. *)
Fixpoint combinations {A} (s : list A) (r : nat) : list (list A) :=
  match r with
  | O => [[]]
  | S r' =>
      match s with
      | [] => []
      | x :: s' => (map (cons x) (combinations s' r') ++ combinations s' r)%list
      end
  end.

(** [powerset]. *)
Definition powerset {A} (iterable : list A) : list (list A) :=
  let s := iterable in
  flat_map (fun r => combinations s r) (seq 0 (List.length s + 1)).

(** [l[i]] for an index that is not negative: the item, or [IndexError]. *)
Definition list_item {T} (l : list T) (i : nat) : Result T :=
  match nth_error l i with
  | Some x => Ok x
  | None => Raised (EPython "IndexError" "list index out of range")
  end.

(** [all(f(i) for i in range(start, start + n))] for a test that may
    raise: it stops at the first item that is false or raises. *)
Fixpoint all_range (f : nat -> Result bool) (start n : nat) : Result bool :=
  match n with
  | O => Ok true
  | S n' =>
      match f start with
      | Raised ex => Raised ex
      | Ok false => Ok false
      | Ok true => all_range f (S start) n'
      end
  end.

(** [l[i] == m[j]], [==] being [eqb]. *)
Definition items_equal {T} (eqb : T -> T -> bool) (l : list T) (i : nat)
           (m : list T) (j : nat) : Result bool :=
  match list_item l i with
  | Raised ex => Raised ex
  | Ok a =>
      match list_item m j with
      | Raised ex => Raised ex
      | Ok b => Ok (eqb a b)
      end
  end.

(** [liststartswith]. *)
Definition liststartswith {T} (eqb : T -> T -> bool) (l head : list T)
  : Result bool :=
  if (List.length l <? List.length head)%nat then Ok false
  else all_range (fun i => items_equal eqb l i head i) 0 (List.length head).

(** [listendswith]. *)
Definition listendswith {T} (eqb : T -> T -> bool) (l tail : list T)
  : Result bool :=
  if (List.length l <? List.length tail)%nat then Ok false
  else
    all_range
      (fun i => items_equal eqb l (List.length l - List.length tail + i) tail i)
      0 (List.length tail).

(** [any(f(x) for x in l)] for a test that may raise: it stops at the
    first item that is true or raises. *)
Fixpoint any_of {A} (f : A -> Result bool) (l : list A) : Result bool :=
  match l with
  | [] => Ok false
  | x :: l' =>
      match f x with
      | Raised ex => Raised ex
      | Ok true => Ok true
      | Ok false => any_of f l'
      end
  end.

(** [is_config_test_suffix], on [path.suffixes]. *)
Definition is_config_test_suffix (suffixes : list string) : Result bool :=
  any_of (fun s => listendswith String.eqb suffixes s) YML_TEST_SUFFIXES.

(** [is_config_suffix], on [path.suffixes]; [and] does not evaluate its
    second operand when the first is false. *)
Definition is_config_suffix (suffixes : list string) : Result bool :=
  match any_of (fun s => listendswith String.eqb suffixes s) YML_SUFFIXES with
  | Raised ex => Raised ex
  | Ok false => Ok false
  | Ok true =>
      match is_config_test_suffix suffixes with
      | Raised ex => Raised ex
      | Ok b => Ok (negb b)
      end
  end.

End Util.

(* ------------------------------------------------------------------ *)
(** ** output.py: [managed_output] and the object of the JSON report *)

(** [isinstance(ex, Exception)]: a structured error is an [Exception];
    of the built-in classes, [BaseException] itself, [SystemExit],
    [KeyboardInterrupt] and [GeneratorExit] are not. *)
Definition is_Exception (ex : Exn) : bool :=
  match ex with
  | ESemgrep _ => true
  | EPython cls _ =>
      negb (existsb (String.eqb cls)
                    ["BaseException"; "SystemExit"; "KeyboardInterrupt";
                     "GeneratorExit"])
  end.

(** [try: m except Exception as ex: handler(ex)]: an exception that is
    no [Exception] passes through. *)
Definition try_except {A} (m : M A) (handler : Exn -> M A) : M A :=
  fun self =>
    match m self with
    | (Ok a, self', ev) => (Ok a, self', ev)
    | (Raised ex, self', ev) =>
        if is_Exception ex then
          match handler ex self' with
          | (r, self'', ev') => (r, self'', (ev ++ ev')%list)
          end
        else (Raised ex, self', ev)
    end.

(** [try: m finally: final]: [final] runs in both cases, and what it
    raises replaces what [m] raised. *)
Definition try_finally {A} (m : M A) (final : M unit) : M A :=
  fun self =>
    match m self with
    | (r, self', ev) =>
        match final self' with
        | (Ok _, self'', ev') => (r, self'', (ev ++ ev')%list)
        | (Raised ex, self'', ev') => (Raised ex, self'', (ev ++ ev')%list)
        end
    end.

(** [with managed_output(output_settings) as output_handler: body], on the
    handler that [managed_output] has built: an [Exception] that [body]
    throws into the generator is caught there, so that the [with]
    statement raises only what [close] raises; any other exception goes
    through the [finally], and the statement raises it again unless
    [close] raises. *)
Definition managed_output (env : Env) (body : M unit) : M unit :=
  try_finally (try_except body handle_unhandled_exception) (close env).

(** The object that [build_output_json] hands to [json.dumps]. *)
Definition output_json_object (env : Env) (rule_matches : list RuleMatch)
           (semgrep_structured_errors : list SemgrepError)
           (all_targets : list string) (show_json_stats report_time : bool)
           (filtered_rules : list Rule)
           (match_time_matrix : list ((string * string) * string))
           (profiler : option ProfileManager)
           (debug_steps_by_rule : option (list (Rule * list json)))
  : list (string * json) :=
  let results := [("results", JList (map (rm_to_json env) rule_matches))] in
  let debug :=
    match debug_steps_by_rule with
    | Some d =>
        if Py.truthy_list d then
          [("debug",
            JList [JDict (map (fun rs => (rule_id (fst rs), JList (snd rs))) d)])]
        else []
    | None => []
    end in
  let errors :=
    [("errors",
      JList (map (fun e => JDict (err_to_dict env e)) semgrep_structured_errors))] in
  let stats :=
    if show_json_stats then
      [("stats",
        JDict [("targets", make_target_stats env all_targets);
               ("loc", make_loc_stats env all_targets);
               ("profiler",
                match profiler with
                | Some p => dump_stats env p
                | None => JNull
                end)])]
    else [] in
  let time :=
    if report_time then
      [("time", _build_time_json filtered_rules all_targets match_time_matrix)]
    else [] in
  (results ++ debug ++ errors ++ stats ++ time)%list.

(* ------------------------------------------------------------------ *)
(** ** semgrep_main.py: the findings at the end of [main] *)

(** [attr.evolve(rule_match, is_ignored=b)]. *)
Definition evolve_is_ignored (rule_match : RuleMatch) (b : bool) : RuleMatch :=
  mkRuleMatch (rm_id rule_match) (rm_path rule_match) (rm_message rule_match)
              (rm_severity rule_match) (rm_start rule_match) (rm_end rule_match)
              (rm_lines rule_match) (rm_fixed_lines rule_match)
              (rm_fix rule_match) (rm_fix_regex rule_match) b.

Section MainFindings.

Variable env : Env.
Variable set_iter : list string -> list string.

(** The inner comprehension of the first assignment to
    [rule_matches_by_rule]: each finding with the answer of
    [rule_match_nosem] as its [is_ignored]. *)
Fixpoint mark_ignored (strict : bool) (rule_matches : list RuleMatch)
  : Result (list RuleMatch) * list Event :=
  match rule_matches with
  | [] => (Ok [], [])
  | rule_match :: rest =>
      match rule_match_nosem env set_iter rule_match strict with
      | (Raised ex, ev) => (Raised ex, ev)
      | (Ok b, ev) =>
          match mark_ignored strict rest with
          | (Raised ex, ev') => (Raised ex, (ev ++ ev')%list)
          | (Ok l, ev') =>
              (Ok (evolve_is_ignored rule_match b :: l), (ev ++ ev')%list)
          end
      end
  end.

(** The outer comprehension, over the items of the dict. *)
Fixpoint mark_ignored_by_rule (strict : bool)
         (rule_matches_by_rule : list (Rule * list RuleMatch))
  : Result (list (Rule * list RuleMatch)) * list Event :=
  match rule_matches_by_rule with
  | [] => (Ok [], [])
  | (rule, rule_matches) :: rest =>
      match mark_ignored strict rule_matches with
      | (Raised ex, ev) => (Raised ex, ev)
      | (Ok l, ev) =>
          match mark_ignored_by_rule strict rest with
          | (Raised ex, ev') => (Raised ex, (ev ++ ev')%list)
          | (Ok d, ev') => (Ok ((rule, l) :: d), (ev ++ ev')%list)
          end
      end
  end.

(** The second assignment, under [if not disable_nosem]. *)
Definition drop_ignored (rule_matches_by_rule : list (Rule * list RuleMatch))
  : list (Rule * list RuleMatch) :=
  map (fun kv => (fst kv, filter (fun rm => negb (rm_is_ignored rm)) (snd kv)))
      rule_matches_by_rule.

(** [sum(len(v) for v in rule_matches_by_rule.values())]. *)
Definition num_findings (rule_matches_by_rule : list (Rule * list RuleMatch))
  : nat :=
  list_sum (map (fun kv => List.length (snd kv)) rule_matches_by_rule).

(** The end of [main], from the [nosem] pass to the call of
    [handle_semgrep_core_output]. *)
Definition main_report (strict disable_nosem : bool)
           (rule_matches_by_rule : list (Rule * list RuleMatch))
           (debug_steps_by_rule : list (Rule * list json))
           (all_targets : list string) (profiler : ProfileManager)
           (filtered_rules : list Rule)
           (match_time_matrix : list ((string * string) * string)) : M unit :=
  fun self =>
    match mark_ignored_by_rule strict rule_matches_by_rule with
    | (Raised ex, ev) => (Raised ex, self, ev)
    | (Ok rule_matches_by_rule, ev) =>
        let rule_matches_by_rule :=
          if negb disable_nosem then drop_ignored rule_matches_by_rule
          else rule_matches_by_rule in
        let num_findings := num_findings rule_matches_by_rule in
        let stats_line :=
          "ran " ++ Py.str_nat (List.length filtered_rules) ++ " rules on "
          ++ Py.str_nat (List.length all_targets) ++ " files: "
          ++ Py.str_nat num_findings ++ " findings" in
        match handle_semgrep_core_output rule_matches_by_rule
                debug_steps_by_rule stats_line all_targets profiler
                filtered_rules match_time_matrix self with
        | (r, self', ev') => (r, self', (ev ++ ev')%list)
        end
    end.

End MainFindings.

(* ------------------------------------------------------------------ *)
(** ** A concrete environment for the examples *)

(** Constants with the values of a usual installation, serialisers that
    print little, a terminal that accepts every string, a file system and
    a network that answer well. *)
Definition example_env : Env := {|
  BREAK_LINE := Py.repeat_char "-" 80;
  BREAK_LINE_CHAR := "-"%char;
  BREAK_LINE_WIDTH := 80;
  CLI_RULE_ID := "-";
  MAX_LINES_FLAG_NAME := "--max-lines-per-finding";
  NOSEM_INLINE_RE_search := nosem_inline_search;
  COMMA_SEPARATED_LIST_RE_split := comma_separated_split;
  FINDINGS_EXIT_CODE := 1;
  FATAL_EXIT_CODE := 2;
  DEFAULT_LEVEL := ERROR;
  VERSION := "0";
  rm_to_json := fun rm => JStr (rm_id rm);
  rm_to_sarif := fun rm => JStr (rm_id rm);
  rm_to_junit_xml := fun rm => rm_id rm;
  rule_to_sarif := fun r => JStr (rule_id r);
  err_to_dict := fun e =>
    [("type", JStr "SemgrepError");
     ("level", JStr (match err_level e with ERROR => "error" | WARN => "warn" end));
     ("message", JStr (err_str e))];
  json_dumps := fun j =>
    match j with
    | JDict kv => "{" ++ Py.join ", " (map fst kv) ++ "}"
    | _ => "?"
    end;
  to_xml_report_string := fun l => Py.join "," (flat_map ts_cases l);
  make_target_stats := fun _ => JNull;
  make_loc_stats := fun _ => JNull;
  dump_stats := fun _ => JNull;
  stdout_isatty := false;
  stderr_isatty := false;
  FORCE_COLOR := false;
  stdout_encodes := fun _ => true;
  urlparse := fun url =>
    if starts_with_nocase "http://" url then Some ("http", Py.drop 7 url)
    else Some (EmptyString, EmptyString);
  get_base_path := "/base";
  joinpath := fun a b => a ++ "/" ++ b;
  write_file := fun _ _ => None;
  requests_post := fun _ _ => PostStatus 200
|}.

(** Settings of the text format with every option off. *)
Definition text_settings : OutputSettings :=
  mkOutputSettings TEXT None false false false None false false 0.

(** A finding of rule [rid] in file [path] with the given message and
    lines, starting at line 3. *)
Definition example_match (rid path msg : string) (lines : list string)
  : RuleMatch :=
  mkRuleMatch rid path msg "ERROR" (mkPosition 3 1) (mkPosition 3 5)
              lines None None None false.


(** The public methods of an [OutputHandler] before [close], as data. *)
Inductive Call :=
| CallErrors (errors : list SemgrepError)
| CallError (error : SemgrepError)
| CallCoreOutput (rule_matches_by_rule : list (Rule * list RuleMatch))
                 (debug_steps_by_rule : list (Rule * list json))
                 (stats_line : string) (all_targets : list string)
                 (profiler : ProfileManager) (filtered_rules : list Rule)
                 (match_time_matrix : list ((string * string) * string))
| CallUnhandled (ex : Exn).

Definition run_call (env : Env) (c : Call) : M unit :=
  match c with
  | CallErrors errors => handle_semgrep_errors env errors
  | CallError error => handle_semgrep_error error
  | CallCoreOutput r d s t p f m => handle_semgrep_core_output r d s t p f m
  | CallUnhandled ex => handle_unhandled_exception ex
  end.

(** A sequence of calls, one after the other. *)
Fixpoint run_calls (env : Env) (cs : list Call) : M unit :=
  match cs with
  | [] => ret tt
  | c :: cs' => run_call env c ;; run_calls env cs'
  end.

(** The handler after the calls [cs] on a fresh handler. *)
Definition handler_after (env : Env) (output_settings : OutputSettings)
           (cs : list Call) : OutputHandler :=
  state_of (run_calls env cs (new_OutputHandler output_settings)).

(** The handler in which [handle_unhandled_exception] has recorded an
    exception that is no structured error, and nothing else. *)
Definition crashed_handler : OutputHandler :=
  handler_after example_env text_settings
    [CallUnhandled (EPython "ValueError" "boom")].

(** One run of the engine with one finding of rule [r] in [a.py]. *)
Definition one_finding_run : Call :=
  CallCoreOutput [(mkRule "r" EmptyString, [example_match "r" "a.py" "m" ["x"]])]
                 [] "ran 1 rules" ["a.py"] 0 [] [].

(** A handler of the JSON format with the destination [out.json], after
    one run of the engine. *)
Definition saved_json_handler : OutputHandler :=
  handler_after example_env
    (mkOutputSettings JSON (Some "out.json") false false false None false false 0)
    [one_finding_run].

(** [example_env] with a network that does not answer in time. *)
Definition timeout_env : Env := {|
  BREAK_LINE := BREAK_LINE example_env;
  BREAK_LINE_CHAR := BREAK_LINE_CHAR example_env;
  BREAK_LINE_WIDTH := BREAK_LINE_WIDTH example_env;
  CLI_RULE_ID := CLI_RULE_ID example_env;
  MAX_LINES_FLAG_NAME := MAX_LINES_FLAG_NAME example_env;
  NOSEM_INLINE_RE_search := NOSEM_INLINE_RE_search example_env;
  COMMA_SEPARATED_LIST_RE_split := COMMA_SEPARATED_LIST_RE_split example_env;
  FINDINGS_EXIT_CODE := FINDINGS_EXIT_CODE example_env;
  FATAL_EXIT_CODE := FATAL_EXIT_CODE example_env;
  DEFAULT_LEVEL := DEFAULT_LEVEL example_env;
  VERSION := VERSION example_env;
  rm_to_json := rm_to_json example_env;
  rm_to_sarif := rm_to_sarif example_env;
  rm_to_junit_xml := rm_to_junit_xml example_env;
  rule_to_sarif := rule_to_sarif example_env;
  err_to_dict := err_to_dict example_env;
  json_dumps := json_dumps example_env;
  to_xml_report_string := to_xml_report_string example_env;
  make_target_stats := make_target_stats example_env;
  make_loc_stats := make_loc_stats example_env;
  dump_stats := dump_stats example_env;
  stdout_isatty := stdout_isatty example_env;
  stderr_isatty := stderr_isatty example_env;
  FORCE_COLOR := FORCE_COLOR example_env;
  stdout_encodes := stdout_encodes example_env;
  urlparse := urlparse example_env;
  get_base_path := get_base_path example_env;
  joinpath := joinpath example_env;
  write_file := write_file example_env;
  requests_post := fun _ _ => PostTimeout
|}.

(** [example_env] with errors that serialise without [message] and with
    the long message [parse failure]. *)
Definition long_msg_env : Env := {|
  BREAK_LINE := BREAK_LINE example_env;
  BREAK_LINE_CHAR := BREAK_LINE_CHAR example_env;
  BREAK_LINE_WIDTH := BREAK_LINE_WIDTH example_env;
  CLI_RULE_ID := CLI_RULE_ID example_env;
  MAX_LINES_FLAG_NAME := MAX_LINES_FLAG_NAME example_env;
  NOSEM_INLINE_RE_search := NOSEM_INLINE_RE_search example_env;
  COMMA_SEPARATED_LIST_RE_split := COMMA_SEPARATED_LIST_RE_split example_env;
  FINDINGS_EXIT_CODE := FINDINGS_EXIT_CODE example_env;
  FATAL_EXIT_CODE := FATAL_EXIT_CODE example_env;
  DEFAULT_LEVEL := DEFAULT_LEVEL example_env;
  VERSION := VERSION example_env;
  rm_to_json := rm_to_json example_env;
  rm_to_sarif := rm_to_sarif example_env;
  rm_to_junit_xml := rm_to_junit_xml example_env;
  rule_to_sarif := rule_to_sarif example_env;
  err_to_dict := fun e =>
    [("type", JStr "SourceParseError");
     ("level", JStr (match err_level e with ERROR => "error" | WARN => "warn" end));
     ("long_msg", JStr "parse failure")];
  json_dumps := json_dumps example_env;
  to_xml_report_string := to_xml_report_string example_env;
  make_target_stats := make_target_stats example_env;
  make_loc_stats := make_loc_stats example_env;
  dump_stats := dump_stats example_env;
  stdout_isatty := stdout_isatty example_env;
  stderr_isatty := stderr_isatty example_env;
  FORCE_COLOR := FORCE_COLOR example_env;
  stdout_encodes := stdout_encodes example_env;
  urlparse := urlparse example_env;
  get_base_path := get_base_path example_env;
  joinpath := joinpath example_env;
  write_file := write_file example_env;
  requests_post := requests_post example_env
|}.

(** A finding of three lines. *)
Definition three_line_match : RuleMatch :=
  example_match "r" "a.py" "m" ["x = 1  "; "y"; "z"].

(** A finding of rule [a] whose first line lists [a] and [b]. *)
Definition nosem_match : RuleMatch :=
  example_match "a" "a.py" "m" ["x = 1  # nosem: a, b"].

(** A handler of the Emacs format after a run with one finding that has
    no source line. *)
Definition emacs_handler_no_lines : OutputHandler :=
  handler_after example_env
    (mkOutputSettings EMACS None false false false None false false 0)
    [CallCoreOutput [(mkRule "r" EmptyString, [example_match "r" "a.py" "m" []])]
                    [] "ran 1 rules" ["a.py"] 0 [] []].

(** A handler of the text format with the destination [out.txt], after a
    run without findings. *)
Definition empty_text_handler : OutputHandler :=
  handler_after example_env
    (mkOutputSettings TEXT (Some "out.txt") false false false None false false 0)
    [CallCoreOutput [] [] "ran 1 rules" ["a.py"] 0 [] []].

(** The timeout of rule [r] on [a.py]. *)
Definition timeout_error : SemgrepError :=
  mkSemgrepError "timeout" 2 ERROR true "a.py" "r".

(** A fresh handler of the JSON format. *)
Definition fresh_json_handler : OutputHandler :=
  new_OutputHandler
    (mkOutputSettings JSON None false false false None false false 0).

(** A warning that is a structured error. *)
Definition warning_error : SemgrepError :=
  mkSemgrepError "skipped" 2 WARN false EmptyString EmptyString.

(** A handler of the JSON format with a URL as its destination, after one
    run of the engine with one finding; findings are no error for it. *)
Definition posting_handler : OutputHandler :=
  handler_after timeout_env
    (mkOutputSettings JSON (Some "http://host/in") false false false None
                      false false 0)
    [one_finding_run].

(* ------------------------------------------------------------------ *)
(** ** Vocabulary of the properties *)

(** [m] reads the handler and leaves it as it found it. *)
Definition read_only {A} (m : M A) : Prop :=
  forall self, state_of (m self) = self.

(** The hint that [final_raise] logs instead of raising. *)
Definition strict_hint (error_stats : option string) : string :=
  fmt_opt error_stats
  ++ "; run with --verbose for details or run with --strict to exit non-zero if any file cannot be analyzed".

(** The list of accumulated errors has no repetition and [error_set] holds
    exactly its elements. *)
Definition errors_wf (self : OutputHandler) : Prop :=
  NoDup (semgrep_structured_errors self)
  /\ forall e, In e (error_set self) <-> In e (semgrep_structured_errors self).

(** [has_output] is set only once an error or the statistics of a run
    have been stored. *)
Definition output_flagged (self : OutputHandler) : Prop :=
  has_output self = true ->
  semgrep_structured_errors self <> [] \/ stats_line self <> None.

(** What every method keeps: the settings, the two invariants, the errors
    accumulated so far, and the statistics once stored. *)
Record Step (s s' : OutputHandler) : Prop := mkStep {
  step_settings : settings s' = settings s;
  step_wf : errors_wf s -> errors_wf s';
  step_flagged : errors_wf s -> output_flagged s -> output_flagged s';
  step_incl : incl (semgrep_structured_errors s) (semgrep_structured_errors s');
  step_stats : stats_line s <> None -> stats_line s' <> None
}.

(** The handler once [error] is appended to the list and added to the set. *)
Definition with_error (error : SemgrepError) (self : OutputHandler) : OutputHandler :=
  set_error_set (error :: error_set self)
    (set_semgrep_structured_errors
       (semgrep_structured_errors self ++ [error])%list self).

(** The errors a call hands over. *)
Definition errors_of_call (c : Call) : list SemgrepError :=
  match c with
  | CallErrors errors => errors
  | CallError error => [error]
  | CallCoreOutput _ _ _ _ _ _ _ => []
  | CallUnhandled (ESemgrep e) => [e]
  | CallUnhandled (EPython _ _) => []
  end.

(** The [color_output] argument that [close] computes. *)
Definition close_color (env : Env) (self : OutputHandler) : bool :=
  match output_destination (settings self) with
  | None => true
  | Some _ => false
  end && stdout_isatty env.

(** An event of the delivery to a destination. *)
Definition is_persist_event (e : Event) : bool :=
  match e with
  | WriteFile _ _ | HttpPost _ _ => true
  | _ => false
  end.

(** What follows the source lines under a limit [n]: nothing when [n] is
    1, the marker of the hidden lines when there are more than [n] lines,
    else the separator if asked for. *)
Definition limited_tail (env : Env) (total n : Z) (show_separator : bool)
  : list string :=
  if (n =? 1)%Z then []
  else if (n <? total)%Z then
    [Py.center (" [hid " ++ Py.str_Z (total - n)
                ++ " additional lines, adjust with "
                ++ MAX_LINES_FLAG_NAME env ++ "] ")
               (BREAK_LINE_WIDTH env) (BREAK_LINE_CHAR env)]
  else if show_separator then [BREAK_LINE env]
  else [].

(** The values of [last_file] and [last_message] after the loop went
    through [pre], having started with [last]. *)
Definition last_after (field : RuleMatch -> string) (last : option string)
           (pre : list RuleMatch) : option string :=
  match Py.last_opt pre with
  | Some r => Some (field r)
  | None => last
  end.

(** The header that the loop yields for [r2] right after [r1] in the same
    file, as the guard of the source decides it. *)
Definition header_after (env : Env) (color_output : bool) (r1 r2 : RuleMatch)
  : list string :=
  if Py.truthy_str (rm_id r2)
     && negb (String.eqb (rm_id r2) (CLI_RULE_ID env))
     && negb (String.eqb (rm_message r1) (rm_message r2))
  then [rule_header color_output r2] else [].

(** The message of the error that strict mode raises for [pattern_id]. *)
Definition no_rule_message (rule_match : RuleMatch) (pattern_id : string)
  : string :=
  "found 'nosem' comment with id '" ++ pattern_id
  ++ "', but no corresponding rule trying '" ++ rm_id rule_match ++ "'".

(** Every character of [x] is a word character, a dash or a dot. *)
Fixpoint all_id_chars (x : string) : bool :=
  match x with
  | EmptyString => true
  | String c x' => id_char c && all_id_chars x'
  end.

(** [c] is a subsequence of [s]: some of the items of [s], in their order. *)
Inductive Subseq {A} : list A -> list A -> Prop :=
| Subseq_nil : Subseq [] []
| Subseq_skip (x : A) (c s : list A) : Subseq c s -> Subseq c (x :: s)
| Subseq_take (x : A) (c s : list A) : Subseq c s -> Subseq (x :: c) (x :: s).

(** A sequence of calls of [set_flags], each with its three arguments. *)
Definition set_flags_calls (calls : list (bool * bool * bool))
           (g : Util.Globals) : Util.Globals :=
  fold_left (fun g c => Util.set_flags (fst (fst c)) (snd (fst c)) (snd c) g)
            calls g.

(** The level that [set_flags] gives the logger for its arguments. *)
Definition level_of_call (c : bool * bool * bool) : Util.LogLevel :=
  if fst (fst c) then Util.LOG_DEBUG
  else if snd (fst c) then Util.LOG_ERROR
  else Util.LOG_INFO.

(** [a] does not come after [b] in the order of the reports: its path is
    smaller, part by part, or the paths have the same parts and its rule
    id is not greater. *)
Definition path_id_le (a b : RuleMatch) : Prop :=
  Py.strs_ltb (path_parts (rm_path a)) (path_parts (rm_path b)) = true
  \/ (path_parts (rm_path a) = path_parts (rm_path b)
      /\ Py.str_ltb (rm_id b) (rm_id a) = false).

(** The warning that [handle_semgrep_timeout_errors] logs for one path. *)
Definition timeout_warning (env : Env) (self : OutputHandler)
           (entry : string * list string) : Event :=
  LogError (with_color env Colorama.Fore_RED
              (fst (timeout_message (timeout_threshold (settings self))
                                    (fst entry) (snd entry)))).

(** The hint about the threshold option. *)
Definition threshold_hint (env : Env) : Event :=
  LogError
    (with_color env Colorama.Fore_RED
       "You can use the `--timeout-threshold` flag to set a number of timeouts after which a file will be skipped.").

(** The object of the JSON report of a handler: the debug steps only in
    the format [json-debug]. *)
Definition json_report_object (env : Env) (self : OutputHandler)
  : list (string * json) :=
  output_json_object env (rule_matches self) (semgrep_structured_errors self)
    (all_targets self) (json_stats (settings self)) (json_time (settings self))
    (filtered_rules self) (match_time_matrix self) (profiler self)
    (if format_eqb (output_format (settings self)) JSON_DEBUG
     then Some (debug_steps_by_rule self) else None).

(** The exception that [close] raises when standard output cannot encode
    the report. *)
Definition encoding_error : Exn :=
  EPython "Exception"
          "Received output encoding error, please set PYTHONIOENCODING=utf-8".

(** Whether [final_raise] raises the cause [ex] under the setting
    [strict]. *)
Definition cause_is_raised (strict : bool) (ex : Exn) : bool :=
  match ex with
  | EPython _ _ => true
  | ESemgrep e => level_eqb (err_level e) ERROR || strict
  end.

(** The answer of [rule_match_nosem] with strict mode off. *)
Definition suppressed (env : Env) (set_iter : list string -> list string)
           (rule_match : RuleMatch) : bool :=
  match fst (rule_match_nosem env set_iter rule_match false) with
  | Ok b => b
  | Raised _ => false
  end.

(** The findings that the end of [main] hands to the handler with strict
    mode off: all of them with their answer as [is_ignored] when the
    filter is disabled, else those that are not suppressed. *)
Definition reported (env : Env) (set_iter : list string -> list string)
           (disable_nosem : bool) (rule_matches : list RuleMatch)
  : list RuleMatch :=
  if disable_nosem then
    map (fun rm => evolve_is_ignored rm (suppressed env set_iter rm)) rule_matches
  else
    map (fun rm => evolve_is_ignored rm false)
        (filter (fun rm => negb (suppressed env set_iter rm)) rule_matches).

(** The number of combinations of the lengths below [k]. *)
Definition combinations_upto {A} (s : list A) (k : nat) : nat :=
  list_sum (map (fun r => List.length (Util.combinations s r)) (seq 0 k)).

(** The severities that the Vim renderer knows. *)
Definition vim_severity (severity : string) : Prop :=
  severity = "INFO" \/ severity = "WARNING" \/ severity = "ERROR".

(* ------------------------------------------------------------------ *)
(** ** Properties *)

(** *** Runs in the monad *)

Lemma bind_run {A B} (m : M A) (k : A -> M B) (self : OutputHandler) :
  bind m k self =
  match m self with
  | (Ok a, self', ev) =>
      (result_of (k a self'), state_of (k a self'),
       (ev ++ events_of (k a self'))%list)
  | (Raised ex, self', ev) => (Raised ex, self', ev)
  end.
Proof.
  unfold bind, result_of, state_of, events_of.
  destruct (m self) as [[[a | ex] self'] ev]; [| reflexivity].
  destruct (k a self') as [[r s] ev']; reflexivity.
Qed.

Lemma run_eta {A} (r : Result A * OutputHandler * list Event) :
  r = (result_of r, state_of r, events_of r).
Proof. destruct r as [[? ?] ?]; reflexivity. Qed.

Lemma read_only_ret {A} (a : A) : read_only (ret a).
Proof. intro; reflexivity. Qed.

Lemma read_only_raise {A} (ex : Exn) : read_only (@raise A ex).
Proof. intro; reflexivity. Qed.

Lemma read_only_emit (e : Event) : read_only (emit e).
Proof. intro; reflexivity. Qed.

Lemma read_only_get : read_only get.
Proof. intro; reflexivity. Qed.

Lemma read_only_of_result {A} (r : Result A) : read_only (of_result r).
Proof. intro; reflexivity. Qed.

Lemma read_only_bind {A B} (m : M A) (k : A -> M B) :
  read_only m -> (forall a, read_only (k a)) -> read_only (bind m k).
Proof.
  intros Hm Hk self. rewrite bind_run.
  specialize (Hm self).
  destruct (m self) as [[[a | ex] self'] ev]; unfold state_of in *; cbn in *.
  - subst self'. apply Hk.
  - exact Hm.
Qed.

Lemma read_only_when (b : bool) (m : M unit) :
  read_only m -> read_only (when b m).
Proof. destruct b; [trivial | intros _; apply read_only_ret]. Qed.

Create HintDb read_only.

#[local] Hint Resolve read_only_ret read_only_raise read_only_emit
  read_only_get read_only_of_result read_only_when : read_only.

Ltac read_only_step :=
  match goal with
  | |- read_only (bind _ _) => apply read_only_bind; [| intro]
  | |- read_only (if ?b then _ else _) => destruct b
  | |- read_only (match ?x with _ => _ end) => destruct x
  | |- read_only _ => solve [auto with read_only]
  end.

Lemma read_only_final_raise (ex : option Exn) (error_stats : option string) :
  read_only (final_raise ex error_stats).
Proof. unfold final_raise. repeat read_only_step. Qed.

Lemma read_only_build_output (env : Env) (color_output : bool) (limit : option Z) :
  read_only (build_output env color_output limit).
Proof. unfold build_output. repeat read_only_step. Qed.

Lemma read_only_save_output (env : Env) (destination output : string) :
  read_only (save_output env destination output).
Proof. unfold save_output, post_output. repeat read_only_step. Qed.

Lemma read_only_print_output (env : Env) (output : string) :
  read_only (print_output env output).
Proof. unfold print_output. repeat read_only_step. Qed.

Lemma read_only_close_output (env : Env) : read_only (close_output env).
Proof.
  unfold close_output.
  apply read_only_bind; [auto with read_only | intro self].
  destruct (has_output self); [| auto with read_only].
  apply read_only_bind; [apply read_only_build_output | intro output].
  apply read_only_bind;
    [apply read_only_when, read_only_print_output | intros _].
  apply read_only_bind.
  - destruct (stats_line self); auto with read_only.
  - intros _. destruct (output_destination (settings self));
      [apply read_only_when, read_only_save_output | auto with read_only].
Qed.

Lemma read_only_close (env : Env) : read_only (close env).
Proof.
  unfold close.
  apply read_only_bind; [apply read_only_close_output | intros _].
  apply read_only_bind; [auto with read_only | intro self].
  destruct (final_outcome env self). apply read_only_final_raise.
Qed.

(** *** The final outcome *)

Lemma final_raise_some (self : OutputHandler) (ex : Exn)
      (error_stats : option string) :
  final_raise (Some ex) error_stats self =
  match ex with
  | EPython _ _ => (Raised ex, self, [])
  | ESemgrep e =>
      match err_level e with
      | ERROR => (Raised ex, self, [])
      | WARN =>
          if strict (settings self) then (Raised ex, self, [])
          else (Ok tt, self, [LogInfo (strict_hint error_stats)])
      end
  end.
Proof.
  destruct ex as [e | cls msg]; [| reflexivity].
  unfold final_raise. destruct (err_level e); [reflexivity |].
  cbn. unfold bind, get. destruct (strict (settings self)); reflexivity.
Qed.

(** C7.  [final_raise] on a resolved cause [ex] raises [ex] if and only if
    [ex] is not a structured error, or is a structured error at level
    ERROR, or is one at level WARN while strict mode is on.  It raises
    nothing else; and for a structured error at level WARN with strict
    mode off it returns normally after logging one hint. *)
Theorem final_raise_disposition
        (self : OutputHandler) (ex : Exn) (error_stats : option string) :
  (result_of (final_raise (Some ex) error_stats self) = Raised ex
   <-> (is_semgrep_error ex = false
        \/ exists e, ex = ESemgrep e
                     /\ (err_level e = ERROR
                         \/ (err_level e = WARN
                             /\ strict (settings self) = true))))
  /\ (result_of (final_raise (Some ex) error_stats self) <> Raised ex ->
      final_raise (Some ex) error_stats self
      = (Ok tt, self, [LogInfo (strict_hint error_stats)]))
  /\ (forall e, ex = ESemgrep e -> err_level e = WARN ->
                strict (settings self) = false ->
                final_raise (Some ex) error_stats self
                = (Ok tt, self, [LogInfo (strict_hint error_stats)])).
Proof.
  rewrite final_raise_some.
  destruct ex as [e | cls msg].
  - destruct (err_level e) eqn:Hl; [| destruct (strict (settings self)) eqn:Hs];
      unfold result_of; cbn; (split; [split |]).
    + intros _. right. exists e. auto.
    + reflexivity.
    + split; [intros H; exfalso; apply H; reflexivity |].
      intros e' He'. inversion He'; subst e'. congruence.
    + intros _. right. exists e. auto.
    + reflexivity.
    + split; [intros H; exfalso; apply H; reflexivity |].
      intros e' He' _ H. discriminate H.
    + intros H. discriminate H.
    + intros [H | [e' [He' [H | [_ H]]]]]; try discriminate H.
      inversion He'; subst e'. congruence.
    + split; reflexivity.
  - unfold result_of; cbn. split; [split |].
    + intros _. left. reflexivity.
    + reflexivity.
    + split; [intros H; exfalso; apply H; reflexivity |].
      intros e He. discriminate He.
Qed.

(** [l[-1]] of a list that ends with [x]. *)
Lemma last_opt_app {A} (l : list A) (x : A) : Py.last_opt (l ++ [x])%list = Some x.
Proof. unfold Py.last_opt. rewrite rev_app_distr. reflexivity. Qed.

Lemma truthy_list_false {A} (l : list A) : Py.truthy_list l = false <-> l = [].
Proof. destruct l; cbn; split; congruence. Qed.

(** [close] is its delivery half followed by [final_raise] on the outcome
    resolved from the handler, which delivery leaves unchanged. *)
Lemma close_run (env : Env) (self : OutputHandler) :
  close env self =
  match close_output env self with
  | (Ok _, _, ev) =>
      (result_of (final_raise (fst (final_outcome env self))
                              (snd (final_outcome env self)) self),
       self,
       (ev ++ events_of (final_raise (fst (final_outcome env self))
                                     (snd (final_outcome env self)) self))%list)
  | (Raised ex, _, ev) => (Raised ex, self, ev)
  end.
Proof.
  unfold close. rewrite bind_run.
  pose proof (read_only_close_output env self) as Hs.
  destruct (close_output env self) as [[[[] | ex] self'] ev];
    unfold state_of in Hs; cbn in Hs; subst self'; [| reflexivity].
  rewrite bind_run; cbn.
  destruct (final_outcome env self) as [fe es]; cbn.
  rewrite (read_only_final_raise fe es self). reflexivity.
Qed.

(** *** The accumulated errors *)

Lemma Step_refl (s : OutputHandler) : Step s s.
Proof. constructor; auto using incl_refl. Qed.

Lemma Step_trans (s1 s2 s3 : OutputHandler) : Step s1 s2 -> Step s2 s3 -> Step s1 s3.
Proof.
  intros [A1 B1 C1 D1 E1] [A2 B2 C2 D2 E2]. constructor; auto.
  - congruence.
  - eapply incl_tran; eassumption.
Qed.

Lemma error_in_true (e : SemgrepError) (l : list SemgrepError) :
  error_in e l = true <-> In e l.
Proof. unfold error_in. destruct (in_dec _ e l); split; auto; discriminate. Qed.

Lemma error_in_false (e : SemgrepError) (l : list SemgrepError) :
  error_in e l = false <-> ~ In e l.
Proof.
  unfold error_in. destruct (in_dec _ e l); split; auto; try discriminate; tauto.
Qed.

Lemma nonempty_of_in {A} (x : A) (l : list A) : In x l -> l <> [].
Proof. destruct l; [intros [] | discriminate]. Qed.

Lemma in_with_error (e : SemgrepError) (s : OutputHandler) :
  In e (semgrep_structured_errors (with_error e s)).
Proof. cbn. apply in_or_app. right. left. reflexivity. Qed.

Ltac step_with_error e s He :=
  apply error_in_false in He;
  constructor; cbn; auto using incl_appl, incl_refl;
  [ intros [Hnd Hset]; split; cbn;
    [ apply NoDup_app; [exact Hnd | repeat constructor; intros [] | ];
      intros x Hx [Hx' | []]; subst x; apply He, Hset, Hx
    | intros x; rewrite in_app_iff; cbn; rewrite Hset; tauto ]
  | intros _ _ _; left; eapply nonempty_of_in, (in_with_error e s) ].

Lemma Step_with_error (e : SemgrepError) (s : OutputHandler) :
  error_in e (error_set s) = false -> Step s (with_error e s).
Proof. intros He. step_with_error e s He. Qed.

Lemma Step_with_error_flag (e : SemgrepError) (s : OutputHandler) :
  error_in e (error_set s) = false ->
  Step s (with_error e (set_has_output true s)).
Proof. intros He. step_with_error e s He. Qed.

Lemma Step_set_has_output (s : OutputHandler) :
  (errors_wf s -> semgrep_structured_errors s <> []) ->
  Step s (set_has_output true s).
Proof.
  intros Hne. constructor; cbn; auto using incl_refl.
  intros Hwf _ _. left. auto.
Qed.

(** [handle_semgrep_error] returns, and leaves the error in the list. *)
Lemma handle_semgrep_error_run (error : SemgrepError) (self : OutputHandler) :
  exists self' ev,
    handle_semgrep_error error self = (Ok tt, self', ev)
    /\ Step self self'
    /\ (errors_wf self -> In error (semgrep_structured_errors self'))
    /\ has_output self' = true.
Proof.
  unfold handle_semgrep_error, bind, modify, get; cbn.
  destruct (error_in error (error_set self)) eqn:Hin; cbn.
  - do 2 eexists. split; [reflexivity |].
    apply error_in_true in Hin.
    split; [| split; [| reflexivity]].
    + apply Step_set_has_output. intros [_ Hset].
      eapply nonempty_of_in, Hset, Hin.
    + intros [_ Hset]. cbn. apply Hset, Hin.
  - destruct (when _ _ _) as [[r s'] ev] eqn:Hw.
    assert (r = Ok tt /\ s' = with_error error (set_has_output true self)) as [-> ->].
    { unfold when in Hw. destruct (_ && _) in Hw; inversion Hw; auto. }
    do 2 eexists. split; [reflexivity |]. split; [| split; [| reflexivity]].
    + apply Step_with_error_flag, Hin.
    + intros _. apply in_with_error.
Qed.

(** An error that is new becomes the last element of the list. *)
Lemma handle_semgrep_error_appends (error : SemgrepError) (self : OutputHandler) :
  error_in error (error_set self) = false ->
  Py.last_opt (semgrep_structured_errors
                 (state_of (handle_semgrep_error error self)))
  = Some error.
Proof.
  intros Hin. unfold handle_semgrep_error, bind, modify, get; cbn.
  rewrite Hin; cbn.
  destruct (when _ _ _) as [[r s'] ev] eqn:Hw.
  assert (s' = with_error error (set_has_output true self)) as ->.
  { unfold when in Hw. destruct (_ && _) in Hw; inversion Hw; auto. }
  unfold state_of; cbn. apply last_opt_app.
Qed.

(** The loop that logs the timeouts changes nothing in the handler. *)
Lemma timeout_errors_loop_run (env : Env) (errors : list (string * list string))
      (hint : bool) (self : OutputHandler) :
  exists b ev, timeout_errors_loop env errors hint self = (Ok b, self, ev).
Proof.
  revert hint.
  induction errors as [| [path ids] errors IH]; intros hint;
    cbn [timeout_errors_loop].
  - do 2 eexists. reflexivity.
  - unfold bind, get, emit.
    destruct (timeout_message (timeout_threshold (settings self)) path ids)
      as [msg h].
    destruct (IH (hint || h)) as [b [ev ->]]. do 2 eexists. reflexivity.
Qed.

Lemma handle_semgrep_timeout_errors_run (env : Env)
      (errors : list (string * list string)) (self : OutputHandler) :
  exists ev,
    handle_semgrep_timeout_errors env errors self
    = (Ok tt, set_has_output true self, ev).
Proof.
  unfold handle_semgrep_timeout_errors, bind, modify; cbn.
  destruct (timeout_errors_loop_run env errors false (set_has_output true self))
    as [b [ev ->]].
  destruct b; cbn; eexists; reflexivity.
Qed.

(** The loop of [handle_semgrep_errors] returns; every error it was given
    is then in the list, and the timeouts it has noted were appended. *)
Lemma semgrep_errors_loop_run (errors : list SemgrepError)
      (timeout_errors : list (string * list string)) (self : OutputHandler) :
  exists timeout_errors' self' ev,
    semgrep_errors_loop errors timeout_errors self
    = (Ok timeout_errors', self', ev)
    /\ Step self self'
    /\ (errors_wf self ->
        forall e, In e errors -> In e (semgrep_structured_errors self'))
    /\ ((timeout_errors <> [] -> semgrep_structured_errors self <> []) ->
        timeout_errors' <> [] -> semgrep_structured_errors self' <> []).
Proof.
  revert timeout_errors self.
  induction errors as [| err errors IH]; intros timeout_errors self; cbn.
  - do 3 eexists. split; [reflexivity |].
    split; [apply Step_refl |]. split; [intros _ e [] | auto].
  - unfold bind at 1, get; cbn.
    destruct (err_is_timeout err && negb (error_in err (error_set self))) eqn:Hc.
    + apply andb_prop in Hc as [_ Hin]. apply negb_true_iff in Hin.
      unfold bind, modify; cbn. fold (with_error err self).
      destruct (IH (defaultdict_append (err_path err) (err_rule_id err)
                                       timeout_errors)
                   (with_error err self))
        as [t' [s' [ev [-> [St [Hall Ht]]]]]].
      pose proof (Step_with_error err self Hin) as St0.
      do 3 eexists. split; [reflexivity |].
      split; [eapply Step_trans; eassumption |]. split.
      * intros Hwf e [<- | He].
        -- apply (step_incl St), in_with_error.
        -- apply Hall; [apply (step_wf St0), Hwf | exact He].
      * intros _. apply Ht. intros _.
        eapply nonempty_of_in, in_with_error.
    + unfold bind at 1.
      destruct (handle_semgrep_error_run err self)
        as [s1 [ev1 [-> [St0 [Hin1 _]]]]].
      destruct (IH timeout_errors s1) as [t' [s' [ev [-> [St [Hall Ht]]]]]].
      do 3 eexists. split; [reflexivity |].
      split; [eapply Step_trans; eassumption |]. split.
      * intros Hwf e [<- | He].
        -- apply (step_incl St), Hin1, Hwf.
        -- apply Hall; [apply (step_wf St0), Hwf | exact He].
      * intros H0. apply Ht. intros Hne. specialize (H0 Hne).
        intros Heq. apply H0.
        pose proof (step_incl St0) as Hi. rewrite Heq in Hi.
        destruct (semgrep_structured_errors self) as [| x l]; [reflexivity |].
        destruct (Hi x (or_introl eq_refl)).
Qed.

Lemma handle_semgrep_errors_run (env : Env) (errors : list SemgrepError)
      (self : OutputHandler) :
  exists self' ev,
    handle_semgrep_errors env errors self = (Ok tt, self', ev)
    /\ Step self self'
    /\ (errors_wf self ->
        forall e, In e errors -> In e (semgrep_structured_errors self')).
Proof.
  unfold handle_semgrep_errors, bind at 1.
  destruct (semgrep_errors_loop_run errors [] self)
    as [t [s1 [ev1 [-> [St [Hall Ht]]]]]].
  unfold bind, get.
  destruct (Py.truthy_list t && format_eqb (output_format (settings s1)) TEXT)
    eqn:Hc; cbn [when].
  - destruct (handle_semgrep_timeout_errors_run env t s1) as [ev2 ->].
    apply andb_prop in Hc as [Hc _].
    assert (Hne : semgrep_structured_errors s1 <> []).
    { apply Ht; [intros H; contradiction |].
      destruct t; [discriminate | discriminate]. }
    do 2 eexists. split; [reflexivity |]. split.
    + eapply Step_trans; [exact St |].
      apply Step_set_has_output. intros _. exact Hne.
    + intros Hwf e He. cbn. apply Hall; assumption.
  - do 2 eexists. split; [reflexivity |]. split; assumption.
Qed.

Lemma handle_semgrep_core_output_run
      (r : list (Rule * list RuleMatch)) (d : list (Rule * list json))
      (line : string) (targets : list string) (p : ProfileManager)
      (f : list Rule) (m : list ((string * string) * string))
      (self : OutputHandler) :
  exists self',
    handle_semgrep_core_output r d line targets p f m self = (Ok tt, self', [])
    /\ Step self self'
    /\ stats_line self' = Some line
    /\ rule_matches self' = (rule_matches self ++ flat_map snd r)%list
    /\ final_error self' = final_error self.
Proof.
  eexists. split; [reflexivity |]. split; [| repeat split].
  constructor; cbn; auto using incl_refl; intros; try discriminate.
  intros _. right. discriminate.
Qed.

Lemma handle_unhandled_exception_run (ex : Exn) (self : OutputHandler) :
  exists self' ev,
    handle_unhandled_exception ex self = (Ok tt, self', ev)
    /\ Step self self'
    /\ (errors_wf self ->
        forall e, ex = ESemgrep e -> In e (semgrep_structured_errors self'))
    /\ final_error self' = Some ex.
Proof.
  unfold handle_unhandled_exception, bind at 1.
  destruct ex as [e | cls msg].
  - destruct (handle_semgrep_error_run e self) as [s1 [ev1 [-> [St [Hin _]]]]].
    do 2 eexists. split; [reflexivity |]. cbn. split; [| split; [| reflexivity]].
    + destruct St. constructor; auto.
    + intros Hwf e' He'. inversion He'; subst e'. apply Hin, Hwf.
  - do 2 eexists. split; [reflexivity |]. cbn. split; [| split; [| reflexivity]].
    + constructor; cbn; auto using incl_refl.
    + intros _ e He. discriminate He.
Qed.

Lemma run_call_run (env : Env) (c : Call) (self : OutputHandler) :
  exists self' ev,
    run_call env c self = (Ok tt, self', ev)
    /\ Step self self'
    /\ (errors_wf self ->
        forall e, In e (errors_of_call c) -> In e (semgrep_structured_errors self')).
Proof.
  destruct c as [errors | error | r d line targets p f m | ex];
    cbn [run_call errors_of_call].
  - apply handle_semgrep_errors_run.
  - destruct (handle_semgrep_error_run error self) as [s [ev [E [St [Hin _]]]]].
    exists s, ev. split; [exact E | split; [exact St |]].
    intros Hwf e [<- | []]. auto.
  - destruct (handle_semgrep_core_output_run r d line targets p f m self)
      as [s [E [St _]]].
    exists s, []. split; [exact E | split; [exact St |]]. intros _ e [].
  - destruct (handle_unhandled_exception_run ex self) as [s [ev [E [St [Hin _]]]]].
    exists s, ev. split; [exact E | split; [exact St |]].
    intros Hwf e He. destruct ex as [e' |]; [| destruct He].
    destruct He as [<- | []]. apply Hin; auto.
Qed.

(** Any sequence of calls returns, keeps the invariants, and leaves every
    error it was handed in the list. *)
Lemma run_calls_run (env : Env) (cs : list Call) (self : OutputHandler) :
  exists self' ev,
    run_calls env cs self = (Ok tt, self', ev)
    /\ Step self self'
    /\ (errors_wf self ->
        forall c e, In c cs -> In e (errors_of_call c) ->
                    In e (semgrep_structured_errors self')).
Proof.
  revert self. induction cs as [| c cs IH]; intros self; cbn [run_calls].
  - exists self, []. split; [reflexivity | split; [apply Step_refl |]].
    intros _ c e [].
  - unfold bind.
    destruct (run_call_run env c self) as [s1 [ev1 [-> [St1 Hin1]]]].
    destruct (IH s1) as [s2 [ev2 [-> [St2 Hin2]]]].
    do 2 eexists. split; [reflexivity |].
    split; [eapply Step_trans; eassumption |].
    intros Hwf c' e [<- | Hc] He.
    + apply (step_incl St2), Hin1; assumption.
    + eapply Hin2; [apply (step_wf St1), Hwf | eassumption | exact He].
Qed.

Lemma new_OutputHandler_wf (output_settings : OutputSettings) :
  errors_wf (new_OutputHandler output_settings)
  /\ output_flagged (new_OutputHandler output_settings).
Proof.
  split; [split; [constructor | intros e; reflexivity] |].
  intros H. discriminate H.
Qed.

(** C6.  Any sequence of calls on a fresh handler runs to its end without
    raising; after it the list of accumulated structured errors has no two
    equal elements, and every error that some call handed over, timeout or
    not and however often, occurs in it exactly once. *)
Theorem structured_errors_distinct
        (env : Env) (output_settings : OutputSettings) (cs : list Call) :
  result_of (run_calls env cs (new_OutputHandler output_settings)) = Ok tt
  /\ NoDup (semgrep_structured_errors (handler_after env output_settings cs))
  /\ forall c e,
       In c cs -> In e (errors_of_call c) ->
       count_occ SemgrepError_eq_dec
                 (semgrep_structured_errors (handler_after env output_settings cs))
                 e = 1.
Proof.
  unfold handler_after.
  destruct (run_calls_run env cs (new_OutputHandler output_settings))
    as [s [ev [-> [St Hin]]]].
  destruct (new_OutputHandler_wf output_settings) as [Hwf _].
  unfold state_of, result_of; cbn [fst snd].
  destruct (step_wf St Hwf) as [Hnd _].
  split; [reflexivity |]. split; [exact Hnd |].
  intros c e Hc He.
  apply NoDup_count_occ'; [exact Hnd |]. eapply Hin; eassumption.
Qed.

(** *** The recorded cause and the order of the outcome *)

(** Only [handle_unhandled_exception] writes [final_error]. *)
Lemma final_error_handle_semgrep_error (error : SemgrepError) (self : OutputHandler) :
  final_error (state_of (handle_semgrep_error error self)) = final_error self.
Proof.
  unfold handle_semgrep_error, bind, modify, get; cbn.
  destruct (error_in error (error_set self)); cbn; [reflexivity |].
  destruct (when _ _ _) as [[r s'] ev] eqn:Hw.
  assert (s' = with_error error (set_has_output true self)) as ->.
  { unfold when in Hw. destruct (_ && _) in Hw; inversion Hw; auto. }
  reflexivity.
Qed.

Lemma final_error_semgrep_errors_loop
      (errors : list SemgrepError) (timeout_errors : list (string * list string))
      (self : OutputHandler) :
  final_error (state_of (semgrep_errors_loop errors timeout_errors self))
  = final_error self.
Proof.
  revert timeout_errors self.
  induction errors as [| err errors IH]; intros timeout_errors self;
    [reflexivity |].
  cbn [semgrep_errors_loop]. rewrite bind_run. unfold get at 1.
  cbv beta iota. unfold state_of at 1; cbn [fst snd].
  destruct (err_is_timeout err && negb (error_in err (error_set self))).
  - rewrite bind_run. unfold modify at 1. cbv beta iota.
    unfold state_of at 1; cbn [fst snd].
    rewrite bind_run. unfold modify at 1. cbv beta iota.
    unfold state_of at 1; cbn [fst snd].
    rewrite IH. reflexivity.
  - rewrite bind_run.
    destruct (handle_semgrep_error_run err self) as [s1 [ev1 [E1 _]]].
    pose proof (final_error_handle_semgrep_error err self) as F.
    rewrite E1 in F |- *. unfold state_of in F; cbn [fst snd] in F.
    unfold state_of at 1; cbn [fst snd].
    rewrite IH. exact F.
Qed.

Lemma final_error_handle_semgrep_errors
      (env : Env) (errors : list SemgrepError) (self : OutputHandler) :
  final_error (state_of (handle_semgrep_errors env errors self))
  = final_error self.
Proof.
  unfold handle_semgrep_errors. rewrite bind_run.
  destruct (semgrep_errors_loop_run errors [] self) as [t [s1 [ev1 [E _]]]].
  pose proof (final_error_semgrep_errors_loop errors [] self) as F.
  rewrite E in F |- *. unfold state_of in F; cbn [fst snd] in F.
  unfold state_of at 1; cbn [fst snd].
  rewrite bind_run. unfold get at 1. cbv beta iota.
  unfold state_of at 1; cbn [fst snd].
  destruct (Py.truthy_list t && format_eqb (output_format (settings s1)) TEXT);
    cbn [when]; [| exact F].
  destruct (handle_semgrep_timeout_errors_run env t s1) as [ev2 ->].
  exact F.
Qed.

Lemma final_error_run_call (env : Env) (c : Call) (self : OutputHandler) :
  final_error (state_of (run_call env c self))
  = match c with
    | CallUnhandled ex => Some ex
    | _ => final_error self
    end.
Proof.
  destruct c as [errors | error | r d line targets p f m | ex]; cbn [run_call].
  - apply final_error_handle_semgrep_errors.
  - apply final_error_handle_semgrep_error.
  - reflexivity.
  - destruct (handle_unhandled_exception_run ex self) as [s [ev [E [_ [_ F]]]]].
    rewrite E. exact F.
Qed.

Lemma run_calls_step (env : Env) (c : Call) (cs : list Call)
      (self : OutputHandler) :
  state_of (run_calls env (c :: cs) self)
  = state_of (run_calls env cs (state_of (run_call env c self))).
Proof.
  cbn [run_calls]. rewrite bind_run.
  destruct (run_call_run env c self) as [s1 [ev1 [E _]]].
  rewrite E. reflexivity.
Qed.

(** After a sequence of calls the recorded cause is the exception of the
    last [handle_unhandled_exception] among them, and the one recorded
    before when there is none. *)
Lemma final_error_run_calls (env : Env) (cs : list Call) (self : OutputHandler) :
  (forall ex, ~ In (CallUnhandled ex) cs) ->
  final_error (state_of (run_calls env cs self)) = final_error self.
Proof.
  revert self. induction cs as [| c cs IH]; intros self Hno; [reflexivity |].
  rewrite run_calls_step, IH, final_error_run_call.
  - destruct c; try reflexivity.
    exfalso. apply (Hno ex). left. reflexivity.
  - intros ex Hin. apply (Hno ex). right. exact Hin.
Qed.

Lemma final_error_after_unhandled
      (env : Env) (cs cs' : list Call) (ex : Exn) (self : OutputHandler) :
  (forall ex', ~ In (CallUnhandled ex') cs') ->
  final_error (state_of (run_calls env (cs ++ CallUnhandled ex :: cs') self))
  = Some ex.
Proof.
  revert self. induction cs as [| c cs IH]; intros self Hno.
  - cbn [app]. rewrite run_calls_step, (final_error_run_calls _ _ _ Hno).
    apply final_error_run_call.
  - cbn [app]. rewrite run_calls_step. apply IH, Hno.
Qed.

(** C1, as the code has it.  The cause that [close] hands to
    [final_raise] is resolved in this order: (1) the terminal cause
    recorded by [handle_unhandled_exception], which is the exception of
    the last such call when there was one and is absent when there was
    none, whatever the other calls were; (2) otherwise, with at least one
    finding and error-on-findings configured, a fresh structured error
    with an empty message and the findings exit code; (3) otherwise, with
    structured errors accumulated, the most recently accumulated one,
    together with the summary [N files could not be analyzed], [N] the
    number of accumulated errors; (4) otherwise there is no cause, and
    [close] raises nothing of its own: it ends as its delivery half
    ended, raising what rendering or delivery raised, and nothing at all
    when the handler has no output.  In every case [close] is delivery
    followed by [final_raise] on that cause. *)
Theorem close_outcome_priority (env : Env) (self : OutputHandler) :
  (forall output_settings cs ex cs',
      (forall ex', ~ In (CallUnhandled ex') cs') ->
      final_outcome env
        (handler_after env output_settings (cs ++ CallUnhandled ex :: cs'))%list
      = (Some ex, None))
  /\ (forall output_settings cs,
        (forall ex, ~ In (CallUnhandled ex) cs) ->
        final_error (handler_after env output_settings cs) = None)
  /\ (forall ex, final_error self = Some ex ->
                 final_outcome env self = (Some ex, None))
  /\ (final_error self = None ->
      rule_matches self <> [] -> error_on_findings (settings self) = true ->
      final_outcome env self
      = (Some (ESemgrep (mkSemgrepError EmptyString (FINDINGS_EXIT_CODE env)
                                        (DEFAULT_LEVEL env) false
                                        EmptyString EmptyString)),
         None))
  /\ (final_error self = None ->
      rule_matches self = [] \/ error_on_findings (settings self) = false ->
      forall earlier last,
        semgrep_structured_errors self = (earlier ++ [last])%list ->
        final_outcome env self
        = (Some (ESemgrep last),
           Some (Py.str_nat (List.length (semgrep_structured_errors self))
                 ++ " files could not be analyzed")))
  /\ (final_error self = None ->
      rule_matches self = [] \/ error_on_findings (settings self) = false ->
      semgrep_structured_errors self = [] ->
      final_outcome env self = (None, None)
      /\ close env self
         = (result_of (close_output env self), self,
            events_of (close_output env self))
      /\ (has_output self = false -> close env self = (Ok tt, self, [])))
  /\ (forall ev, close_output env self = (Ok tt, self, ev) ->
                 close env self
                 = (result_of (final_raise (fst (final_outcome env self))
                                           (snd (final_outcome env self)) self),
                    self,
                    (ev ++ events_of
                            (final_raise (fst (final_outcome env self))
                                         (snd (final_outcome env self)) self))%list)).
Proof.
  assert (Hguard : rule_matches self = [] \/ error_on_findings (settings self) = false ->
                   Py.truthy_list (rule_matches self)
                   && error_on_findings (settings self) = false).
  { intros [H | H]; rewrite H; [reflexivity | apply andb_false_r]. }
  split; [| split; [| split; [| split; [| split; [| split]]]]].
  - intros output_settings cs ex cs' Hno. unfold final_outcome, handler_after.
    rewrite (final_error_after_unhandled env cs cs' ex _ Hno). reflexivity.
  - intros output_settings cs Hno. unfold handler_after.
    rewrite (final_error_run_calls env cs _ Hno). reflexivity.
  - intros ex H. unfold final_outcome. rewrite H. reflexivity.
  - intros Hf Hm He. unfold final_outcome. rewrite Hf, He.
    destruct (rule_matches self); [congruence | reflexivity].
  - intros Hf Hg earlier last Hl. unfold final_outcome.
    rewrite Hf, (Hguard Hg), Hl, last_opt_app.
    destruct earlier; reflexivity.
  - intros Hf Hg Hl.
    assert (Ho : final_outcome env self = (None, None)).
    { unfold final_outcome. rewrite Hf, (Hguard Hg), Hl. reflexivity. }
    split; [exact Ho |].
    assert (Hc : close env self
                 = (result_of (close_output env self), self,
                    events_of (close_output env self))).
    { rewrite close_run, Ho.
      pose proof (read_only_close_output env self) as Hs.
      destruct (close_output env self) as [[[[] | ex] self'] ev];
        unfold state_of, result_of, events_of in *; cbn in *; subst self'.
      - rewrite app_nil_r. reflexivity.
      - reflexivity. }
    split; [exact Hc |].
    intros Hout. rewrite Hc.
    unfold close_output, bind, get. rewrite Hout. reflexivity.
  - intros ev H. rewrite close_run, H. reflexivity.
Qed.

(** *** Rendering and delivery at [close] *)

(** [build_output] leaves the handler as it is and emits nothing but the
    mark of its call. *)
Lemma build_output_run (env : Env) (color_output : bool) (limit : option Z)
      (self : OutputHandler) :
  exists r,
    build_output env color_output limit self
    = (r, self, [Rendering (output_format (settings self))]).
Proof.
  unfold build_output, bind, get, emit, ret, of_result, raise.
  cbv beta iota.
  destruct (output_format (settings self)); cbn [is_json format_eqb];
    eexists; cbn; reflexivity.
Qed.

(** The events of the first half of [close] of a handler with output whose
    rendering succeeded: the rendering, the print when the report is not
    empty, the statistics, then the delivery to the destination. *)
Lemma close_output_run (env : Env) (self : OutputHandler) (output : string) :
  has_output self = true ->
  result_of (build_output env (close_color env self)
               (output_per_finding_max_lines_limit (settings self)) self)
  = Ok output ->
  stdout_encodes env output = true ->
  exists r ev_stats ev_save,
    close_output env self
    = (r, self,
       ([Rendering (output_format (settings self))]
        ++ (if Py.truthy_str output then [PrintStdout output] else [])
        ++ ev_stats ++ ev_save)%list)
    /\ (forall e, In e ev_stats -> is_persist_event e = false)
    /\ match output_destination (settings self) with
       | Some d =>
           if Py.truthy_str d then
             (r, self, ev_save) = save_output env d output self
           else ev_save = []
       | None => ev_save = []
       end.
Proof.
  intros Hout Hb Henc.
  unfold close_output, bind at 1, get. rewrite Hout.
  fold (close_color env self).
  destruct (build_output_run env (close_color env self)
              (output_per_finding_max_lines_limit (settings self)) self)
    as [r0 E].
  rewrite E in Hb. unfold result_of in Hb; cbn in Hb. subst r0.
  unfold bind at 1. rewrite E.
  assert (Hp : when (Py.truthy_str output) (print_output env output) self
               = (Ok tt, self,
                  if Py.truthy_str output then [PrintStdout output] else [])).
  { unfold when, print_output. rewrite Henc.
    destruct (Py.truthy_str output); reflexivity. }
  unfold bind at 1. rewrite Hp.
  assert (Hs : exists ev_stats,
             match stats_line self with
             | Some line => when (Py.truthy_str line) (emit (LogInfo line))
             | None => ret tt
             end self = (Ok tt, self, ev_stats)
             /\ forall e, In e ev_stats -> is_persist_event e = false).
  { destruct (stats_line self) as [line |].
    - destruct (Py.truthy_str line); cbn.
      + eexists. split; [reflexivity |]. intros e [<- | []]. reflexivity.
      + eexists. split; [reflexivity |]. intros e [].
    - eexists. split; [reflexivity |]. intros e []. }
  destruct Hs as [ev_stats [Hs Hnp]].
  unfold bind at 1. rewrite Hs.
  destruct (output_destination (settings self)) as [d |].
  - destruct (Py.truthy_str d) eqn:Hd; cbn [when].
    + pose proof (read_only_save_output env d output self) as Hro.
      destruct (save_output env d output self) as [[r s] ev_save].
      unfold state_of in Hro; cbn in Hro; subst s.
      exists r, ev_stats, ev_save.
      split; [| split; [exact Hnp | reflexivity]].
      reflexivity.
    + exists (Ok tt), ev_stats, [].
      split; [| split; [exact Hnp | reflexivity]].
      reflexivity.
  - exists (Ok tt), ev_stats, [].
    split; [| split; [exact Hnp | reflexivity]].
    reflexivity.
Qed.

Lemma events_of_close (env : Env) (self : OutputHandler) :
  exists ev, events_of (close env self)
             = (events_of (close_output env self) ++ ev)%list
             /\ forall e, In e ev -> is_persist_event e = false.
Proof.
  rewrite close_run.
  destruct (close_output env self) as [[[[] | ex] s] ev0];
    unfold events_of; cbn [fst snd].
  - eexists. split; [reflexivity |].
    destruct (fst (final_outcome env self)) as [ex |]; [| intros e []].
    rewrite final_raise_some.
    destruct ex as [e0 |]; [| intros e []].
    destruct (err_level e0); [intros e [] |].
    destruct (strict (settings self)); [intros e [] |].
    intros e [<- | []]. reflexivity.
  - exists []. split; [symmetry; apply app_nil_r | intros e []].
Qed.

(** C4, as the code has it.  At [close] of a handler with output whose
    report [output] was rendered and can be encoded: a report that is not
    empty is printed on standard output whether or not a destination is
    configured; with a destination configured (a string that is not empty)
    the report is also posted to it when it is a URL, and written to the
    file it names otherwise, once the file system accepts the write; with
    no destination nothing is written or posted. *)
Theorem close_delivers_report
        (env : Env) (self : OutputHandler) (output : string) :
  has_output self = true ->
  result_of (build_output env (close_color env self)
               (output_per_finding_max_lines_limit (settings self)) self)
  = Ok output ->
  stdout_encodes env output = true ->
  (Py.truthy_str output = true ->
   In (PrintStdout output) (events_of (close env self)))
  /\ (forall d,
        output_destination (settings self) = Some d ->
        Py.truthy_str d = true ->
        (is_url env d = true ->
         In (HttpPost d output) (events_of (close env self)))
        /\ (is_url env d = false ->
            write_file env (save_path_of env d) output = None ->
            In (WriteFile (save_path_of env d) output)
               (events_of (close env self))))
  /\ (output_destination (settings self) = None ->
      forall e, In e (events_of (close env self)) -> is_persist_event e = false).
Proof.
  intros Hout Hb Henc.
  destruct (@close_output_run env self output Hout Hb Henc)
    as [r [ev_stats [ev_save [E [Hnp Hsave]]]]].
  destruct (events_of_close env self) as [ev [Eev Hev]].
  assert (Hall : events_of (close env self)
                 = (([Rendering (output_format (settings self))]
                     ++ (if Py.truthy_str output
                         then [PrintStdout output] else [])
                     ++ ev_stats ++ ev_save) ++ ev)%list).
  { rewrite Eev, E. reflexivity. }
  rewrite Hall. clear Hall Eev E.
  split; [| split].
  - intros Ht. rewrite Ht. apply in_or_app. left. right. left. reflexivity.
  - intros d Hd Htd. rewrite Hd, Htd in Hsave.
    assert (Hin : forall e, In e ev_save ->
                  In e (([Rendering (output_format (settings self))]
                         ++ (if Py.truthy_str output
                             then [PrintStdout output] else [])
                         ++ ev_stats ++ ev_save) ++ ev)%list).
    { intros e He. apply in_or_app. left. apply in_or_app. right.
      apply in_or_app. right. apply in_or_app. right. exact He. }
    split.
    + intros Hu. apply Hin.
      unfold save_output, post_output in Hsave. rewrite Hu in Hsave.
      unfold bind, emit in Hsave.
      destruct (requests_post env d output); cbn in Hsave;
        inversion Hsave; subst; cbn; auto.
    + intros Hu Hw. apply Hin.
      unfold save_output in Hsave. rewrite Hu in Hsave.
      cbv zeta in Hsave. rewrite Hw in Hsave.
      inversion Hsave; subst. left. reflexivity.
  - intros Hd e He. rewrite Hd in Hsave. subst ev_save.
    rewrite !in_app_iff in He.
    destruct He as [[He | [He | [He | []]]] | He].
    + destruct He as [<- | []]. reflexivity.
    + destruct (Py.truthy_str output); [| destruct He].
      destruct He as [<- | []]. reflexivity.
    + apply Hnp, He.
    + apply Hev, He.
Qed.

(** C3, as the code has it.  After any sequence of calls that left the
    handler without findings, without structured errors, without the
    statistics of a run and without a recorded terminal cause, [close]
    renders nothing, prints and writes nothing, and raises nothing. *)
Theorem close_of_empty_handler
        (env : Env) (output_settings : OutputSettings) (cs : list Call) :
  rule_matches (handler_after env output_settings cs) = [] ->
  semgrep_structured_errors (handler_after env output_settings cs) = [] ->
  stats_line (handler_after env output_settings cs) = None ->
  final_error (handler_after env output_settings cs) = None ->
  close env (handler_after env output_settings cs)
  = (Ok tt, handler_after env output_settings cs, []).
Proof.
  unfold handler_after.
  destruct (run_calls_run env cs (new_OutputHandler output_settings))
    as [s [ev [-> [St _]]]].
  destruct (new_OutputHandler_wf output_settings) as [Hwf Hfl].
  unfold state_of; cbn [fst snd].
  intros Hm He Hs Hf.
  assert (Ho : has_output s = false).
  { destruct (has_output s) eqn:Ho; [| reflexivity].
    destruct (step_flagged St Hwf Hfl Ho); congruence. }
  rewrite close_run.
  unfold close_output, bind, get. rewrite Ho. cbn [ret].
  unfold final_outcome. rewrite Hf, Hm, He. reflexivity.
Qed.

(** *** The line renderer *)

Lemma map_enumerate_length {A B} (f : Z -> A -> B) (i : Z) (l : list A) :
  List.length (map_enumerate f i l) = List.length l.
Proof.
  revert i. induction l as [| x l IH]; intros i; cbn; [| rewrite IH]; reflexivity.
Qed.

(** C5, as the code has it.  For a finding with a path and a positive
    limit [n], [finding_to_line] yields the first [n] of the finding's
    lines, each rendered as a source line, and then at most one more line:
    so at most [n] source lines and at most [n + 1] lines in all.  When
    the finding has more than [n] lines it yields exactly [n] source lines,
    followed, unless [n] is 1, by one marker that reports the number of
    lines minus [n] as hidden, centred in [BREAK_LINE_WIDTH] with
    [BREAK_LINE_CHAR].  When [n] is 1 neither marker nor separator is
    yielded. *)
Theorem finding_to_line_limited
        (env : Env) (rule_match : RuleMatch) (color_output : bool) (n : Z)
        (show_separator : bool) :
  rm_path rule_match <> EmptyString ->
  (0 < n)%Z ->
  finding_to_line env rule_match color_output (Some n) show_separator
  = (map_enumerate (source_line rule_match color_output) 0
       (firstn (Z.to_nat n) (display_lines rule_match))
     ++ limited_tail env (Z.of_nat (List.length (display_lines rule_match)))
          n show_separator)%list
  /\ (Z.of_nat (List.length (firstn (Z.to_nat n) (display_lines rule_match)))
      <= n)%Z
  /\ ((n < Z.of_nat (List.length (display_lines rule_match)))%Z ->
      Z.of_nat (List.length (firstn (Z.to_nat n) (display_lines rule_match)))
      = n)
  /\ (Z.of_nat (List.length
                  (finding_to_line env rule_match color_output (Some n)
                     show_separator))
      <= n + 1)%Z
  /\ (n = 1%Z ->
      finding_to_line env rule_match color_output (Some n) show_separator
      = map_enumerate (source_line rule_match color_output) 0
          (firstn 1 (display_lines rule_match))).
Proof.
  intros Hpath Hn.
  assert (E : finding_to_line env rule_match color_output (Some n) show_separator
              = (map_enumerate (source_line rule_match color_output) 0
                   (firstn (Z.to_nat n) (display_lines rule_match))
                 ++ limited_tail env
                      (Z.of_nat (List.length (display_lines rule_match)))
                      n show_separator)%list).
  { unfold finding_to_line, limited_tail, trimmed_marker, trimmed_str,
      limit_is_not_one, Py.list_upto, Py.truthy_Z.
    destruct (rm_path rule_match); [congruence |]. cbn [Py.truthy_str].
    replace (n =? 0)%Z with false by (symmetry; apply Z.eqb_neq; lia).
    replace (0 <=? n)%Z with true by (symmetry; apply Z.leb_le; lia).
    cbn [negb].
    destruct (n =? 1)%Z; cbn [negb]; [reflexivity |].
    rewrite Z.gtb_ltb.
    replace (0 <? Z.of_nat (List.length (display_lines rule_match)) - n)%Z
      with (n <? Z.of_nat (List.length (display_lines rule_match)))%Z.
    - reflexivity.
    - destruct (Z.ltb_spec n (Z.of_nat (List.length (display_lines rule_match))));
        symmetry; [apply Z.ltb_lt | apply Z.ltb_ge]; lia. }
  assert (Hlen : List.length (firstn (Z.to_nat n) (display_lines rule_match))
                 = Nat.min (Z.to_nat n) (List.length (display_lines rule_match))).
  { apply length_firstn. }
  assert (Htail : (List.length
                     (limited_tail env
                        (Z.of_nat (List.length (display_lines rule_match)))
                        n show_separator) <= 1)%nat).
  { unfold limited_tail.
    destruct (n =? 1)%Z; [cbn; lia |].
    destruct (n <? _)%Z; [cbn; lia |].
    destruct show_separator; cbn; lia. }
  split; [exact E |]. split; [lia |]. split; [lia |]. split.
  - rewrite E, length_app, map_enumerate_length. lia.
  - intros ->. rewrite E. unfold limited_tail. cbn [Z.eqb Pos.eqb].
    rewrite app_nil_r. reflexivity.
Qed.

(** *** The text renderer *)

Lemma last_after_cons (field : RuleMatch -> string) (last : option string)
      (r : RuleMatch) (pre : list RuleMatch) :
  last_after field last (r :: pre) = last_after field (Some (field r)) pre.
Proof.
  unfold last_after, Py.last_opt. cbn [rev].
  destruct (rev pre) as [| x l] eqn:E; reflexivity.
Qed.

(** The output of the loop on [pre ++ rest] ends with its output on [rest],
    started in the state that [pre] leaves. *)
Lemma normal_output_loop_app (env : Env) (color_output : bool) (limit : option Z)
      (pre rest : list RuleMatch) (last_file last_message : option string) :
  exists before,
    normal_output_loop env color_output limit last_file last_message
                       (pre ++ rest)
    = (before
       ++ normal_output_loop env color_output limit
            (last_after rm_path last_file pre)
            (last_after rm_message last_message pre) rest)%list.
Proof.
  revert last_file last_message.
  induction pre as [| r pre IH]; intros last_file last_message.
  - exists []. reflexivity.
  - destruct (IH (Some (rm_path r)) (Some (rm_message r))) as [before E].
    rewrite !last_after_cons.
    cbn [app normal_output_loop]. rewrite E.
    match goal with
    | |- exists _, (?a ++ ?b ++ ?c ++ ?d ++ before ++ ?l)%list = _ =>
        exists (a ++ b ++ c ++ d ++ before)%list
    end.
    rewrite <- !app_assoc. reflexivity.
Qed.

(** C8, as the code has it.  For two consecutive findings [r1], [r2] of the
    sorted list with the same path, the text renderer yields, after the
    lines and the autofix line of [r1], no path header, then the
    rule/message header of [r2] unless the message of [r2] equals the
    message of [r1] (or the rule id of [r2] is empty or the CLI rule id),
    then the lines of [r2]: the rule id of [r1] plays no part.  So when
    [r2] has the rule id and the message of [r1], no header stands between
    the lines of [r1] and the lines of [r2]. *)
Theorem text_header_after_same_file
        (env : Env) (rule_matches : list RuleMatch) (color_output : bool)
        (limit : option Z) (pre : list RuleMatch) (r1 r2 : RuleMatch)
        (post : list RuleMatch) :
  sort_by_path_id rule_matches = (pre ++ r1 :: r2 :: post)%list ->
  rm_path r1 = rm_path r2 ->
  (exists before,
     build_normal_output env rule_matches color_output limit
     = (before
        ++ finding_to_line env r1 color_output limit true
        ++ autofix_lines color_output r1
        ++ header_after env color_output r1 r2
        ++ finding_to_line env r2 color_output limit
             match post with
             | next :: _ => String.eqb (rm_path next) (rm_path r2)
             | [] => false
             end
        ++ autofix_lines color_output r2
        ++ normal_output_loop env color_output limit
             (Some (rm_path r2)) (Some (rm_message r2)) post)%list)
  /\ (header_after env color_output r1 r2 = []
      <-> rm_message r2 = rm_message r1
          \/ rm_id r2 = EmptyString \/ rm_id r2 = CLI_RULE_ID env)
  /\ (rm_id r2 = rm_id r1 -> rm_message r2 = rm_message r1 ->
      header_after env color_output r1 r2 = []).
Proof.
  intros Hsorted Hpath.
  assert (Hiff : header_after env color_output r1 r2 = []
                 <-> rm_message r2 = rm_message r1
                     \/ rm_id r2 = EmptyString \/ rm_id r2 = CLI_RULE_ID env).
  { unfold header_after.
    destruct (rm_id r2) as [| c i] eqn:Hid; cbn [Py.truthy_str andb].
    - split; auto.
    - destruct (String.eqb_spec (String c i) (CLI_RULE_ID env)) as [Hc | Hc];
        cbn [negb andb].
      + split; auto.
      + destruct (String.eqb_spec (rm_message r1) (rm_message r2)) as [Hm | Hm];
          cbn [negb].
        * split; auto.
        * split; [discriminate |].
          intros [H | [H | H]]; congruence. }
  split; [| split; [exact Hiff |]].
  - unfold build_normal_output. rewrite Hsorted.
    destruct (normal_output_loop_app env color_output limit pre
                (r1 :: r2 :: post) None None) as [before ->].
    cbn [normal_output_loop].
    rewrite <- Hpath. rewrite !String.eqb_refl.
    cbn [negb none_or_differs]. rewrite !String.eqb_refl. cbn [negb].
    match goal with
    | |- exists _, (before ++ ?a ++ ?b ++ _)%list = _ =>
        exists (before ++ a ++ b)%list
    end.
    rewrite <- !app_assoc. do 5 f_equal.
  - intros _ Hm. apply Hiff. left. exact Hm.
Qed.

(** *** The [nosem] filter *)

Lemma sub_id_chars_empty (x : string) :
  negb (Py.truthy_str (sub_id_chars x)) = all_id_chars x.
Proof.
  induction x as [| c x IH]; cbn; [reflexivity |].
  destruct (id_char c); cbn; [exact IH | reflexivity].
Qed.

Lemma truthy_str_false (s : string) : Py.truthy_str s = false <-> s = EmptyString.
Proof. destruct s; cbn; split; congruence. Qed.

Lemma in_set_of (x : string) (l : list string) : In x (set_of l) <-> In x l.
Proof. unfold set_of. apply nodup_In. Qed.

(** The identifiers that [rule_match_nosem] compares with the rule id:
    the pieces of the list that are not blank, stripped of white space and
    quotes, that consist of word characters, dashes and dots. *)
Lemma in_pattern_ids (env : Env) (ids_str x : string) :
  In x (pattern_ids env ids_str)
  <-> exists piece,
        In piece (COMMA_SEPARATED_LIST_RE_split env ids_str)
        /\ Py.strip piece <> EmptyString
        /\ x = strip_quotes (Py.strip piece)
        /\ all_id_chars x = true.
Proof.
  unfold pattern_ids.
  rewrite in_set_of, filter_In, in_set_of, in_map_iff, sub_id_chars_empty.
  split.
  - intros [[piece [Hx Hp]] Hall]. apply filter_In in Hp as [Hp Ht].
    exists piece. repeat split; auto.
    intros H. rewrite H in Ht. discriminate Ht.
  - intros [piece [Hp [Hne [Hx Hall]]]]. split; [| exact Hall].
    exists piece. split; [auto |]. apply filter_In. split; [exact Hp |].
    destruct (Py.strip piece); [congruence | reflexivity].
Qed.

(** Without strict mode the loop returns whether the rule id is listed. *)
Lemma nosem_loop_lenient (env : Env) (rule_match : RuleMatch)
      (ids : list string) (result : bool) :
  fst (nosem_loop env rule_match false ids result)
  = Ok (result || existsb (String.eqb (rm_id rule_match)) ids).
Proof.
  revert result. induction ids as [| x ids IH]; intros result;
    cbn [nosem_loop existsb].
  - rewrite orb_false_r. reflexivity.
  - destruct (String.eqb (rm_id rule_match) x).
    + specialize (IH (result || true)).
      destruct (nosem_loop env rule_match false ids (result || true)).
      cbn in *. rewrite IH, orb_true_r. reflexivity.
    + specialize (IH result).
      destruct (nosem_loop env rule_match false ids result).
      cbn in *. exact IH.
Qed.

(** When every identifier is the rule id the loop returns, strict or not. *)
Lemma nosem_loop_all_match (env : Env) (rule_match : RuleMatch) (strict : bool)
      (ids : list string) (result : bool) :
  (forall x, In x ids -> x = rm_id rule_match) ->
  fst (nosem_loop env rule_match strict ids result)
  = Ok (result || Py.truthy_list ids).
Proof.
  revert result. induction ids as [| x ids IH]; intros result Hall;
    cbn [nosem_loop Py.truthy_list].
  - rewrite orb_false_r. reflexivity.
  - rewrite <- (Hall x (or_introl eq_refl)), String.eqb_refl.
    specialize (IH (result || true) (fun y Hy => Hall y (or_intror Hy))).
    destruct (nosem_loop env rule_match strict ids (result || true)).
    cbn in *. rewrite IH, orb_true_r. destruct result, ids; reflexivity.
Qed.

(** In strict mode the loop raises at the first identifier that is not the
    rule id, whatever it has seen before. *)
Lemma nosem_loop_strict_raises (env : Env) (rule_match : RuleMatch)
      (ids : list string) (result : bool) :
  (exists x, In x ids /\ x <> rm_id rule_match) ->
  exists y,
    In y ids /\ y <> rm_id rule_match
    /\ fst (nosem_loop env rule_match true ids result)
       = Raised (ESemgrep (new_SemgrepError env (no_rule_message rule_match y)
                                            (FATAL_EXIT_CODE env))).
Proof.
  revert result. induction ids as [| x ids IH]; intros result [z [Hz Hne]].
  - destruct Hz.
  - cbn [nosem_loop].
    destruct (String.eqb_spec (rm_id rule_match) x) as [He | He].
    + destruct Hz as [-> | Hz]; [congruence |].
      destruct (IH (result || true) (ex_intro _ z (conj Hz Hne)))
        as [y [Hy [Hyne E]]].
      exists y. split; [right; exact Hy | split; [exact Hyne |]].
      destruct (nosem_loop env rule_match true ids (result || true)).
      exact E.
    + exists x. split; [left; reflexivity | split; [congruence | reflexivity]].
Qed.

Lemma existsb_eqb_in (x : string) (l : list string) :
  existsb (String.eqb x) l = true <-> In x l.
Proof.
  rewrite existsb_exists. split.
  - intros [y [Hy He]]. apply String.eqb_eq in He. subst y. exact Hy.
  - intros H. exists x. split; [exact H | apply String.eqb_refl].
Qed.

(** C2, as the code has it.  Whatever the order in which the set of
    identifiers is visited: a finding without lines is not suppressed; one
    whose first line has no annotation is not suppressed; one whose first
    line has an annotation without identifiers is suppressed, whatever its
    rule id.  With identifiers listed, let [P] be the listed identifiers
    that pass the filter ([pattern_ids]).  Strict mode off: the check
    returns true if the rule id is in [P] and false if it is not.  Strict
    mode on: the check raises for an identifier of [P] that is not the rule
    id whenever there is one, also when the rule id is in [P] too; when
    every identifier of [P] is the rule id it returns true, and false when
    [P] is empty. *)
Theorem rule_match_nosem_cases
        (env : Env) (set_iter : list string -> list string)
        (rule_match : RuleMatch) (strict : bool) :
  (forall l x, In x (set_iter l) <-> In x l) ->
  (rm_lines rule_match = [] ->
   fst (rule_match_nosem env set_iter rule_match strict) = Ok false)
  /\ (forall line0 rest,
        rm_lines rule_match = line0 :: rest ->
        (NOSEM_INLINE_RE_search env line0 = None ->
         fst (rule_match_nosem env set_iter rule_match strict) = Ok false)
        /\ (NOSEM_INLINE_RE_search env line0 = Some None ->
            fst (rule_match_nosem env set_iter rule_match strict) = Ok true)
        /\ (forall ids_str,
              NOSEM_INLINE_RE_search env line0 = Some (Some ids_str) ->
              (strict = false ->
               (In (rm_id rule_match) (pattern_ids env ids_str) ->
                fst (rule_match_nosem env set_iter rule_match strict) = Ok true)
               /\ (~ In (rm_id rule_match) (pattern_ids env ids_str) ->
                   fst (rule_match_nosem env set_iter rule_match strict)
                   = Ok false))
              /\ (strict = true ->
                  ((exists x, In x (pattern_ids env ids_str)
                              /\ x <> rm_id rule_match) ->
                   exists y,
                     In y (pattern_ids env ids_str) /\ y <> rm_id rule_match
                     /\ fst (rule_match_nosem env set_iter rule_match strict)
                        = Raised (ESemgrep
                                    (new_SemgrepError env
                                       (no_rule_message rule_match y)
                                       (FATAL_EXIT_CODE env))))
                  /\ ((forall x, In x (pattern_ids env ids_str) ->
                                 x = rm_id rule_match) ->
                      In (rm_id rule_match) (pattern_ids env ids_str) ->
                      fst (rule_match_nosem env set_iter rule_match strict)
                      = Ok true)
                  /\ (pattern_ids env ids_str = [] ->
                      fst (rule_match_nosem env set_iter rule_match strict)
                      = Ok false)))).
Proof.
  intros Hiter. split.
  - intros Hl. unfold rule_match_nosem. rewrite Hl. reflexivity.
  - intros line0 rest Hl. unfold rule_match_nosem. rewrite Hl.
    split; [intros ->; reflexivity |].
    split; [intros ->; reflexivity |].
    intros ids_str ->. split.
    + intros ->. rewrite nosem_loop_lenient. cbn [orb]. split.
      * intros Hin. f_equal. apply existsb_eqb_in, Hiter, Hin.
      * intros Hnin. f_equal.
        destruct (existsb _ _) eqn:E; [| reflexivity].
        apply existsb_eqb_in in E. apply (proj1 (Hiter _ _)) in E.
        contradiction.
    + intros ->. split; [| split].
      * intros [x [Hx Hne]].
        destruct (nosem_loop_strict_raises env rule_match
                    (set_iter (pattern_ids env ids_str)) false)
          as [y [Hy [Hyne E]]].
        { exists x. split; [apply Hiter, Hx | exact Hne]. }
        exists y. split; [apply Hiter, Hy | split; [exact Hyne | exact E]].
      * intros Hall Hin.
        rewrite nosem_loop_all_match
          by (intros x Hx; apply Hall, Hiter, Hx).
        apply (proj2 (Hiter _ _)) in Hin.
        destruct (set_iter (pattern_ids env ids_str)); [destruct Hin |].
        reflexivity.
      * intros Hnil.
        assert (E : set_iter (pattern_ids env ids_str) = []).
        { destruct (set_iter (pattern_ids env ids_str)) as [| x l] eqn:E;
            [reflexivity |].
          assert (Hx : In x (pattern_ids env ids_str))
            by (apply Hiter; rewrite E; left; reflexivity).
          rewrite Hnil in Hx. destruct Hx. }
        rewrite E. reflexivity.
Qed.

(** C10.  In strict mode, for a finding whose first line carries an
    annotation whose list has a piece that, stripped of white space and
    quotes, passes the filter and is not the rule id of the finding, the
    check raises a [SemgrepError] about an identifier without rule, and so
    does not report the finding as suppressed; this holds whatever else
    the list holds, the rule id of the finding included, and whatever the
    order in which the set is visited. *)
Theorem rule_match_nosem_strict_raises
        (env : Env) (set_iter : list string -> list string)
        (rule_match : RuleMatch) (line0 : string) (rest : list string)
        (ids_str piece : string) :
  (forall l x, In x (set_iter l) <-> In x l) ->
  rm_lines rule_match = line0 :: rest ->
  NOSEM_INLINE_RE_search env line0 = Some (Some ids_str) ->
  In piece (COMMA_SEPARATED_LIST_RE_split env ids_str) ->
  Py.strip piece <> EmptyString ->
  all_id_chars (strip_quotes (Py.strip piece)) = true ->
  strip_quotes (Py.strip piece) <> rm_id rule_match ->
  (exists y,
     In y (pattern_ids env ids_str) /\ y <> rm_id rule_match
     /\ fst (rule_match_nosem env set_iter rule_match true)
        = Raised (ESemgrep (new_SemgrepError env (no_rule_message rule_match y)
                                             (FATAL_EXIT_CODE env))))
  /\ fst (rule_match_nosem env set_iter rule_match true) <> Ok true.
Proof.
  intros Hiter Hl Hs Hp Hne Hall Hdiff.
  assert (Hx : In (strip_quotes (Py.strip piece)) (pattern_ids env ids_str)).
  { apply in_pattern_ids. exists piece. auto. }
  assert (H : exists y,
             In y (pattern_ids env ids_str) /\ y <> rm_id rule_match
             /\ fst (rule_match_nosem env set_iter rule_match true)
                = Raised (ESemgrep (new_SemgrepError env
                                      (no_rule_message rule_match y)
                                      (FATAL_EXIT_CODE env)))).
  { unfold rule_match_nosem. rewrite Hl, Hs.
    destruct (nosem_loop_strict_raises env rule_match
                (set_iter (pattern_ids env ids_str)) false)
      as [y [Hy [Hyne E]]].
    { exists (strip_quotes (Py.strip piece)).
      split; [apply Hiter, Hx | exact Hdiff]. }
    exists y. split; [apply Hiter, Hy | split; [exact Hyne | exact E]]. }
  split; [exact H |].
  destruct H as [y [_ [_ E]]]. rewrite E. discriminate.
Qed.

(* ------------------------------------------------------------------ *)
(** ** Instances and limits of the properties *)

(** The outcome at [close] on concrete handlers, one for each rank of the
    order of C1. *)
Example final_outcome_recorded_cause :
  final_outcome example_env crashed_handler
  = (Some (EPython "ValueError" "boom"), None).
Proof. reflexivity. Qed.

Example final_outcome_findings :
  final_outcome example_env
    (handler_after example_env
       (mkOutputSettings JSON None true false false None false false 0)
       [CallError (mkSemgrepError "bad" 3 WARN false "a.py" "r"); one_finding_run])
  = (Some (ESemgrep (mkSemgrepError EmptyString 1 ERROR false
                                    EmptyString EmptyString)), None).
Proof. reflexivity. Qed.

Example final_outcome_last_error :
  final_outcome example_env
    (handler_after example_env text_settings
       [CallError (mkSemgrepError "first" 3 ERROR false "a.py" "r");
        CallError (mkSemgrepError "second" 3 WARN false "b.py" "r");
        CallError (mkSemgrepError "first" 3 ERROR false "a.py" "r")])
  = (Some (ESemgrep (mkSemgrepError "second" 3 WARN false "b.py" "r")),
     Some "2 files could not be analyzed").
Proof. reflexivity. Qed.

(** With one finding, error-on-findings and the JSON format, [close]
    prints the report and raises the error that stands for findings. *)
Example close_with_findings_raises :
  close example_env
    (handler_after example_env
       (mkOutputSettings JSON None true false false None false false 0)
       [one_finding_run])
  = (Raised (ESemgrep (mkSemgrepError EmptyString 1 ERROR false
                                      EmptyString EmptyString)),
     handler_after example_env
       (mkOutputSettings JSON None true false false None false false 0)
       [one_finding_run],
     [Rendering JSON; PrintStdout "{results, errors}"; LogInfo "ran 1 rules"]).
Proof. vm_compute. reflexivity. Qed.

(** C1, the claim as written fails: a handler with no recorded cause, with
    findings that are no error for it and with no structured error has no
    cause at [close], and [close] raises all the same, because the post
    of the report to its destination times out. *)
Lemma close_without_cause_raises :
  final_error posting_handler = None
  /\ error_on_findings (settings posting_handler) = false
  /\ semgrep_structured_errors posting_handler = []
  /\ final_outcome timeout_env posting_handler = (None, None)
  /\ result_of (close timeout_env posting_handler)
     = Raised (ESemgrep (mkSemgrepError
                           "posting output to http://host/in timed out"
                           2 ERROR false EmptyString EmptyString)).
Proof. repeat split; vm_compute; reflexivity. Qed.

(** The text and Emacs reports list a file of the directory [a] before
    the file [a.py], as [pathlib] orders the two paths, although the
    string [a.py] is the smaller one. *)
Example sort_orders_paths_by_parts :
  map rm_path
      (sort_by_path_id [example_match "r" "a.py" "m" ["x"];
                        example_match "r" "a/b.py" "m" ["y"]])
  = ["a/b.py"; "a.py"]
  /\ Py.str_ltb "a.py" "a/b.py" = true.
Proof. split; reflexivity. Qed.

(** A post that times out makes [close] raise a structured error that
    names the destination. *)
Example close_post_timeout :
  result_of
    (close (timeout_env)
       (handler_after example_env
          (mkOutputSettings JSON (Some "http://host/in") false false false None
                            false false 0)
          [one_finding_run]))
  = Raised (ESemgrep (mkSemgrepError "posting output to http://host/in timed out"
                                     2 ERROR false EmptyString EmptyString)).
Proof. vm_compute. reflexivity. Qed.

(** The SARIF notification of an error at level ERROR without [message]
    and with the long message [parse failure]. *)
Example sarif_notification_long_msg :
  _sarif_notification_from_error long_msg_env
    (mkSemgrepError "e" 3 ERROR false "a.py" "r")
  = Ok (JDict [("descriptor", JDict [("id", JStr "SourceParseError")]);
               ("message", JDict [("text", JStr "parse failure")]);
               ("level", JStr "error")]).
Proof. vm_compute. reflexivity. Qed.

(** The text report of one finding (rule [eqeq-is-bad], file [a.py], line
    3, columns 1 to 5, no colour): the path, the header, the source line. *)
Example text_report_of_one_finding :
  build_normal_output example_env
    [example_match "eqeq-is-bad" "a.py" "dangerous ==" ["a == a"]] false None
  = ["a.py"; "severity:error rule:eqeq-is-bad: dangerous =="; "3:a == a"].
Proof. reflexivity. Qed.

(** C3, the claim as written fails: a handler in which only an exception
    that is no structured error was recorded has no finding, no structured
    error and no statistics, and [close], though it renders and writes
    nothing, raises that exception. *)
Lemma close_after_crash_raises :
  rule_matches crashed_handler = []
  /\ semgrep_structured_errors crashed_handler = []
  /\ stats_line crashed_handler = None
  /\ close example_env crashed_handler
     = (Raised (EPython "ValueError" "boom"), crashed_handler, []).
Proof. repeat split. Qed.

Lemma close_of_empty_handler_witness :
  rule_matches (handler_after example_env text_settings [CallErrors []]) = []
  /\ close example_env (handler_after example_env text_settings [CallErrors []])
     = (Ok tt, handler_after example_env text_settings [CallErrors []], []).
Proof.
  split; [reflexivity |].
  apply (close_of_empty_handler example_env text_settings [CallErrors []]);
    reflexivity.
Defined.

(** C4, the claim as written fails: with the destination [out.json]
    configured, [close] prints the report on standard output and then
    writes it to the file as well. *)
Lemma stdout_written_with_destination :
  output_destination (settings saved_json_handler) = Some "out.json"
  /\ events_of (close example_env saved_json_handler)
     = [Rendering JSON; PrintStdout "{results, errors}"; LogInfo "ran 1 rules";
        WriteFile "/base/out.json" "{results, errors}"].
Proof. split; reflexivity. Qed.

Lemma close_delivers_report_witness :
  has_output saved_json_handler = true
  /\ In (PrintStdout "{results, errors}")
        (events_of (close example_env saved_json_handler))
  /\ In (WriteFile "/base/out.json" "{results, errors}")
        (events_of (close example_env saved_json_handler)).
Proof.
  pose proof (@close_delivers_report example_env saved_json_handler
                "{results, errors}" eq_refl eq_refl eq_refl) as [Hp [Hd _]].
  split; [reflexivity |]. split; [apply Hp; reflexivity |].
  apply (proj2 (Hd "out.json" eq_refl eq_refl)); reflexivity.
Defined.

(** C5, the claim as written fails: with a limit of 2, a finding of three
    lines yields three lines, two source lines and the marker; and with a
    limit of 0 it yields all three source lines and the separator. *)
Lemma finding_to_line_exceeds_limit :
  finding_to_line example_env three_line_match false (Some 2%Z) false
  = ["3:x = 1"; "4:y";
     "-------- [hid 1 additional lines, adjust with --max-lines-per-finding] ---------"]
  /\ finding_to_line example_env three_line_match false (Some 0%Z) true
     = ["3:x = 1"; "4:y"; "5:z"; BREAK_LINE example_env].
Proof. split; reflexivity. Qed.

Lemma finding_to_line_limited_witness :
  rm_path three_line_match <> EmptyString
  /\ (0 < 2)%Z
  /\ finding_to_line example_env three_line_match false (Some 2%Z) false
     = ["3:x = 1"; "4:y";
        "-------- [hid 1 additional lines, adjust with --max-lines-per-finding] ---------"].
Proof.
  split; [discriminate |]. split; [reflexivity |].
  destruct (@finding_to_line_limited example_env three_line_match false 2 false)
    as [E _]; [discriminate | reflexivity |].
  rewrite E. reflexivity.
Defined.

(** C8, the claim as written fails: two findings of the rules [a] and [b]
    in the same file with the same message are consecutive after the sort,
    and the header of the second is dropped although its rule id is not
    that of the first. *)
Lemma text_header_dropped_for_other_rule :
  rm_id (example_match "a" "a.py" "m" ["x"])
  <> rm_id (example_match "b" "a.py" "m" ["y"])
  /\ build_normal_output example_env
       [example_match "a" "a.py" "m" ["x"]; example_match "b" "a.py" "m" ["y"]]
       false None
     = ["a.py"; "severity:error rule:a: m"; "3:x"; BREAK_LINE example_env; "3:y"].
Proof. split; [discriminate | reflexivity]. Qed.

Lemma text_header_after_same_file_witness :
  sort_by_path_id
    [example_match "a" "a.py" "m" ["x"]; example_match "a" "a.py" "m" ["y"]]
  = ([] ++ [example_match "a" "a.py" "m" ["x"];
            example_match "a" "a.py" "m" ["y"]])%list
  /\ header_after example_env false (example_match "a" "a.py" "m" ["x"])
                  (example_match "a" "a.py" "m" ["y"]) = [].
Proof.
  split; [reflexivity |].
  apply (@text_header_after_same_file example_env
           [example_match "a" "a.py" "m" ["x"]; example_match "a" "a.py" "m" ["y"]]
           false None [] (example_match "a" "a.py" "m" ["x"])
           (example_match "a" "a.py" "m" ["y"]) [] eq_refl eq_refl);
    reflexivity.
Defined.

(** C2, the claim as written fails: in strict mode the first line
    [x = 1  # nosem: a, b] of a finding of rule [a] lists the rule id and
    one more identifier, and the check raises instead of returning true, in
    whichever order the two identifiers are visited. *)
Lemma rule_match_nosem_mixed_list_raises :
  In (rm_id nosem_match) (pattern_ids example_env "a, b")
  /\ fst (rule_match_nosem example_env (fun l => l) nosem_match true)
     = Raised (ESemgrep (mkSemgrepError
                           "found 'nosem' comment with id 'b', but no corresponding rule trying 'a'"
                           2 ERROR false EmptyString EmptyString))
  /\ fst (rule_match_nosem example_env (@rev string) nosem_match true)
     = Raised (ESemgrep (mkSemgrepError
                           "found 'nosem' comment with id 'b', but no corresponding rule trying 'a'"
                           2 ERROR false EmptyString EmptyString)).
Proof. split; [left; reflexivity | split; reflexivity]. Qed.

Lemma rule_match_nosem_cases_witness :
  (forall (l : list string) x, In x ((fun l => l) l) <-> In x l)
  /\ fst (rule_match_nosem example_env (fun l => l) nosem_match false) = Ok true.
Proof.
  assert (Hiter : forall (l : list string) x, In x ((fun l => l) l) <-> In x l)
    by (intros; reflexivity).
  split; [exact Hiter |].
  pose proof (@rule_match_nosem_cases example_env (fun l => l) nosem_match false
                Hiter) as [_ H].
  destruct (H "x = 1  # nosem: a, b" [] eq_refl) as [_ [_ H']].
  destruct (H' "a, b" eq_refl) as [[Hin _] _]; [reflexivity |].
  apply Hin. left. reflexivity.
Defined.

Lemma rule_match_nosem_strict_raises_witness :
  In "b" (COMMA_SEPARATED_LIST_RE_split example_env "a, b")
  /\ strip_quotes (Py.strip "b") <> rm_id nosem_match
  /\ fst (rule_match_nosem example_env (fun l => l) nosem_match true) <> Ok true.
Proof.
  split; [right; right; left; reflexivity |]. split; [discriminate |].
  apply (@rule_match_nosem_strict_raises example_env (fun l => l) nosem_match
           "x = 1  # nosem: a, b" [] "a, b" "b").
  - intros; reflexivity.
  - reflexivity.
  - reflexivity.
  - right; right; left; reflexivity.
  - discriminate.
  - reflexivity.
  - discriminate.
Defined.

(* ------------------------------------------------------------------ *)
(** ** Further properties of the code *)

(** From here on every argument of a lemma is explicit. *)
Unset Implicit Arguments.

(* ------------------------------------------------------------------ *)
(** ** Further properties: util.py *)

(** X1.  [flatten] yields exactly the items of the lists it is given: an
    item is yielded if and only if it is in one of the lists, the number of
    items yielded is the sum of the lengths, and the lists are gone through
    in order, so the items of a list come before those of the next. *)
Theorem flatten_items {A} (L : list (list A)) :
  (forall x, In x (Util.flatten L) <-> exists l, In l L /\ In x l)
  /\ List.length (Util.flatten L) = list_sum (map (@List.length A) L)
  /\ (forall L2, Util.flatten (L ++ L2) = (Util.flatten L ++ Util.flatten L2)%list).
Proof.
  split; [| split].
  - intros x. induction L as [| l L IH]; cbn.
    + split; [intros [] | intros [l [[] _]]].
    + rewrite in_app_iff, IH. split.
      * intros [H | [l' [Hl Hx]]]; [exists l; auto | exists l'; auto].
      * intros [l' [[<- | Hl] Hx]]; [left; exact Hx | right; exists l'; auto].
  - induction L as [| l L IH]; cbn; [reflexivity |].
    rewrite length_app, IH. reflexivity.
  - intros L2. induction L as [| l L IH]; cbn; [reflexivity |].
    rewrite IH, app_assoc. reflexivity.
Qed.

(** X2.  [partition] loses and invents nothing: the two lists it returns
    are together a rearrangement of the input, the first holds only items
    that satisfy the predicate and the second only items that do not, and
    within each list the items keep the order of the input. *)
Theorem partition_splits {A} (pred : A -> bool) (iterable : list A) :
  Permutation (fst (Util.partition pred iterable)
               ++ snd (Util.partition pred iterable))%list iterable
  /\ Forall (fun x => pred x = true) (fst (Util.partition pred iterable))
  /\ Forall (fun x => pred x = false) (snd (Util.partition pred iterable))
  /\ Subseq (fst (Util.partition pred iterable)) iterable
  /\ Subseq (snd (Util.partition pred iterable)) iterable.
Proof.
  unfold Util.partition; cbn [fst snd].
  split; [| split; [| split; [| split]]].
  - induction iterable as [| x l IH]; cbn; [constructor |].
    destruct (pred x); cbn.
    + constructor. exact IH.
    + apply Permutation_sym, Permutation_cons_app, Permutation_sym, IH.
  - apply Forall_forall. intros x Hx. apply filter_In in Hx. tauto.
  - apply Forall_forall. intros x Hx. apply filter_In in Hx.
    destruct Hx as [_ Hx]. apply negb_true_iff in Hx. exact Hx.
  - induction iterable as [| x l IH]; cbn; [constructor |].
    destruct (pred x); constructor; exact IH.
  - induction iterable as [| x l IH]; cbn; [constructor |].
    destruct (pred x); cbn; constructor; exact IH.
Qed.

(** X3.  [partition_set] returns two sets without a common element, each
    without repetition, that together hold exactly the items of the input;
    the first holds those that satisfy the predicate. *)
Theorem partition_set_splits {A} (eq_dec : forall a b : A, {a = b} + {a <> b})
        (pred : A -> bool) (iterable : list A) :
  NoDup (fst (Util.partition_set eq_dec pred iterable))
  /\ NoDup (snd (Util.partition_set eq_dec pred iterable))
  /\ (forall x, In x (fst (Util.partition_set eq_dec pred iterable))
                <-> In x iterable /\ pred x = true)
  /\ (forall x, In x (snd (Util.partition_set eq_dec pred iterable))
                <-> In x iterable /\ pred x = false)
  /\ (forall x, In x (fst (Util.partition_set eq_dec pred iterable)) ->
                ~ In x (snd (Util.partition_set eq_dec pred iterable))).
Proof.
  unfold Util.partition_set, Util.to_set; cbn [fst snd].
  assert (H1 : forall x, In x (nodup eq_dec (filter pred iterable))
                         <-> In x iterable /\ pred x = true).
  { intros x. rewrite nodup_In, filter_In. reflexivity. }
  assert (H2 : forall x,
             In x (nodup eq_dec (filter (fun x => negb (pred x)) iterable))
             <-> In x iterable /\ pred x = false).
  { intros x. rewrite nodup_In, filter_In, negb_true_iff. reflexivity. }
  split; [apply NoDup_nodup |]. split; [apply NoDup_nodup |].
  split; [exact H1 |]. split; [exact H2 |].
  intros x Hx Hx'. apply H1 in Hx. apply H2 in Hx'.
  destruct Hx as [_ Hx]. destruct Hx' as [_ Hx']. congruence.
Qed.

Lemma Subseq_nil_l {A} (s : list A) : Subseq [] s.
Proof. induction s; constructor; assumption. Qed.

Lemma Subseq_length {A} (c s : list A) :
  Subseq c s -> (List.length c <= List.length s)%nat.
Proof. induction 1; cbn; lia. Qed.

Lemma Subseq_refl {A} (s : list A) : Subseq s s.
Proof. induction s; constructor; assumption. Qed.

(** The combinations of length [r] are the subsequences of length [r]. *)
Lemma in_combinations {A} (s c : list A) (r : nat) :
  In c (Util.combinations s r) <-> Subseq c s /\ List.length c = r.
Proof.
  revert c r. induction s as [| x s IH]; intros c r.
  - destruct r; cbn.
    + split.
      * intros [<- | []]. split; [constructor | reflexivity].
      * intros [_ Hl]. destruct c; [left; reflexivity | discriminate].
    + split; [intros [] |]. intros [Hs Hl]. inversion Hs; subst. discriminate.
  - destruct r; cbn [Util.combinations].
    + split.
      * intros [<- | []]. split; [apply Subseq_nil_l | reflexivity].
      * intros [_ Hl]. destruct c; [left; reflexivity | discriminate].
    + rewrite in_app_iff, in_map_iff. split.
      * intros [[c' [<- Hc']] | Hc].
        -- apply IH in Hc' as [Hs Hl]. split; [constructor; exact Hs |].
           cbn. rewrite Hl. reflexivity.
        -- apply IH in Hc as [Hs Hl]. split; [constructor; exact Hs | exact Hl].
      * intros [Hs Hl]. inversion Hs; subst.
        -- right. apply IH. split; assumption.
        -- left. eexists. split; [reflexivity |]. apply IH.
           split; [assumption |]. cbn in Hl. lia.
Qed.

Lemma combinations_long {A} (s : list A) (r : nat) :
  (List.length s < r)%nat -> Util.combinations s r = [].
Proof.
  intros Hr. destruct (Util.combinations s r) as [| c l] eqn:E; [reflexivity |].
  assert (Hc : In c (Util.combinations s r)) by (rewrite E; left; reflexivity).
  apply in_combinations in Hc as [Hs Hl]. apply Subseq_length in Hs. lia.
Qed.

Lemma combinations_all {A} (s : list A) :
  Util.combinations s (List.length s) = [s].
Proof.
  induction s as [| x s IH]; cbn; [reflexivity |].
  rewrite IH, combinations_long by lia. reflexivity.
Qed.

Lemma combinations_upto_S {A} (s : list A) (k : nat) :
  combinations_upto s (S k)
  = (combinations_upto s k + List.length (Util.combinations s k))%nat.
Proof.
  unfold combinations_upto. rewrite seq_S, map_app, list_sum_app. cbn. lia.
Qed.

Lemma combinations_upto_cons {A} (x : A) (s : list A) (k : nat) :
  combinations_upto (x :: s) (S k)
  = (combinations_upto s (S k) + combinations_upto s k)%nat.
Proof.
  induction k as [| k IH].
  - destruct s; reflexivity.
  - rewrite (combinations_upto_S (x :: s)), IH.
    rewrite (combinations_upto_S s (S k)), (combinations_upto_S s k).
    cbn [Util.combinations]. rewrite length_app, length_map. lia.
Qed.

Lemma length_flat_map_sum {A B} (f : A -> list B) (l : list A) :
  List.length (flat_map f l) = list_sum (map (fun x => List.length (f x)) l).
Proof.
  induction l as [| x l IH]; cbn; [reflexivity |].
  rewrite length_app, IH. reflexivity.
Qed.

Lemma combinations_upto_all {A} (s : list A) :
  combinations_upto s (List.length s + 1) = (2 ^ List.length s)%nat.
Proof.
  induction s as [| x s IH]; [reflexivity |].
  cbn [List.length].
  assert (H1 : combinations_upto s (S (List.length s)) = (2 ^ List.length s)%nat).
  { rewrite <- IH. f_equal. lia. }
  replace (S (List.length s) + 1)%nat with (S (S (List.length s))) by lia.
  rewrite combinations_upto_cons, (combinations_upto_S s (S (List.length s))).
  rewrite H1, combinations_long by lia.
  rewrite Nat.pow_succ_r'. cbn [List.length]. lia.
Qed.

(** X4.  [powerset] yields every subsequence of its input and nothing
    else, [2 ** len(s)] tuples in all, the empty tuple first and the whole
    input last. *)
Theorem powerset_subsequences {A} (s : list A) :
  (forall c, In c (Util.powerset s) <-> Subseq c s)
  /\ List.length (Util.powerset s) = (2 ^ List.length s)%nat
  /\ nth_error (Util.powerset s) 0 = Some []
  /\ Py.last_opt (Util.powerset s) = Some s.
Proof.
  unfold Util.powerset. split; [| split; [| split]].
  - intros c. rewrite in_flat_map. split.
    + intros [r [_ Hc]]. apply in_combinations in Hc. tauto.
    + intros Hs. exists (List.length c). split.
      * apply in_seq. apply Subseq_length in Hs. lia.
      * apply in_combinations. auto.
  - rewrite length_flat_map_sum. apply combinations_upto_all.
  - replace (List.length s + 1)%nat with (S (List.length s)) by lia.
    destruct s; reflexivity.
  - replace (List.length s + 1)%nat with (S (List.length s)) by lia.
    rewrite seq_S, flat_map_app. cbn [flat_map Nat.add].
    rewrite combinations_all, app_nil_r. apply last_opt_app.
Qed.

(** [all] over a range whose test never raises returns, and returns true
    exactly when the test is true all over the range. *)
Lemma all_range_spec (f : nat -> Result bool) (start n : nat) :
  (forall i, (start <= i < start + n)%nat -> exists b, f i = Ok b) ->
  exists b,
    Util.all_range f start n = Ok b
    /\ (b = true <-> forall i, (start <= i < start + n)%nat -> f i = Ok true).
Proof.
  revert start. induction n as [| n IH]; intros start Hf; cbn.
  - exists true. split; [reflexivity |]. split; [intros _ i Hi; lia | reflexivity].
  - destruct (Hf start ltac:(lia)) as [b0 E0]. rewrite E0.
    destruct b0.
    + destruct (IH (S start)) as [b [E Hb]].
      { intros i Hi. apply Hf. lia. }
      exists b. split; [exact E |]. rewrite Hb. split.
      * intros H i Hi. destruct (Nat.eq_dec i start) as [-> | Hne];
          [exact E0 | apply H; lia].
      * intros H i Hi. apply H. lia.
    + exists false. split; [reflexivity |]. split; [discriminate |].
      intros H. specialize (H start ltac:(lia)). congruence.
Qed.

Lemma nth_error_prefix {T} (h l : list T) :
  (forall i, (i < List.length h)%nat -> nth_error l i = nth_error h i)
  <-> exists rest, l = (h ++ rest)%list.
Proof.
  revert l. induction h as [| x h IH]; intros l.
  - split; [intros _; exists l; reflexivity | intros _ i Hi; cbn in Hi; lia].
  - split.
    + intros H. destruct l as [| y l].
      * specialize (H 0%nat ltac:(cbn; lia)). discriminate H.
      * pose proof (H 0%nat ltac:(cbn; lia)) as H0. cbn in H0.
        inversion H0; subst y.
        destruct (proj1 (IH l)) as [rest ->].
        { intros i Hi. apply (H (S i)). cbn. lia. }
        exists rest. reflexivity.
    + intros [rest ->] i Hi. cbn [app].
      destruct i as [| i]; [reflexivity |]. cbn.
      apply (proj2 (IH (h ++ rest)%list)); [exists rest; reflexivity |].
      cbn in Hi. lia.
Qed.

(** The test of the two functions on a window of [l] that starts at
    [off]: it never raises when the window fits, and is true exactly when
    the window is [h]. *)
Lemma window_equal {T} (eqb : T -> T -> bool) (l h : list T) (off : nat) :
  (forall a b, eqb a b = true <-> a = b) ->
  (off + List.length h <= List.length l)%nat ->
  exists b,
    Util.all_range (fun i => Util.items_equal eqb l (off + i) h i) 0
                   (List.length h) = Ok b
    /\ (b = true <-> exists pre rest,
                       l = (pre ++ h ++ rest)%list /\ List.length pre = off).
Proof.
  intros Heqb Hlen.
  assert (Hitem : forall i, (i < List.length h)%nat ->
                  exists a b, nth_error l (off + i) = Some a
                              /\ nth_error h i = Some b
                              /\ Util.items_equal eqb l (off + i) h i
                                 = Ok (eqb a b)).
  { intros i Hi.
    destruct (nth_error l (off + i)) as [a |] eqn:Ea;
      [| apply nth_error_None in Ea; lia].
    destruct (nth_error h i) as [b |] eqn:Eb;
      [| apply nth_error_None in Eb; lia].
    exists a, b. unfold Util.items_equal, Util.list_item. rewrite Ea, Eb. auto. }
  destruct (all_range_spec (fun i => Util.items_equal eqb l (off + i) h i) 0
                           (List.length h)) as [b [E Hb]].
  { intros i Hi. destruct (Hitem i ltac:(lia)) as [a [c [_ [_ ->]]]]. eauto. }
  exists b. split; [exact E |]. rewrite Hb. clear E Hb.
  assert (Hsplit : l = (firstn off l ++ skipn off l)%list)
    by (symmetry; apply firstn_skipn).
  assert (Hpre : List.length (firstn off l) = off)
    by (rewrite length_firstn; lia).
  split.
  - intros H.
    destruct (proj1 (nth_error_prefix h (skipn off l))) as [rest Hr].
    { intros i Hi. specialize (H i ltac:(lia)).
      destruct (Hitem i Hi) as [a [c [Ea [Ec Ei]]]].
      rewrite Ei in H. inversion H as [Hab]. apply Heqb in Hab. subst c.
      rewrite Ec, <- Ea. rewrite Hsplit at 2.
      rewrite nth_error_app2 by lia. f_equal. lia. }
    exists (firstn off l), rest. split; [| exact Hpre].
    rewrite <- Hr. exact Hsplit.
  - intros [pre [rest [-> Hp]]] i Hi.
    destruct (Hitem i ltac:(lia)) as [a [c [Ea [Ec ->]]]].
    f_equal. apply Heqb.
    rewrite nth_error_app2 in Ea by lia.
    replace (off + i - List.length pre)%nat with i in Ea by lia.
    rewrite nth_error_app1 in Ea by lia. congruence.
Qed.

(** X5.  [liststartswith] never raises, and it returns true exactly when
    [l] is [head] followed by some rest; the guard on the lengths keeps
    every index in range. *)
Theorem liststartswith_prefix {T} (eqb : T -> T -> bool) (l head : list T) :
  (forall a b, eqb a b = true <-> a = b) ->
  exists b,
    Util.liststartswith eqb l head = Ok b
    /\ (b = true <-> exists rest, l = (head ++ rest)%list).
Proof.
  intros Heqb. unfold Util.liststartswith.
  destruct (Nat.ltb_spec (List.length l) (List.length head)) as [Hlt | Hge].
  - exists false. split; [reflexivity |]. split; [discriminate |].
    intros [rest ->]. rewrite length_app in Hlt. lia.
  - destruct (window_equal eqb l head 0 Heqb) as [b [E Hb]]; [lia |].
    exists b. split; [exact E |]. rewrite Hb. split.
    + intros [pre [rest [-> Hp]]]. destruct pre; [| discriminate].
      exists rest. reflexivity.
    + intros [rest ->]. exists [], rest. split; reflexivity.
Qed.

(** X6.  [listendswith] never raises, and it returns true exactly when
    [l] is something followed by [tail]. *)
Theorem listendswith_suffix {T} (eqb : T -> T -> bool) (l tail : list T) :
  (forall a b, eqb a b = true <-> a = b) ->
  exists b,
    Util.listendswith eqb l tail = Ok b
    /\ (b = true <-> exists pre, l = (pre ++ tail)%list).
Proof.
  intros Heqb. unfold Util.listendswith.
  destruct (Nat.ltb_spec (List.length l) (List.length tail)) as [Hlt | Hge].
  - exists false. split; [reflexivity |]. split; [discriminate |].
    intros [pre ->]. rewrite length_app in Hlt. lia.
  - destruct (window_equal eqb l tail (List.length l - List.length tail) Heqb)
      as [b [E Hb]]; [lia |].
    exists b. split; [exact E |]. rewrite Hb. split.
    + intros [pre [rest [-> Hp]]]. rewrite !length_app in Hp.
      destruct rest; [| cbn in Hp; lia].
      exists pre. rewrite app_nil_r. reflexivity.
    + intros [pre ->]. exists pre, []. rewrite app_nil_r.
      split; [reflexivity |]. rewrite length_app. lia.
Qed.

Lemma string_eqb_spec_iff (a b : string) : String.eqb a b = true <-> a = b.
Proof. apply String.eqb_eq. Qed.

(** X7.  On the suffixes of a path, [is_config_test_suffix] and
    [is_config_suffix] never raise and never both hold:
    [is_config_test_suffix] holds exactly when the last two suffixes are
    [.test] and a YAML extension, and [is_config_suffix] exactly when the
    last suffix is a YAML extension and [is_config_test_suffix] does not
    hold. *)
Theorem config_suffix_cases (suffixes : list string) :
  exists bt bc,
    Util.is_config_test_suffix suffixes = Ok bt
    /\ Util.is_config_suffix suffixes = Ok bc
    /\ (bt = true
        <-> exists pre ext,
              suffixes = (pre ++ [".test"; ext])%list
              /\ (ext = ".yml" \/ ext = ".yaml"))
    /\ (bc = true
        <-> (exists pre ext,
               suffixes = (pre ++ [ext])%list
               /\ (ext = ".yml" \/ ext = ".yaml"))
            /\ bt = false)
    /\ (bt = true -> bc = false).
Proof.
  destruct (listendswith_suffix String.eqb suffixes [".test"; ".yml"]
              string_eqb_spec_iff) as [t1 [Et1 Ht1]].
  destruct (listendswith_suffix String.eqb suffixes [".test"; ".yaml"]
              string_eqb_spec_iff) as [t2 [Et2 Ht2]].
  destruct (listendswith_suffix String.eqb suffixes [".yml"]
              string_eqb_spec_iff) as [c1 [Ec1 Hc1]].
  destruct (listendswith_suffix String.eqb suffixes [".yaml"]
              string_eqb_spec_iff) as [c2 [Ec2 Hc2]].
  assert (Et : Util.is_config_test_suffix suffixes = Ok (t1 || t2)).
  { unfold Util.is_config_test_suffix, Util.YML_TEST_SUFFIXES,
      Util.YML_EXTENSIONS; cbn [map Util.any_of].
    rewrite Et1. destruct t1; [reflexivity |]. rewrite Et2.
    destruct t2; reflexivity. }
  assert (Ec : Util.is_config_suffix suffixes
               = Ok ((c1 || c2) && negb (t1 || t2))).
  { unfold Util.is_config_suffix. rewrite Et.
    unfold Util.YML_SUFFIXES, Util.YML_EXTENSIONS; cbn [map Util.any_of].
    rewrite Ec1. destruct c1; [reflexivity |]. rewrite Ec2.
    destruct c2; reflexivity. }
  assert (Htest : t1 || t2 = true
                  <-> exists pre ext,
                        suffixes = (pre ++ [".test"; ext])%list
                        /\ (ext = ".yml" \/ ext = ".yaml")).
  { rewrite orb_true_iff, Ht1, Ht2. split.
    - intros [[pre ->] | [pre ->]]; eauto.
    - intros [pre [ext [-> [-> | ->]]]]; eauto. }
  assert (Hyml : c1 || c2 = true
                 <-> exists pre ext,
                       suffixes = (pre ++ [ext])%list
                       /\ (ext = ".yml" \/ ext = ".yaml")).
  { rewrite orb_true_iff, Hc1, Hc2. split.
    - intros [[pre ->] | [pre ->]]; eauto.
    - intros [pre [ext [-> [-> | ->]]]]; eauto. }
  exists (t1 || t2), ((c1 || c2) && negb (t1 || t2)).
  split; [exact Et |]. split; [exact Ec |]. split; [exact Htest |].
  split.
  - rewrite andb_true_iff, negb_true_iff, Hyml. reflexivity.
  - intros ->. apply andb_false_r.
Qed.

(** X8.  [set_flags] only ever turns the three global flags on: after any
    sequence of calls a flag is on exactly when it was on before or some
    call asked for it.  The logger is set anew by each call: after a
    sequence that is not empty it has one handler, and its level is that of
    the last call alone (debug before quiet), whatever the flags say. *)
Theorem set_flags_accumulate (calls : list (bool * bool * bool))
        (g : Util.Globals) :
  Util.DEBUG (set_flags_calls calls g)
  = Util.DEBUG g || existsb (fun c => fst (fst c)) calls
  /\ Util.QUIET (set_flags_calls calls g)
     = Util.QUIET g || existsb (fun c => snd (fst c)) calls
  /\ Util.FORCE_COLOR (set_flags_calls calls g)
     = Util.FORCE_COLOR g || existsb (fun c => snd c) calls
  /\ (forall earlier last,
        calls = (earlier ++ [last])%list ->
        Util.logger_handlers (set_flags_calls calls g) = [level_of_call last]
        /\ Util.logger_level (set_flags_calls calls g)
           = Some (level_of_call last)).
Proof.
  split; [| split; [| split]].
  - revert g. induction calls as [| [[d q] f] calls IH]; intros g;
      cbn [set_flags_calls fold_left existsb fst snd].
    + rewrite orb_false_r. reflexivity.
    + fold (set_flags_calls calls (Util.set_flags d q f g)). rewrite IH.
      cbn. destruct d; cbn; [rewrite orb_true_r |]; reflexivity.
  - revert g. induction calls as [| [[d q] f] calls IH]; intros g;
      cbn [set_flags_calls fold_left existsb fst snd].
    + rewrite orb_false_r. reflexivity.
    + fold (set_flags_calls calls (Util.set_flags d q f g)). rewrite IH.
      cbn. destruct q; cbn; [rewrite orb_true_r |]; reflexivity.
  - revert g. induction calls as [| [[d q] f] calls IH]; intros g;
      cbn [set_flags_calls fold_left existsb fst snd].
    + rewrite orb_false_r. reflexivity.
    + fold (set_flags_calls calls (Util.set_flags d q f g)). rewrite IH.
      cbn. destruct f; cbn; [rewrite orb_true_r |]; reflexivity.
  - intros earlier [[d q] f] ->. unfold set_flags_calls.
    rewrite fold_left_app. cbn. unfold level_of_call; cbn.
    destruct d, q; split; reflexivity.
Qed.

(* ------------------------------------------------------------------ *)
(** ** Further properties: the renderers of output.py *)

Lemma str_app_assoc (a b c : string) : (a ++ b) ++ c = a ++ (b ++ c).
Proof. induction a as [| x a IH]; cbn; [| rewrite IH]; reflexivity. Qed.

Lemma str_app_nil_r (a : string) : a ++ EmptyString = a.
Proof. induction a as [| x a IH]; cbn; [| rewrite IH]; reflexivity. Qed.

Lemma take_drop (n : nat) (s : string) : Py.take n s ++ Py.drop n s = s.
Proof.
  revert s. induction n as [| n IH]; intros [| c s]; cbn; try reflexivity.
  rewrite IH. reflexivity.
Qed.

Lemma take_all (n : nat) (s : string) :
  (String.length s <= n)%nat -> Py.take n s = s.
Proof.
  revert s. induction n as [| n IH]; intros [| c s] H; cbn in *;
    try reflexivity; [lia |].
  rewrite IH by lia. reflexivity.
Qed.

Lemma drop_all (n : nat) (s : string) :
  (String.length s <= n)%nat -> Py.drop n s = EmptyString.
Proof.
  revert s. induction n as [| n IH]; intros [| c s] H; cbn in *;
    try reflexivity; [lia |].
  apply IH. lia.
Qed.

Lemma length_take (n : nat) (s : string) :
  String.length (Py.take n s) = Nat.min n (String.length s).
Proof.
  revert s. induction n as [| n IH]; intros [| c s]; cbn; try reflexivity.
  rewrite IH. reflexivity.
Qed.

Lemma length_drop (n : nat) (s : string) :
  String.length (Py.drop n s) = (String.length s - n)%nat.
Proof.
  revert s. induction n as [| n IH]; intros [| c s]; cbn; try reflexivity.
  apply IH.
Qed.

(** [s[:a] + s[a:b]] is [s[:b]] when [a <= b]. *)
Lemma take_slice (a b : nat) (s : string) :
  (a <= b)%nat -> Py.take a s ++ Py.slice a b s = Py.take b s.
Proof.
  unfold Py.slice. revert b s.
  induction a as [| a IH]; intros b s Hab.
  - cbn. rewrite Nat.sub_0_r. destruct s; reflexivity.
  - destruct b as [| b]; [lia |].
    destruct s as [| c s]; [cbn; destruct (b - a)%nat; reflexivity |].
    cbn. rewrite IH by lia. reflexivity.
Qed.

(** The three slices that [color_line] takes put the line together again
    when the first offset is not beyond the second, or the second is at
    the end of the line or beyond. *)
Lemma three_slices (a b : nat) (s : string) :
  (a <= b)%nat \/ (String.length s <= b)%nat ->
  Py.take a s ++ Py.slice a b s ++ Py.drop b s = s.
Proof.
  intros [Hab | Hb].
  - rewrite <- str_app_assoc, take_slice by exact Hab. apply take_drop.
  - destruct (Nat.le_gt_cases a b) as [Hab | Hba].
    + rewrite <- str_app_assoc, take_slice by exact Hab. apply take_drop.
    + unfold Py.slice. replace (b - a)%nat with 0%nat by lia.
      rewrite (drop_all b s Hb), (take_all a s) by lia.
      destruct (Py.drop a s); cbn; apply str_app_nil_r.
Qed.

(** X9.  [color_line] only inserts the two escape sequences: on a line
    after the start line, or before the end line, or when
    [start_col <= end_col + 1], the coloured line is the line cut in three
    with [Style.BRIGHT] before the middle part and [Style.RESET_ALL] after
    it, no character lost, repeated or moved. *)
Theorem color_line_keeps_text
        (line : string) (line_number start_line start_col end_line end_col : Z) :
  (line_number > start_line \/ line_number < end_line
   \/ start_col <= end_col + 1)%Z ->
  exists pre mid post,
    color_line line line_number start_line start_col end_line end_col
    = pre ++ Colorama.Style_BRIGHT ++ mid ++ Colorama.Style_RESET_ALL ++ post
    /\ pre ++ mid ++ post = line.
Proof.
  intros H. unfold color_line.
  eexists _, _, _. split; [reflexivity |].
  apply three_slices.
  destruct (Z.gtb_spec line_number start_line) as [Hs | Hs].
  - left. cbn. lia.
  - destruct (Z.geb_spec line_number end_line) as [He | He].
    + left. lia.
    + right. lia.
Qed.

(** X10.  What [color_line] highlights.  On a match inside one line, with
    [1 <= start_col <= end_col <= len(line)], the highlighted part is the
    columns [start_col] to [end_col], both included: what stands before
    has [start_col - 1] characters and the part has
    [end_col - start_col + 1].  A line strictly between the start line and
    the end line is highlighted as a whole. *)
Theorem color_line_span
        (line : string) (line_number start_line start_col end_line end_col : Z) :
  (line_number = start_line /\ line_number = end_line ->
   (1 <= start_col <= end_col)%Z ->
   (end_col <= Z.of_nat (String.length line))%Z ->
   exists pre mid post,
     color_line line line_number start_line start_col end_line end_col
     = pre ++ Colorama.Style_BRIGHT ++ mid ++ Colorama.Style_RESET_ALL ++ post
     /\ pre ++ mid ++ post = line
     /\ Z.of_nat (String.length pre) = (start_col - 1)%Z
     /\ Z.of_nat (String.length mid) = (end_col - start_col + 1)%Z)
  /\ ((start_line < line_number < end_line)%Z ->
      color_line line line_number start_line start_col end_line end_col
      = Colorama.Style_BRIGHT ++ line ++ Colorama.Style_RESET_ALL).
Proof.
  split.
  - intros [-> ->] Hc Hl. unfold color_line.
    rewrite Z.gtb_ltb, Z.ltb_irrefl, Z.geb_leb, Z.leb_refl.
    eexists _, _, _. split; [reflexivity |].
    split; [apply three_slices; left; lia |].
    split.
    + rewrite length_take. lia.
    + unfold Py.slice. rewrite length_take, length_drop. lia.
  - intros [Hs He]. unfold color_line.
    rewrite Z.gtb_ltb, Z.geb_leb.
    rewrite (proj2 (Z.ltb_lt _ _) Hs), (proj2 (Z.leb_gt _ _) He).
    change (Z.to_nat (Z.max (0 - 1) 0)) with 0%nat. unfold Py.slice.
    remember (Z.to_nat (Z.max (Z.of_nat (String.length line) + 1 + 1 - 1) 0 + 1))
      as b eqn:Hb.
    assert (Hlen : (String.length line <= b)%nat) by lia.
    cbn [Py.take Py.drop append]. rewrite Nat.sub_0_r.
    rewrite take_all, drop_all by lia.
    rewrite !str_app_nil_r. reflexivity.
Qed.


(** X12.  A negative limit [n] is taken from the end: for a finding with a
    path, [finding_to_line] leaves out the last [-n] lines and always ends
    with a marker, which reports the number of lines plus [-n] as hidden,
    more lines than the finding has. *)
Theorem finding_to_line_negative_limit
        (env : Env) (rule_match : RuleMatch) (color_output show_separator : bool)
        (n : Z) :
  rm_path rule_match <> EmptyString ->
  (n < 0)%Z ->
  finding_to_line env rule_match color_output (Some n) show_separator
  = (map_enumerate (source_line rule_match color_output) 0
       (firstn (List.length (display_lines rule_match) - Z.to_nat (- n))
               (display_lines rule_match))
     ++ [Py.center (" [hid "
                    ++ Py.str_Z (Z.of_nat (List.length (display_lines rule_match))
                                 - n)
                    ++ " additional lines, adjust with "
                    ++ MAX_LINES_FLAG_NAME env ++ "] ")
                   (BREAK_LINE_WIDTH env) (BREAK_LINE_CHAR env)])%list
  /\ (Z.of_nat (List.length (display_lines rule_match))
      < Z.of_nat (List.length (display_lines rule_match)) - n)%Z.
Proof.
  intros Hpath Hn. split; [| lia].
  unfold finding_to_line, trimmed_marker, trimmed_str, limit_is_not_one,
    Py.list_upto, Py.truthy_Z.
  destruct (rm_path rule_match); [congruence |]. cbn [Py.truthy_str].
  rewrite (proj2 (Z.eqb_neq n 0)) by lia.
  rewrite (proj2 (Z.leb_gt 0 n)) by lia.
  rewrite (proj2 (Z.eqb_neq n 1)) by lia.
  cbn [negb]. rewrite Z.gtb_ltb.
  rewrite (proj2 (Z.ltb_lt 0 _)) by lia.
  reflexivity.
Qed.

(** *** The order of the text and Emacs reports *)

Lemma insert_by_perm {A} (lt : A -> A -> bool) (x : A) (l : list A) :
  Permutation (Py.insert_by lt x l) (x :: l).
Proof.
  induction l as [| y l IH]; cbn; [reflexivity |].
  destruct (lt x y); [reflexivity |].
  rewrite IH. apply perm_swap.
Qed.

Lemma sorted_by_perm {A} (lt : A -> A -> bool) (l : list A) :
  Permutation (Py.sorted_by lt l) l.
Proof.
  unfold Py.sorted_by.
  assert (H : forall acc, Permutation
                            (fold_left (fun acc x => Py.insert_by lt x acc) l acc)
                            (acc ++ l)%list).
  { induction l as [| x l IH]; intros acc; cbn.
    - rewrite app_nil_r. reflexivity.
    - rewrite IH, insert_by_perm. apply Permutation_middle. }
  apply (H []).
Qed.

Lemma str_ltb_lt (a b : string) :
  Py.str_ltb a b = true <-> OrdersEx.String_as_OT.lt a b.
Proof.
  unfold Py.str_ltb, OrdersEx.String_as_OT.lt.
  change (OrdersEx.String_as_OT.compare a b) with (String.compare a b).
  destruct (String.compare a b); split; congruence.
Qed.

Lemma str_ltb_trans (a b c : string) :
  Py.str_ltb a b = true -> Py.str_ltb b c = true -> Py.str_ltb a c = true.
Proof.
  rewrite !str_ltb_lt. apply OrdersEx.String_as_OT.lt_strorder.
Qed.

Lemma str_ltb_irrefl (a : string) : Py.str_ltb a a = false.
Proof.
  destruct (Py.str_ltb a a) eqn:E; [| reflexivity].
  apply str_ltb_lt in E.
  exfalso. revert E. apply OrdersEx.String_as_OT.lt_strorder.
Qed.

Lemma str_ltb_total (a b : string) :
  Py.str_ltb a b = false -> Py.str_ltb b a = false -> a = b.
Proof.
  unfold Py.str_ltb. rewrite (String.compare_antisym b a).
  destruct (String.compare a b) eqn:E; cbn; try discriminate.
  intros _ _. apply String.compare_eq_iff, E.
Qed.

Lemma str_ltb_asym (a b : string) :
  Py.str_ltb a b = true -> Py.str_ltb b a = false.
Proof.
  intros H. destruct (Py.str_ltb b a) eqn:E; [| reflexivity].
  pose proof (str_ltb_trans a b a H E) as Haa.
  rewrite str_ltb_irrefl in Haa. discriminate.
Qed.

Lemma strs_eqb_spec (a b : list string) : Py.strs_eqb a b = true <-> a = b.
Proof.
  unfold Py.strs_eqb. destruct (list_eq_dec string_dec a b); split; auto.
  discriminate.
Qed.

Lemma strs_ltb_irrefl (a : list string) : Py.strs_ltb a a = false.
Proof.
  induction a as [| x a IH]; cbn [Py.strs_ltb]; [reflexivity |].
  rewrite String.eqb_refl. exact IH.
Qed.

Lemma strs_ltb_trans (a b c : list string) :
  Py.strs_ltb a b = true -> Py.strs_ltb b c = true -> Py.strs_ltb a c = true.
Proof.
  revert b c. induction a as [| x a IH]; intros [| y b] [| z c];
    cbn [Py.strs_ltb]; try discriminate; try reflexivity.
  destruct (String.eqb_spec x y) as [Hxy | Hxy];
    destruct (String.eqb_spec y z) as [Hyz | Hyz];
    destruct (String.eqb_spec x z) as [Hxz | Hxz];
    intros H1 H2; try congruence;
      try (eapply IH; eassumption);
      try (eapply str_ltb_trans; eassumption).
  rewrite <- Hxz in H2. rewrite (str_ltb_asym x y H1) in H2. discriminate H2.
Qed.

Lemma strs_ltb_total (a b : list string) :
  Py.strs_ltb a b = false -> Py.strs_ltb b a = false -> a = b.
Proof.
  revert b. induction a as [| x a IH]; intros [| y b];
    cbn [Py.strs_ltb]; try discriminate; [reflexivity |].
  rewrite (String.eqb_sym y x).
  destruct (String.eqb_spec x y) as [Hxy | Hxy].
  - subst y. intros H1 H2. f_equal. apply IH; assumption.
  - intros H1 H2. exfalso. apply Hxy. apply str_ltb_total; assumption.
Qed.

Lemma strs_ltb_asym (a b : list string) :
  Py.strs_ltb a b = true -> Py.strs_ltb b a = false.
Proof.
  intros H. destruct (Py.strs_ltb b a) eqn:E; [| reflexivity].
  pose proof (strs_ltb_trans a b a H E) as Haa.
  rewrite strs_ltb_irrefl in Haa. discriminate.
Qed.

(** The comparison that the sort uses says that [b] is not before [a]
    exactly when [a] does not come after [b]. *)
Lemma path_id_ltb_false (a b : RuleMatch) :
  path_id_ltb b a = false <-> path_id_le a b.
Proof.
  unfold path_id_ltb, path_id_le.
  destruct (Py.strs_eqb (path_parts (rm_path b)) (path_parts (rm_path a)))
    eqn:He.
  - apply strs_eqb_spec in He. rewrite He. split.
    + intros H. right. auto.
    + intros [H | [_ H]]; [| exact H].
      rewrite strs_ltb_irrefl in H. discriminate H.
  - split.
    + intros H. left.
      destruct (Py.strs_ltb (path_parts (rm_path a)) (path_parts (rm_path b)))
        eqn:E; [reflexivity |].
      exfalso. rewrite (strs_ltb_total _ _ E H) in He.
      assert (Ht : Py.strs_eqb (path_parts (rm_path b)) (path_parts (rm_path b))
                   = true) by (apply strs_eqb_spec; reflexivity).
      congruence.
    + intros [H | [H _]]; [apply strs_ltb_asym, H |].
      rewrite H in He.
      assert (Ht : Py.strs_eqb (path_parts (rm_path b)) (path_parts (rm_path b))
                   = true) by (apply strs_eqb_spec; reflexivity).
      congruence.
Qed.

Lemma path_id_le_trans (a b c : RuleMatch) :
  path_id_le a b -> path_id_le b c -> path_id_le a c.
Proof.
  unfold path_id_le.
  intros [Hab | [Pab Iab]] [Hbc | [Pbc Ibc]].
  - left. eapply strs_ltb_trans; eassumption.
  - left. rewrite <- Pbc. exact Hab.
  - left. rewrite Pab. exact Hbc.
  - right. split; [congruence |].
    destruct (Py.str_ltb (rm_id c) (rm_id a)) eqn:E; [| reflexivity].
    destruct (Py.str_ltb (rm_id a) (rm_id b)) eqn:E2.
    + rewrite (str_ltb_trans _ _ _ E E2) in Ibc. discriminate.
    + rewrite (str_ltb_total _ _ E2 Iab) in E. congruence.
Qed.

Lemma path_id_ltb_asym (x y : RuleMatch) :
  path_id_ltb x y = true -> path_id_ltb y x = false.
Proof.
  intros H. apply path_id_ltb_false.
  unfold path_id_ltb in H. unfold path_id_le.
  destruct (Py.strs_eqb (path_parts (rm_path x)) (path_parts (rm_path y)))
    eqn:He.
  - apply strs_eqb_spec in He. right. split; [exact He |].
    apply str_ltb_asym, H.
  - left. exact H.
Qed.

Lemma insert_by_sorted (x : RuleMatch) (l : list RuleMatch) :
  Sorted.StronglySorted path_id_le l ->
  Sorted.StronglySorted path_id_le (Py.insert_by path_id_ltb x l).
Proof.
  induction 1 as [| y l Hs IH Hy]; cbn [Py.insert_by].
  - repeat constructor.
  - destruct (path_id_ltb x y) eqn:E.
    + assert (Hxy : path_id_le x y)
        by (apply path_id_ltb_false, path_id_ltb_asym, E).
      constructor; [constructor; assumption |].
      constructor; [exact Hxy |].
      eapply Forall_impl; [| exact Hy].
      intros z Hz. eapply path_id_le_trans; eassumption.
    + constructor; [exact IH |].
      apply Forall_forall. intros z Hz.
      apply (Permutation_in _ (insert_by_perm path_id_ltb x l)) in Hz.
      destruct Hz as [<- | Hz].
      * apply path_id_ltb_false, E.
      * rewrite Forall_forall in Hy. apply Hy, Hz.
Qed.

(** X13.  The list that the text and the Emacs renderers go through is a
    rearrangement of the findings, each one in it as often as it was
    given, ordered by path and, within a path, by rule id: no finding comes
    after one with a greater path, or with the same path and a greater
    rule id.  Paths are ordered as [pathlib] orders them, part by part,
    so that a file in a directory [a] comes before the file [a.py]. *)
Theorem sort_by_path_id_sorted (rule_matches : list RuleMatch) :
  Permutation (sort_by_path_id rule_matches) rule_matches
  /\ Sorted.StronglySorted path_id_le (sort_by_path_id rule_matches).
Proof.
  split; [apply sorted_by_perm |].
  unfold sort_by_path_id, Py.sorted_by.
  assert (H : forall acc,
             Sorted.StronglySorted path_id_le acc ->
             Sorted.StronglySorted path_id_le
               (fold_left (fun acc x => Py.insert_by path_id_ltb x acc)
                          rule_matches acc)).
  { induction rule_matches as [| x l IH]; intros acc Hacc; cbn; [exact Hacc |].
    apply IH, insert_by_sorted, Hacc. }
  apply H. constructor.
Qed.

(** *** The Emacs and Vim reports *)

Lemma map_result_ok {A B} (f : A -> Result B) (l : list A) :
  (forall x, In x l -> exists y, f x = Ok y) ->
  exists ys, map_result f l = Ok ys /\ List.length ys = List.length l.
Proof.
  induction l as [| x l IH]; intros H; cbn.
  - exists []. split; reflexivity.
  - destruct (H x (or_introl eq_refl)) as [y ->].
    destruct IH as [ys [-> Hl]]; [intros z Hz; apply H; right; exact Hz |].
    exists (y :: ys). split; [reflexivity | cbn; rewrite Hl; reflexivity].
Qed.

Lemma map_result_raised {A B} (f : A -> Result B) (l : list A) :
  (exists x, In x l /\ exists ex, f x = Raised ex) ->
  exists x ex, In x l /\ f x = Raised ex /\ map_result f l = Raised ex.
Proof.
  induction l as [| x l IH]; intros [z [Hz [ex Hex]]]; [destruct Hz |].
  cbn. destruct (f x) as [y | ex0] eqn:E.
  - destruct Hz as [-> | Hz]; [congruence |].
    destruct IH as [x' [ex' [Hx' [Ef ->]]]]; [eauto |].
    exists x', ex'. auto.
  - exists x, ex0. auto.
Qed.

Lemma emacs_line_cases (env : Env) (rule_match : RuleMatch) :
  (rm_lines rule_match = []
   /\ emacs_line env rule_match
      = Raised (EPython "IndexError" "list index out of range"))
  \/ (rm_lines rule_match <> [] /\ exists s, emacs_line env rule_match = Ok s).
Proof.
  unfold emacs_line. destruct (rm_lines rule_match).
  - left. split; reflexivity.
  - right. split; [discriminate | eexists; reflexivity].
Qed.

(** X14.  The Emacs report has one line for each finding when every
    finding has at least one source line; a finding without source lines
    makes the renderer raise [IndexError], whatever the other findings
    are. *)
Theorem emacs_report_lines
        (env : Env) (rule_matches : list RuleMatch) (rules : list Rule) :
  ((forall rm, In rm rule_matches -> rm_lines rm <> []) ->
   exists lines,
     iter_emacs_output env rule_matches rules = Ok lines
     /\ List.length lines = List.length rule_matches
     /\ build_emacs_output env rule_matches rules
        = Ok (Py.join (String (ascii_of_nat 10) EmptyString) lines))
  /\ ((exists rm, In rm rule_matches /\ rm_lines rm = []) ->
      iter_emacs_output env rule_matches rules
      = Raised (EPython "IndexError" "list index out of range")
      /\ build_emacs_output env rule_matches rules
         = Raised (EPython "IndexError" "list index out of range")).
Proof.
  pose proof (sorted_by_perm path_id_ltb rule_matches) as Hperm.
  fold (sort_by_path_id rule_matches) in Hperm.
  unfold build_emacs_output, iter_emacs_output. split.
  - intros Hall.
    destruct (map_result_ok (emacs_line env) (sort_by_path_id rule_matches))
      as [lines [E Hl]].
    { intros rm Hrm. apply (Permutation_in _ Hperm) in Hrm.
      destruct (emacs_line_cases env rm) as [[H _] | [_ H]];
        [exfalso; exact (Hall rm Hrm H) | exact H]. }
    exists lines. rewrite E. split; [reflexivity |]. split; [| reflexivity].
    rewrite Hl. apply Permutation_length, Hperm.
  - intros [rm [Hrm Hl]].
    destruct (map_result_raised (emacs_line env) (sort_by_path_id rule_matches))
      as [rm' [ex [_ [Ef E]]]].
    { exists rm. split; [apply (Permutation_in _ (Permutation_sym Hperm)), Hrm |].
      destruct (emacs_line_cases env rm) as [[_ H] | [H _]];
        [eauto | contradiction]. }
    assert (ex = EPython "IndexError" "list index out of range") as ->.
    { destruct (emacs_line_cases env rm') as [[_ H] | [_ [s H]]]; congruence. }
    rewrite E. split; reflexivity.
Qed.

Lemma vim_parts_cases (rule_match : RuleMatch) :
  (vim_severity (rm_severity rule_match)
   /\ exists parts, vim_parts rule_match = Ok parts)
  \/ (~ vim_severity (rm_severity rule_match)
      /\ vim_parts rule_match
         = Raised (EPython "KeyError" (rm_severity rule_match))).
Proof.
  unfold vim_parts, dict_item, vim_severity. cbn [dict_get].
  destruct (String.eqb_spec (rm_severity rule_match) "INFO") as [-> | H1];
    [left; split; [auto | eexists; reflexivity] |].
  destruct (String.eqb_spec (rm_severity rule_match) "WARNING") as [-> | H2];
    [left; split; [auto | eexists; reflexivity] |].
  destruct (String.eqb_spec (rm_severity rule_match) "ERROR") as [-> | H3];
    [left; split; [auto | eexists; reflexivity] |].
  right. split; [intros [H | [H | H]]; contradiction | reflexivity].
Qed.

(** X15.  The Vim report has one line for each finding, in the order of
    ingestion, when every severity is [INFO], [WARNING] or [ERROR] in
    capitals; any other severity makes the renderer raise [KeyError] with
    the severity of one such finding. *)
Theorem vim_report_lines (rule_matches : list RuleMatch) (rules : list Rule) :
  ((forall rm, In rm rule_matches -> vim_severity (rm_severity rm)) ->
   exists lines,
     build_vim_output rule_matches rules
     = Ok (Py.join (String (ascii_of_nat 10) EmptyString) lines)
     /\ List.length lines = List.length rule_matches)
  /\ ((exists rm, In rm rule_matches /\ ~ vim_severity (rm_severity rm)) ->
      exists rm,
        In rm rule_matches /\ ~ vim_severity (rm_severity rm)
        /\ build_vim_output rule_matches rules
           = Raised (EPython "KeyError" (rm_severity rm))).
Proof.
  unfold build_vim_output.
  set (f := fun rm : RuleMatch =>
              match vim_parts rm with
              | Raised ex => Raised ex
              | Ok parts => Ok (Py.join ":" parts)
              end).
  assert (Hf : forall rm,
             (vim_severity (rm_severity rm) /\ exists s, f rm = Ok s)
             \/ (~ vim_severity (rm_severity rm)
                 /\ f rm = Raised (EPython "KeyError" (rm_severity rm)))).
  { intros rm. unfold f.
    destruct (vim_parts_cases rm) as [[H [parts ->]] | [H ->]];
      [left; split; [exact H | eexists; reflexivity] | right; auto]. }
  split.
  - intros Hall.
    destruct (map_result_ok f rule_matches) as [lines [E Hl]].
    { intros rm Hrm. destruct (Hf rm) as [[_ H] | [H _]];
        [exact H | exfalso; exact (H (Hall rm Hrm))]. }
    exists lines. rewrite E. split; [reflexivity | exact Hl].
  - intros [rm [Hrm Hs]].
    destruct (map_result_raised f rule_matches) as [rm' [ex [Hin [Ef E]]]].
    { exists rm. split; [exact Hrm |].
      destruct (Hf rm) as [[H _] | [_ H]]; [contradiction | eauto]. }
    exists rm'. destruct (Hf rm') as [[_ [s H]] | [Hn H]]; [congruence |].
    split; [exact Hin |]. split; [exact Hn |].
    rewrite E. congruence.
Qed.

(* ------------------------------------------------------------------ *)
(** ** Further properties: the handler of output.py *)

Lemma timeout_errors_loop_events (env : Env)
      (errors : list (string * list string)) (hint : bool)
      (self : OutputHandler) :
  timeout_errors_loop env errors hint self
  = (Ok (hint
         || existsb (fun entry =>
                       snd (timeout_message (timeout_threshold (settings self))
                                            (fst entry) (snd entry)))
                    errors),
     self, map (timeout_warning env self) errors).
Proof.
  revert hint.
  induction errors as [| [path ids] errors IH]; intros hint;
    cbn [timeout_errors_loop existsb map].
  - rewrite orb_false_r. reflexivity.
  - unfold bind, get, emit, timeout_warning. cbn [fst snd].
    destruct (timeout_message (timeout_threshold (settings self)) path ids)
      as [msg h] eqn:E.
    rewrite IH. cbn [fst snd app]. rewrite orb_assoc. reflexivity.
Qed.

(** X16.  [handle_semgrep_timeout_errors] logs one warning for each path,
    in the order of the dict, and after them the hint about the threshold
    option once at most, however many paths call for it: the hint is logged
    exactly when no threshold is configured and some path has more than
    five timeouts.  It marks the handler as having output and changes
    nothing else. *)
Theorem timeout_warnings_logged
        (env : Env) (errors : list (string * list string))
        (self : OutputHandler) :
  exists hints,
    handle_semgrep_timeout_errors env errors self
    = (Ok tt, set_has_output true self,
       (map (timeout_warning env (set_has_output true self)) errors
        ++ hints)%list)
    /\ (hints = [] \/ hints = [threshold_hint env])
    /\ (hints = [threshold_hint env]
        <-> timeout_threshold (settings self) = 0%Z
            /\ exists path ids,
                 In (path, ids) errors /\ (5 < List.length ids)%nat).
Proof.
  unfold handle_semgrep_timeout_errors, bind, modify.
  rewrite timeout_errors_loop_events. cbn [orb].
  set (flag := existsb _ errors).
  assert (Hflag : flag = true
                  <-> timeout_threshold (settings self) = 0%Z
                      /\ exists path ids,
                           In (path, ids) errors /\ (5 < List.length ids)%nat).
  { unfold flag. rewrite existsb_exists. cbn [settings set_has_output].
    unfold timeout_message, Py.truthy_Z. cbn [snd fst]. split.
    - intros [[path ids] [Hin H]]. cbn [fst snd] in H.
      apply andb_prop in H as [H1 H2].
      apply negb_true_iff, negb_false_iff, Z.eqb_eq in H2.
      rewrite Z.gtb_ltb in H1. apply Z.ltb_lt in H1.
      split; [exact H2 |]. exists path, ids. split; [exact Hin | lia].
    - intros [Ht [path [ids [Hin Hl]]]]. exists (path, ids).
      split; [exact Hin |]. cbn [fst snd]. rewrite Ht. cbn.
      rewrite andb_true_r, Z.gtb_ltb. apply Z.ltb_lt. lia. }
  destruct flag; cbn [when].
  - exists [threshold_hint env]. unfold emit. cbn.
    split; [reflexivity |]. split; [auto |].
    split; [intros _; apply Hflag; reflexivity | reflexivity].
  - exists []. cbn. split; [rewrite ?app_nil_r; reflexivity |].
    split; [auto |]. split; [discriminate |].
    intros H. apply Hflag in H. discriminate.
Qed.

(** X17.  The JSON report.  In the formats [json] and [json-debug],
    [build_output] returns [json.dumps] of an object that always has the
    key [results] with one entry for each finding, in the order of
    ingestion, and the key [errors] with one entry for each structured
    error; it has the key [debug] only in the format [json-debug] and only
    when debug steps were stored, the key [stats] exactly when the stats
    are asked for, and the key [time] exactly when the times are. *)
Theorem json_report_keys
        (env : Env) (color_output : bool) (limit : option Z)
        (self : OutputHandler) :
  is_json (output_format (settings self)) = true ->
  result_of (build_output env color_output limit self)
  = Ok (json_dumps env (JDict (json_report_object env self)))
  /\ dict_get "results" (json_report_object env self)
     = Some (JList (map (rm_to_json env) (rule_matches self)))
  /\ dict_get "errors" (json_report_object env self)
     = Some (JList (map (fun e => JDict (err_to_dict env e))
                        (semgrep_structured_errors self)))
  /\ (dict_get "debug" (json_report_object env self) <> None
      <-> output_format (settings self) = JSON_DEBUG
          /\ debug_steps_by_rule self <> [])
  /\ (dict_get "stats" (json_report_object env self) <> None
      <-> json_stats (settings self) = true)
  /\ (dict_get "time" (json_report_object env self) <> None
      <-> json_time (settings self) = true).
Proof.
  intros Hjson.
  split.
  - unfold build_output, bind, get, emit, ret, result_of.
    cbv beta iota. rewrite Hjson. reflexivity.
  - unfold json_report_object, output_json_object.
    destruct (output_format (settings self)); try discriminate Hjson;
      cbn [format_eqb OutputFormat_eq_dec];
      destruct (json_stats (settings self)), (json_time (settings self));
      try (destruct (debug_steps_by_rule self) as [| d ds]);
      cbn; repeat split; try congruence; try discriminate;
        try (intros [H1 H2]; congruence); try (intros H; exfalso; apply H; reflexivity).
Qed.

(** X18.  Handing the same error over a second time changes nothing:
    [handle_semgrep_error] run twice in a row on an error leaves the
    handler, and the log, as one run does. *)
Theorem handle_semgrep_error_idempotent
        (error : SemgrepError) (self : OutputHandler) :
  (handle_semgrep_error error ;; handle_semgrep_error error) self
  = handle_semgrep_error error self.
Proof.
  unfold bind at 1.
  assert (H : exists s1 ev1,
             handle_semgrep_error error self = (Ok tt, s1, ev1)
             /\ handle_semgrep_error error s1 = (Ok tt, s1, [])).
  { unfold handle_semgrep_error, bind, modify, get; cbn.
    destruct (error_in error (error_set self)) eqn:Hin; cbn.
    - do 2 eexists. split; [reflexivity |]. cbn. rewrite Hin. reflexivity.
    - destruct (when _ _ _) as [[r s'] ev] eqn:Hw.
      assert (r = Ok tt /\ s' = with_error error (set_has_output true self))
        as [-> ->].
      { unfold when in Hw. destruct (_ && _) in Hw; inversion Hw; auto. }
      do 2 eexists. split; [reflexivity |]. cbn.
      assert (Hin' : error_in error (error :: error_set self) = true)
        by (apply error_in_true; left; reflexivity).
      rewrite Hin'. reflexivity. }
  destruct H as [s1 [ev1 [-> ->]]]. rewrite app_nil_r. reflexivity.
Qed.

(** *** Failures and empty reports at [close] *)

(** X19.  [close] stops at the first failure of its delivery half.  On a
    handler with output: when the renderer raises, [close] raises the
    same exception right after the rendering; when the report is not
    empty and standard output cannot encode it, [close] raises the
    encoding error.  In both cases nothing is printed, the statistics are
    not logged, nothing is written or posted, and the final error of the
    run is not raised. *)
Theorem close_stops_at_first_failure (env : Env) (self : OutputHandler) :
  has_output self = true ->
  (forall ex,
      result_of (build_output env (close_color env self)
                   (output_per_finding_max_lines_limit (settings self)) self)
      = Raised ex ->
      close env self
      = (Raised ex, self, [Rendering (output_format (settings self))]))
  /\ (forall output,
        result_of (build_output env (close_color env self)
                     (output_per_finding_max_lines_limit (settings self)) self)
        = Ok output ->
        Py.truthy_str output = true ->
        stdout_encodes env output = false ->
        close env self
        = (Raised encoding_error, self,
           [Rendering (output_format (settings self))])).
Proof.
  intros Hout.
  destruct (build_output_run env (close_color env self)
              (output_per_finding_max_lines_limit (settings self)) self)
    as [r E].
  rewrite E. unfold result_of; cbn [fst snd].
  split.
  - intros ex ->. rewrite close_run.
    unfold close_output, bind at 1, get. rewrite Hout.
    fold (close_color env self). unfold bind at 1. rewrite E. reflexivity.
  - intros output -> Ht Henc. rewrite close_run.
    unfold close_output, bind at 1, get. rewrite Hout.
    fold (close_color env self). unfold bind at 1. rewrite E.
    unfold bind at 1. rewrite Ht. cbn [when].
    unfold print_output. rewrite Henc. reflexivity.
Qed.

(** The first half of [close] when the report is the empty string:
    nothing is printed, with no question to standard output. *)
Lemma close_output_empty_report (env : Env) (self : OutputHandler) :
  has_output self = true ->
  result_of (build_output env (close_color env self)
               (output_per_finding_max_lines_limit (settings self)) self)
  = Ok EmptyString ->
  exists r ev_stats ev_save,
    close_output env self
    = (r, self,
       ([Rendering (output_format (settings self))] ++ ev_stats ++ ev_save)%list)
    /\ (forall e, In e ev_stats -> exists line, e = LogInfo line)
    /\ match output_destination (settings self) with
       | Some d =>
           if Py.truthy_str d then
             (r, self, ev_save) = save_output env d EmptyString self
           else ev_save = []
       | None => ev_save = []
       end.
Proof.
  intros Hout Hb.
  unfold close_output, bind at 1, get. rewrite Hout.
  fold (close_color env self).
  destruct (build_output_run env (close_color env self)
              (output_per_finding_max_lines_limit (settings self)) self)
    as [r0 E].
  rewrite E in Hb. unfold result_of in Hb; cbn in Hb. subst r0.
  unfold bind at 1. rewrite E.
  unfold bind at 1. cbn [Py.truthy_str when ret].
  assert (Hs : exists ev_stats,
             match stats_line self with
             | Some line => when (Py.truthy_str line) (emit (LogInfo line))
             | None => ret tt
             end self = (Ok tt, self, ev_stats)
             /\ forall e, In e ev_stats -> exists line, e = LogInfo line).
  { destruct (stats_line self) as [line |].
    - destruct (Py.truthy_str line); cbn.
      + eexists. split; [reflexivity |]. intros e [<- | []]. eexists; reflexivity.
      + eexists. split; [reflexivity |]. intros e [].
    - eexists. split; [reflexivity |]. intros e []. }
  destruct Hs as [ev_stats [Hs Hnp]].
  unfold bind at 1. rewrite Hs.
  destruct (output_destination (settings self)) as [d |].
  - destruct (Py.truthy_str d) eqn:Hd; cbn [when].
    + pose proof (read_only_save_output env d EmptyString self) as Hro.
      destruct (save_output env d EmptyString self) as [[r s] ev_save].
      unfold state_of in Hro; cbn in Hro; subst s.
      exists r, ev_stats, ev_save.
      split; [| split; [exact Hnp | reflexivity]].
      reflexivity.
    + exists (Ok tt), ev_stats, [].
      split; [| split; [exact Hnp | reflexivity]].
      reflexivity.
  - exists (Ok tt), ev_stats, [].
    split; [| split; [exact Hnp | reflexivity]].
    reflexivity.
Qed.

(** The events of [final_raise] are hints, never a print. *)
Lemma final_raise_events (self : OutputHandler) (ex : option Exn)
      (error_stats : option string) (e : Event) :
  In e (events_of (final_raise ex error_stats self)) ->
  exists msg, e = LogInfo msg.
Proof.
  destruct ex as [ex |]; [| intros []].
  rewrite final_raise_some.
  destruct ex as [e0 |]; [| intros []].
  destruct (err_level e0); [intros [] |].
  destruct (strict (settings self)); [intros [] |].
  intros [<- | []]. eexists; reflexivity.
Qed.

(** The events of [save_output] are no print. *)
Lemma save_output_events (env : Env) (d output : string) (self : OutputHandler)
      (e : Event) (text : string) :
  In e (events_of (save_output env d output self)) -> e <> PrintStdout text.
Proof.
  unfold save_output, post_output, bind, emit, raise.
  destruct (is_url env d).
  - destruct (requests_post env d output); cbn;
      intros H; repeat (destruct H as [<- | H]; [discriminate |]); destruct H.
  - cbv zeta. destruct (write_file env (save_path_of env d) output); cbn;
      intros H; repeat (destruct H as [<- | H]; [discriminate |]); destruct H.
Qed.

(** X20.  The text report of a handler without findings is the empty
    string, whatever the colour and the limit.  [close] of such a handler
    prints nothing on standard output; but with a file destination
    configured it still writes the report, an empty file, once the file
    system accepts the write. *)
Theorem text_report_without_findings (env : Env) (self : OutputHandler) :
  output_format (settings self) = TEXT ->
  rule_matches self = [] ->
  (forall color_output limit,
      result_of (build_output env color_output limit self) = Ok EmptyString)
  /\ (forall text, ~ In (PrintStdout text) (events_of (close env self)))
  /\ (has_output self = true ->
      forall d,
        output_destination (settings self) = Some d ->
        Py.truthy_str d = true ->
        is_url env d = false ->
        write_file env (save_path_of env d) EmptyString = None ->
        In (WriteFile (save_path_of env d) EmptyString)
           (events_of (close env self))).
Proof.
  intros Hfmt Hrm.
  assert (Hb : forall color_output limit,
             result_of (build_output env color_output limit self)
             = Ok EmptyString).
  { intros c l. unfold build_output, bind, get, emit, ret, result_of.
    cbv beta iota. rewrite Hfmt, Hrm. reflexivity. }
  split; [exact Hb |].
  destruct (has_output self) eqn:Hout.
  - destruct (close_output_empty_report env self Hout (Hb _ _))
      as [r [ev_stats [ev_save [E [Hst Hsave]]]]].
    assert (Hev : exists ev,
               events_of (close env self)
               = (([Rendering (output_format (settings self))]
                   ++ ev_stats ++ ev_save) ++ ev)%list
               /\ forall e, In e ev -> exists msg, e = LogInfo msg).
    { rewrite close_run, E. destruct r as [[] | ex]; unfold events_of; cbn [snd].
      - eexists. split; [reflexivity |]. intros e. apply final_raise_events.
      - exists []. split; [symmetry; apply app_nil_r | intros e []]. }
    destruct Hev as [ev [-> Hev]].
    split.
    + intros text Hin. rewrite !in_app_iff in Hin.
      destruct Hin as [[[Hin | []] | [Hin | Hin]] | Hin].
      * discriminate Hin.
      * destruct (Hst _ Hin) as [line Hl]. discriminate Hl.
      * destruct (output_destination (settings self)) as [d |];
          [destruct (Py.truthy_str d) |]; try (subst ev_save; destruct Hin).
        assert (Hs : ev_save = events_of (save_output env d EmptyString self))
          by (rewrite <- Hsave; reflexivity).
        rewrite Hs in Hin.
        exact (save_output_events env d EmptyString self _ text Hin eq_refl).
      * destruct (Hev _ Hin) as [msg Hl]. discriminate Hl.
    + intros _ d Hd Htd Hu Hw. rewrite Hd, Htd in Hsave.
      unfold save_output in Hsave. rewrite Hu in Hsave.
      cbv zeta in Hsave. rewrite Hw in Hsave.
      inversion Hsave; subst.
      apply in_or_app. left. apply in_or_app. right.
      apply in_or_app. right. left. reflexivity.
  - split; [| intros H; discriminate H].
    intros text Hin. rewrite close_run in Hin.
    unfold close_output, bind, get in Hin. rewrite Hout in Hin. cbn [ret] in Hin.
    unfold events_of in Hin; cbn [snd app] in Hin.
    destruct (final_raise_events self _ _ _ Hin) as [msg Hl]. discriminate Hl.
Qed.

(** *** [managed_output] *)

(** X21.  The [with managed_output(...)] statement.  A body that returns
    is followed by [close], whose result is the result of the statement.
    An exception [ex] of the body that is an [Exception] is recorded as
    the final error, after the ingestion that
    [handle_unhandled_exception] does, and [close] runs on that handler;
    once delivery has succeeded the statement raises [ex] again when [ex]
    is not a structured error, or is one at level ERROR, or strict mode
    is on, and otherwise it swallows [ex] and logs the hint; when
    delivery raises, the statement raises what delivery raised, and [ex]
    is lost.  An exception that is no [Exception], such as
    [KeyboardInterrupt] or [SystemExit], is not recorded: [close] runs on
    the handler as the body left it, and the statement raises the
    exception again unless [close] raises, in which case it raises what
    [close] raised. *)
Theorem managed_output_outcome (env : Env) (body : M unit) (self : OutputHandler) :
  (forall s1 ev1,
      body self = (Ok tt, s1, ev1) ->
      managed_output env body self
      = (result_of (close env s1), s1, (ev1 ++ events_of (close env s1))%list))
  /\ (forall ex s1 ev1,
        body self = (Raised ex, s1, ev1) ->
        is_Exception ex = true ->
        exists s2 ev2,
          handle_unhandled_exception ex s1 = (Ok tt, s2, ev2)
          /\ final_error s2 = Some ex
          /\ (forall ev3,
                close_output env s2 = (Ok tt, s2, ev3) ->
                managed_output env body self
                = if cause_is_raised (strict (settings s1)) ex
                  then (Raised ex, s2, (ev1 ++ ev2 ++ ev3)%list)
                  else (Ok tt, s2,
                        (ev1 ++ ev2 ++ ev3 ++ [LogInfo (strict_hint None)])%list))
          /\ (forall ex' ev3,
                close_output env s2 = (Raised ex', s2, ev3) ->
                managed_output env body self
                = (Raised ex', s2, (ev1 ++ ev2 ++ ev3)%list)))
  /\ (forall ex s1 ev1,
        body self = (Raised ex, s1, ev1) ->
        is_Exception ex = false ->
        managed_output env body self
        = (match result_of (close env s1) with
           | Ok _ => Raised ex
           | Raised ex' => Raised ex'
           end,
           s1, (ev1 ++ events_of (close env s1))%list)).
Proof.
  split; [| split].
  - intros s1 ev1 Hb. unfold managed_output, try_finally, try_except.
    rewrite Hb.
    pose proof (read_only_close env s1) as Hro.
    destruct (close env s1) as [[[[] | ex] s] ev];
      unfold state_of, result_of, events_of in *; cbn in *; subst s;
        reflexivity.
  - intros ex s1 ev1 Hb Hex.
    destruct (handle_unhandled_exception_run ex s1)
      as [s2 [ev2 [E [St [_ Hfe]]]]].
    exists s2, ev2. split; [exact E |]. split; [exact Hfe |].
    assert (Hm : managed_output env body self
                 = (result_of (close env s2), s2,
                    ((ev1 ++ ev2) ++ events_of (close env s2))%list)).
    { unfold managed_output, try_finally, try_except. rewrite Hb, Hex, E.
      pose proof (read_only_close env s2) as Hro.
      destruct (close env s2) as [[[[] | ex0] s] ev];
        unfold state_of, result_of, events_of in *; cbn in *; subst s;
          reflexivity. }
    assert (Ho : final_outcome env s2 = (Some ex, None)).
    { unfold final_outcome. rewrite Hfe. reflexivity. }
    split.
    + intros ev3 Hc. rewrite Hm, close_run, Hc, Ho. cbn [fst snd].
      rewrite final_raise_some, (step_settings St).
      unfold result_of, events_of.
      destruct ex as [e | cls msg]; cbn [cause_is_raised].
      * destruct (err_level e); cbn [level_eqb Level_eq_dec orb fst snd].
        -- rewrite app_nil_r, app_assoc. reflexivity.
        -- destruct (strict (settings s1)); cbn [fst snd].
           ++ rewrite app_nil_r, app_assoc. reflexivity.
           ++ rewrite <- !app_assoc. reflexivity.
      * cbn [fst snd]. rewrite app_nil_r, app_assoc. reflexivity.
    + intros ex' ev3 Hc. rewrite Hm, close_run, Hc.
      unfold result_of, events_of; cbn [fst snd].
      rewrite app_assoc. reflexivity.
  - intros ex s1 ev1 Hb Hex.
    unfold managed_output, try_finally, try_except. rewrite Hb, Hex.
    pose proof (read_only_close env s1) as Hro.
    destruct (close env s1) as [[[[] | ex0] s] ev];
      unfold state_of, result_of, events_of in *; cbn in *; subst s;
        reflexivity.
Qed.

(** *** Timeout errors outside the text format *)

Lemma semgrep_errors_loop_timeouts
      (errors : list SemgrepError) (timeout_errors : list (string * list string))
      (self : OutputHandler) :
  (forall e, In e errors -> err_is_timeout e = true) ->
  NoDup errors ->
  (forall e, In e errors -> ~ In e (error_set self)) ->
  exists self' timeout_errors',
    semgrep_errors_loop errors timeout_errors self
    = (Ok timeout_errors', self', [])
    /\ settings self' = settings self
    /\ has_output self' = has_output self
    /\ final_error self' = final_error self
    /\ semgrep_structured_errors self'
       = (semgrep_structured_errors self ++ errors)%list.
Proof.
  revert timeout_errors self.
  induction errors as [| err errors IH]; intros te self Ht Hnd Hnew.
  - do 2 eexists. split; [reflexivity |]. cbn. rewrite app_nil_r. auto.
  - cbn [semgrep_errors_loop]. unfold bind at 1, get.
    rewrite (Ht err (or_introl eq_refl)).
    assert (Hin : error_in err (error_set self) = false).
    { apply error_in_false. apply Hnew. left. reflexivity. }
    rewrite Hin. cbn [andb negb].
    unfold bind at 1, modify. unfold bind at 1.
    inversion Hnd as [| x l Hni Hnd']; subst.
    edestruct (IH (defaultdict_append (err_path err) (err_rule_id err) te)
                  (set_error_set (err :: error_set
                                          (set_semgrep_structured_errors
                                             (semgrep_structured_errors self ++ [err])
                                             self))
                     (set_semgrep_structured_errors
                        (semgrep_structured_errors self ++ [err]) self)))
      as [s' [te' [E [Hs [Ho [Hf Hl]]]]]].
    + intros e He. apply Ht. right. exact He.
    + exact Hnd'.
    + intros e He [Heq | Hold].
      * subst e. exact (Hni He).
      * exact (Hnew e (or_intror He) Hold).
    + rewrite E. exists s', te'. split; [reflexivity |].
      rewrite Hs, Ho, Hf, Hl. cbn. rewrite <- app_assoc. auto.
Qed.

(** X22.  Outside the text format a batch of timeout errors that are new
    and distinct is stored without a trace: [handle_semgrep_errors]
    appends them in their order, logs nothing and does not mark the
    handler as having output.  A handler that had no output before-hand
    is then closed without a report: [close] prints nothing and writes
    nothing, although it goes on to the final error. *)
Theorem timeouts_silent_outside_text
        (env : Env) (errors : list SemgrepError) (self : OutputHandler) :
  output_format (settings self) <> TEXT ->
  (forall e, In e errors -> err_is_timeout e = true) ->
  NoDup errors ->
  (forall e, In e errors -> ~ In e (error_set self)) ->
  exists self',
    handle_semgrep_errors env errors self = (Ok tt, self', [])
    /\ semgrep_structured_errors self'
       = (semgrep_structured_errors self ++ errors)%list
    /\ has_output self' = has_output self
    /\ (has_output self = false ->
        forall e, In e (events_of (close env self')) ->
                  exists msg, e = LogInfo msg).
Proof.
  intros Hfmt Ht Hnd Hnew.
  destruct (semgrep_errors_loop_timeouts errors [] self Ht Hnd Hnew)
    as [s' [te' [E [Hs [Ho [_ Hl]]]]]].
  exists s'. split; [| split; [exact Hl | split; [exact Ho |]]].
  - unfold handle_semgrep_errors, bind at 1. rewrite E.
    unfold bind at 1, get. rewrite Hs.
    assert (Hf : format_eqb (output_format (settings self)) TEXT = false).
    { destruct (output_format (settings self)); try reflexivity.
      exfalso. apply Hfmt. reflexivity. }
    rewrite Hf, andb_false_r. reflexivity.
  - intros Hout e Hin. rewrite close_run in Hin.
    unfold close_output, bind, get in Hin. rewrite Ho, Hout in Hin.
    cbn [ret] in Hin. unfold events_of at 1 in Hin; cbn [snd app] in Hin.
    exact (final_raise_events s' _ _ _ Hin).
Qed.

(** *** The findings at the end of [main] *)

Lemma nosem_loop_events (env : Env) (rule_match : RuleMatch) (strict : bool)
      (ids : list string) (result : bool) (e : Event) :
  In e (snd (nosem_loop env rule_match strict ids result)) ->
  exists msg, e = LogDebug msg.
Proof.
  revert result. induction ids as [| x ids IH]; intros result; cbn [nosem_loop].
  - intros [].
  - destruct (String.eqb (rm_id rule_match) x).
    + specialize (IH (result || true)).
      destruct (nosem_loop env rule_match strict ids (result || true)).
      cbn in *. intros [<- | H]; [eexists; reflexivity | auto].
    + destruct strict; [intros [] |].
      specialize (IH result).
      destruct (nosem_loop env rule_match false ids result).
      cbn in *. intros [<- | H]; [eexists; reflexivity | auto].
Qed.

Lemma rule_match_nosem_events (env : Env) (set_iter : list string -> list string)
      (rule_match : RuleMatch) (strict : bool) (e : Event) :
  In e (snd (rule_match_nosem env set_iter rule_match strict)) ->
  exists msg, e = LogDebug msg.
Proof.
  unfold rule_match_nosem.
  destruct (rm_lines rule_match) as [| line0 rest]; [intros [] |].
  destruct (NOSEM_INLINE_RE_search env line0) as [[ids |] |].
  - apply nosem_loop_events.
  - intros [<- | []]. eexists; reflexivity.
  - intros [].
Qed.

(** With strict mode off [rule_match_nosem] returns. *)
Lemma rule_match_nosem_lenient (env : Env) (set_iter : list string -> list string)
      (rule_match : RuleMatch) :
  fst (rule_match_nosem env set_iter rule_match false)
  = Ok (suppressed env set_iter rule_match).
Proof.
  unfold suppressed, rule_match_nosem.
  destruct (rm_lines rule_match) as [| line0 rest]; [reflexivity |].
  destruct (NOSEM_INLINE_RE_search env line0) as [[ids |] |]; try reflexivity.
  rewrite nosem_loop_lenient. reflexivity.
Qed.

Lemma mark_ignored_lenient (env : Env) (set_iter : list string -> list string)
      (rule_matches : list RuleMatch) :
  exists ev,
    mark_ignored env set_iter false rule_matches
    = (Ok (map (fun rm => evolve_is_ignored rm (suppressed env set_iter rm))
               rule_matches), ev)
    /\ forall e, In e ev -> exists msg, e = LogDebug msg.
Proof.
  induction rule_matches as [| rm rms [ev [IH Hev]]]; cbn [mark_ignored map].
  - exists []. split; [reflexivity | intros e []].
  - pose proof (rule_match_nosem_lenient env set_iter rm) as H.
    pose proof (rule_match_nosem_events env set_iter rm false) as He.
    destruct (rule_match_nosem env set_iter rm false) as [r ev0].
    cbn in H, He. subst r. rewrite IH.
    eexists. split; [reflexivity |].
    intros e Hin. apply in_app_or in Hin as [Hin | Hin]; auto.
Qed.

Lemma mark_ignored_by_rule_lenient
      (env : Env) (set_iter : list string -> list string)
      (d : list (Rule * list RuleMatch)) :
  exists ev,
    mark_ignored_by_rule env set_iter false d
    = (Ok (map (fun kv =>
                  (fst kv,
                   map (fun rm => evolve_is_ignored rm (suppressed env set_iter rm))
                       (snd kv))) d), ev)
    /\ forall e, In e ev -> exists msg, e = LogDebug msg.
Proof.
  induction d as [| [rule rms] d [ev [IH Hev]]]; cbn [mark_ignored_by_rule map].
  - exists []. split; [reflexivity | intros e []].
  - destruct (mark_ignored_lenient env set_iter rms) as [ev0 [E He]].
    rewrite E, IH. eexists. split; [reflexivity |].
    intros e Hin. apply in_app_or in Hin as [Hin | Hin]; auto.
Qed.

Lemma filter_evolved (f : RuleMatch -> bool) (l : list RuleMatch) :
  filter (fun rm => negb (rm_is_ignored rm))
         (map (fun rm => evolve_is_ignored rm (f rm)) l)
  = map (fun rm => evolve_is_ignored rm false) (filter (fun rm => negb (f rm)) l).
Proof.
  induction l as [| rm l IH]; [reflexivity |].
  cbn [map filter]. cbn [evolve_is_ignored rm_is_ignored].
  destruct (f rm); cbn [negb map]; rewrite IH; reflexivity.
Qed.

Lemma flat_map_reported (env : Env) (set_iter : list string -> list string)
      (disable_nosem : bool) (d : list (Rule * list RuleMatch)) :
  flat_map snd
    (map (fun kv => (fst kv, reported env set_iter disable_nosem (snd kv))) d)
  = reported env set_iter disable_nosem (flat_map snd d).
Proof.
  induction d as [| kv d IH]; cbn [map flat_map snd].
  - destruct disable_nosem; reflexivity.
  - rewrite IH. unfold reported. destruct disable_nosem.
    + rewrite map_app. reflexivity.
    + rewrite filter_app, map_app. reflexivity.
Qed.

Lemma num_findings_flat (d : list (Rule * list RuleMatch)) :
  num_findings d = List.length (flat_map snd d).
Proof.
  unfold num_findings, list_sum. induction d as [| kv d IH]; [reflexivity |].
  cbn [map fold_right flat_map]. rewrite length_app, IH. reflexivity.
Qed.

(** X23.  The end of [main] with strict mode off never raises.  With the
    filter on, the findings appended to those of the handler are the ones
    of the run that are not suppressed, in the order of the run, each
    with [is_ignored] false whatever it was; with the filter disabled all
    findings are appended, each with its answer as [is_ignored].  Every
    rule of the run is added to the rules of the handler, also one all
    of whose findings are suppressed; the statistics count the findings
    appended; and the run logs at debug level only. *)
Theorem main_report_lenient
        (env : Env) (set_iter : list string -> list string)
        (disable_nosem : bool)
        (rule_matches_by_rule : list (Rule * list RuleMatch))
        (debug_steps_by_rule : list (Rule * list json))
        (all_targets : list string) (profiler : ProfileManager)
        (filtered_rules : list Rule)
        (match_time_matrix : list ((string * string) * string))
        (self : OutputHandler) :
  exists self' ev,
    main_report env set_iter false disable_nosem rule_matches_by_rule
      debug_steps_by_rule all_targets profiler filtered_rules
      match_time_matrix self
    = (Ok tt, self', ev)
    /\ rule_matches self'
       = (rule_matches self
          ++ reported env set_iter disable_nosem
               (flat_map snd rule_matches_by_rule))%list
    /\ rules self'
       = frozenset_union (rules self) (map fst rule_matches_by_rule)
    /\ stats_line self'
       = Some ("ran " ++ Py.str_nat (List.length filtered_rules)
               ++ " rules on " ++ Py.str_nat (List.length all_targets)
               ++ " files: "
               ++ Py.str_nat
                    (List.length
                       (reported env set_iter disable_nosem
                          (flat_map snd rule_matches_by_rule)))
               ++ " findings")
    /\ has_output self' = true
    /\ (forall e, In e ev -> exists msg, e = LogDebug msg).
Proof.
  destruct (mark_ignored_by_rule_lenient env set_iter rule_matches_by_rule)
    as [ev [E Hev]].
  unfold main_report. rewrite E.
  set (marked := map _ rule_matches_by_rule).
  assert (Hkept : (if negb disable_nosem then drop_ignored marked else marked)
                  = map (fun kv =>
                           (fst kv, reported env set_iter disable_nosem (snd kv)))
                        rule_matches_by_rule).
  { unfold marked, drop_ignored, reported.
    destruct disable_nosem; cbn [negb]; [reflexivity |].
    rewrite map_map. apply map_ext. intros kv. cbn [fst snd].
    rewrite filter_evolved. reflexivity. }
  cbv zeta. rewrite Hkept. clear Hkept.
  rewrite num_findings_flat, flat_map_reported.
  do 2 eexists. split; [reflexivity |].
  cbn. rewrite flat_map_reported, map_map. cbn [fst].
  rewrite app_nil_r.
  split; [reflexivity |]. split; [reflexivity |]. split; [reflexivity |].
  split; [reflexivity | exact Hev].
Qed.

Lemma mark_ignored_raises (env : Env) (set_iter : list string -> list string)
      (strict : bool) (rule_matches : list RuleMatch) (rm : RuleMatch) (ex0 : Exn) :
  In rm rule_matches ->
  fst (rule_match_nosem env set_iter rm strict) = Raised ex0 ->
  exists rm' ex ev,
    In rm' rule_matches
    /\ fst (rule_match_nosem env set_iter rm' strict) = Raised ex
    /\ mark_ignored env set_iter strict rule_matches = (Raised ex, ev).
Proof.
  induction rule_matches as [| r rms IH]; intros Hin Hr; [destruct Hin |].
  cbn [mark_ignored].
  destruct (rule_match_nosem env set_iter r strict) as [[b | ex] ev0] eqn:Er.
  - destruct Hin as [-> | Hin]; [rewrite Er in Hr; discriminate Hr |].
    destruct (IH Hin Hr) as [rm' [ex [ev [Hin' [Hr' E]]]]].
    rewrite E. exists rm', ex. eexists.
    split; [right; exact Hin' | split; [exact Hr' | reflexivity]].
  - exists r, ex, ev0.
    split; [left; reflexivity | split; [rewrite Er; reflexivity | reflexivity]].
Qed.

Lemma mark_ignored_by_rule_raises
      (env : Env) (set_iter : list string -> list string) (strict : bool)
      (d : list (Rule * list RuleMatch)) (rm : RuleMatch) (ex0 : Exn) :
  In rm (flat_map snd d) ->
  fst (rule_match_nosem env set_iter rm strict) = Raised ex0 ->
  exists rm' ex ev,
    In rm' (flat_map snd d)
    /\ fst (rule_match_nosem env set_iter rm' strict) = Raised ex
    /\ mark_ignored_by_rule env set_iter strict d = (Raised ex, ev).
Proof.
  induction d as [| [rule rms] d IH]; intros Hin Hr; [destruct Hin |].
  cbn [mark_ignored_by_rule flat_map snd] in *.
  destruct (mark_ignored env set_iter strict rms) as [[l | ex] ev0] eqn:Em.
  - apply in_app_or in Hin as [Hin | Hin].
    + destruct (mark_ignored_raises env set_iter strict rms rm ex0 Hin Hr)
        as [rm' [ex [ev [_ [_ E]]]]].
      rewrite E in Em. discriminate Em.
    + destruct (IH Hin Hr) as [rm' [ex [ev [Hin' [Hr' E]]]]].
      rewrite E. exists rm', ex. eexists.
      split; [apply in_or_app; right; exact Hin' |].
      split; [exact Hr' | reflexivity].
  - assert (H : exists rm', In rm' rms
                 /\ fst (rule_match_nosem env set_iter rm' strict) = Raised ex).
    { clear - Em. revert ev0 Em.
      induction rms as [| r rms IH]; intros ev0 Em; [discriminate Em |].
      cbn [mark_ignored] in Em.
      destruct (rule_match_nosem env set_iter r strict) as [[b | ex'] ev1] eqn:Er.
      - destruct (mark_ignored env set_iter strict rms) as [[l | ex'] ev2] eqn:E2;
          [discriminate Em |].
        inversion Em; subst.
        destruct (IH _ eq_refl) as [rm' [Hin' Hr']].
        exists rm'. split; [right; exact Hin' | exact Hr'].
      - inversion Em; subst. exists r. split; [left; reflexivity |].
        rewrite Er. reflexivity. }
    destruct H as [rm' [Hin' Hr']].
    exists rm', ex, ev0.
    split; [apply in_or_app; left; exact Hin' |].
    split; [exact Hr' | reflexivity].
Qed.

(** X24.  When [rule_match_nosem] raises for a finding of the run, which
    it does only in strict mode, the end of [main] raises the exception
    of such a finding and hands nothing to the handler: the handler is
    as it was, with no finding of the run, and this also with the filter
    disabled. *)
Theorem main_report_strict_raises
        (env : Env) (set_iter : list string -> list string)
        (strict disable_nosem : bool)
        (rule_matches_by_rule : list (Rule * list RuleMatch))
        (debug_steps_by_rule : list (Rule * list json))
        (all_targets : list string) (profiler : ProfileManager)
        (filtered_rules : list Rule)
        (match_time_matrix : list ((string * string) * string))
        (self : OutputHandler) (rm : RuleMatch) (ex0 : Exn) :
  In rm (flat_map snd rule_matches_by_rule) ->
  fst (rule_match_nosem env set_iter rm strict) = Raised ex0 ->
  strict = true
  /\ exists rm' ex ev,
      In rm' (flat_map snd rule_matches_by_rule)
      /\ fst (rule_match_nosem env set_iter rm' strict) = Raised ex
      /\ main_report env set_iter strict disable_nosem rule_matches_by_rule
           debug_steps_by_rule all_targets profiler filtered_rules
           match_time_matrix self
         = (Raised ex, self, ev).
Proof.
  intros Hin Hr. split.
  - destruct strict; [reflexivity |].
    rewrite rule_match_nosem_lenient in Hr. discriminate Hr.
  - destruct (mark_ignored_by_rule_raises env set_iter strict
                rule_matches_by_rule rm ex0 Hin Hr)
      as [rm' [ex [ev [Hin' [Hr' E]]]]].
    exists rm', ex, ev. split; [exact Hin' | split; [exact Hr' |]].
    unfold main_report. rewrite E. reflexivity.
Qed.

(* ------------------------------------------------------------------ *)
(** ** Instances of the further properties *)

Lemma liststartswith_prefix_witness :
  (forall a b, String.eqb a b = true <-> a = b)
  /\ exists b,
      Util.liststartswith String.eqb [".test"; ".yaml"] [".test"] = Ok b
      /\ (b = true
          <-> exists rest, [".test"; ".yaml"] = ([".test"] ++ rest)%list).
Proof.
  split; [exact String.eqb_eq |].
  exact (liststartswith_prefix String.eqb [".test"; ".yaml"] [".test"]
           String.eqb_eq).
Defined.

Lemma listendswith_suffix_witness :
  (forall a b, String.eqb a b = true <-> a = b)
  /\ exists b,
      Util.listendswith String.eqb [".test"; ".yaml"] [".yaml"] = Ok b
      /\ (b = true
          <-> exists pre, [".test"; ".yaml"] = (pre ++ [".yaml"])%list).
Proof.
  split; [exact String.eqb_eq |].
  exact (listendswith_suffix String.eqb [".test"; ".yaml"] [".yaml"]
           String.eqb_eq).
Defined.

(** The suffixes of [rules.test.yaml] and of [rules.yaml]. *)
Example config_suffix_of_test_file :
  Util.is_config_suffix [".test"; ".yaml"] = Ok false
  /\ Util.is_config_test_suffix [".test"; ".yaml"] = Ok true
  /\ Util.is_config_suffix [".yaml"] = Ok true
  /\ Util.is_config_suffix [".yaml"; ".bak"] = Ok false.
Proof. repeat split. Qed.

(** [powerset([1,2,3])], as the docstring has it. *)
Example powerset_of_three :
  Util.powerset [1; 2; 3]%Z
  = [[]; [1]; [2]; [3]; [1; 2]; [1; 3]; [2; 3]; [1; 2; 3]]%Z.
Proof. reflexivity. Qed.

Lemma color_line_keeps_text_witness :
  (3 > 3 \/ 3 < 3 \/ 1 <= 5 + 1)%Z
  /\ exists pre mid post,
      color_line "x = 1" 3 3 1 3 5
      = pre ++ Colorama.Style_BRIGHT ++ mid ++ Colorama.Style_RESET_ALL ++ post
      /\ pre ++ mid ++ post = "x = 1".
Proof.
  assert (H : (3 > 3 \/ 3 < 3 \/ 1 <= 5 + 1)%Z) by (right; right; lia).
  split; [exact H |].
  exact (color_line_keeps_text "x = 1" 3 3 1 3 5 H).
Defined.

(** With [start_col] beyond [end_col + 1] on a match inside one line the
    middle part is empty and characters of the line are repeated. *)
Example color_line_repeats_text :
  color_line "abcdef" 3 3 5 3 1
  = "abcd" ++ Colorama.Style_BRIGHT ++ Colorama.Style_RESET_ALL ++ "bcdef".
Proof. reflexivity. Qed.

Lemma finding_to_line_negative_limit_witness :
  rm_path three_line_match <> EmptyString
  /\ (-1 < 0)%Z
  /\ List.length
       (finding_to_line example_env three_line_match false (Some (-1)%Z) false)
     = 3%nat.
Proof.
  assert (H1 : rm_path three_line_match <> EmptyString) by discriminate.
  assert (H2 : (-1 < 0)%Z) by lia.
  split; [exact H1 |]. split; [exact H2 |].
  destruct (finding_to_line_negative_limit example_env three_line_match
              false false (-1) H1 H2) as [E _].
  rewrite E. vm_compute. reflexivity.
Defined.

Lemma json_report_keys_witness :
  is_json (output_format (settings saved_json_handler)) = true
  /\ result_of (build_output example_env false None saved_json_handler)
     = Ok (json_dumps example_env
             (JDict (json_report_object example_env saved_json_handler)))
  /\ result_of (build_output example_env false None saved_json_handler)
     = Ok "{results, errors}".
Proof.
  split; [reflexivity |].
  split; [| vm_compute; reflexivity].
  exact (proj1 (json_report_keys example_env false None saved_json_handler
                  eq_refl)).
Defined.

Lemma close_stops_at_first_failure_witness :
  has_output emacs_handler_no_lines = true
  /\ close example_env emacs_handler_no_lines
     = (Raised (EPython "IndexError" "list index out of range"),
        emacs_handler_no_lines,
        [Rendering (output_format (settings emacs_handler_no_lines))]).
Proof.
  split; [reflexivity |].
  apply (proj1 (close_stops_at_first_failure example_env emacs_handler_no_lines
                  eq_refl)).
  vm_compute. reflexivity.
Defined.

Lemma text_report_without_findings_witness :
  output_format (settings empty_text_handler) = TEXT
  /\ rule_matches empty_text_handler = []
  /\ In (WriteFile (save_path_of example_env "out.txt") EmptyString)
        (events_of (close example_env empty_text_handler)).
Proof.
  split; [reflexivity |]. split; [reflexivity |].
  destruct (text_report_without_findings example_env empty_text_handler
              eq_refl eq_refl) as [_ [_ H]].
  exact (H eq_refl "out.txt" eq_refl eq_refl eq_refl eq_refl).
Defined.

(** The events of that [close]: the statistics are logged and the empty
    report is written under the base path. *)
Example close_of_empty_text_report :
  close example_env empty_text_handler
  = (Ok tt, empty_text_handler,
     [Rendering TEXT; LogInfo "ran 1 rules"; WriteFile "/base/out.txt" EmptyString]).
Proof. vm_compute. reflexivity. Qed.

Lemma timeouts_silent_outside_text_witness :
  output_format (settings fresh_json_handler) <> TEXT
  /\ (forall e, In e [timeout_error] -> err_is_timeout e = true)
  /\ NoDup [timeout_error]
  /\ (forall e, In e [timeout_error] -> ~ In e (error_set fresh_json_handler))
  /\ exists self',
      handle_semgrep_errors example_env [timeout_error] fresh_json_handler
      = (Ok tt, self', [])
      /\ semgrep_structured_errors self' = [timeout_error]
      /\ has_output self' = false.
Proof.
  assert (H1 : output_format (settings fresh_json_handler) <> TEXT)
    by discriminate.
  assert (H2 : forall e, In e [timeout_error] -> err_is_timeout e = true).
  { intros e [<- | []]. reflexivity. }
  assert (H3 : NoDup [timeout_error]).
  { constructor; [intros [] | constructor]. }
  assert (H4 : forall e, In e [timeout_error] ->
                         ~ In e (error_set fresh_json_handler)).
  { intros e _ []. }
  split; [exact H1 |]. split; [exact H2 |]. split; [exact H3 |].
  split; [exact H4 |].
  destruct (timeouts_silent_outside_text example_env [timeout_error]
              fresh_json_handler H1 H2 H3 H4) as [s' [E [Hl [Ho _]]]].
  exists s'. split; [exact E |]. split; [exact Hl | exact Ho].
Defined.

(** A warning raised by the body of [with managed_output(...)] is
    swallowed when strict mode is off, and raised again when it is on. *)
Example managed_output_swallows_warning :
  result_of (managed_output example_env (raise (ESemgrep warning_error))
               (new_OutputHandler text_settings))
  = Ok tt
  /\ result_of (managed_output example_env (raise (ESemgrep warning_error))
                  (new_OutputHandler
                     (mkOutputSettings TEXT None false false true None
                                       false false 0)))
     = Raised (ESemgrep warning_error).
Proof. split; vm_compute; reflexivity. Qed.

(** An interrupt of the body is not recorded as the final error: the
    statement raises it again, and the handler has no final error. *)
Example managed_output_passes_interrupt :
  managed_output example_env (raise (EPython "KeyboardInterrupt" EmptyString))
                 (new_OutputHandler text_settings)
  = (Raised (EPython "KeyboardInterrupt" EmptyString),
     new_OutputHandler text_settings, []).
Proof. vm_compute. reflexivity. Qed.

Lemma main_report_strict_raises_witness :
  In nosem_match (flat_map snd [(mkRule "a" EmptyString, [nosem_match])])
  /\ fst (rule_match_nosem example_env (fun l => l) nosem_match true)
     = Raised (ESemgrep (mkSemgrepError
                           "found 'nosem' comment with id 'b', but no corresponding rule trying 'a'"
                           2 ERROR false EmptyString EmptyString))
  /\ state_of (main_report example_env (fun l => l) true true
                 [(mkRule "a" EmptyString, [nosem_match])] [] ["a.py"] 0
                 [mkRule "a" EmptyString] [] fresh_json_handler)
     = fresh_json_handler
  /\ result_of (main_report example_env (fun l => l) true true
                  [(mkRule "a" EmptyString, [nosem_match])] [] ["a.py"] 0
                  [mkRule "a" EmptyString] [] fresh_json_handler)
     <> Ok tt.
Proof.
  assert (H1 : In nosem_match
                  (flat_map snd [(mkRule "a" EmptyString, [nosem_match])]))
    by (left; reflexivity).
  assert (H2 : fst (rule_match_nosem example_env (fun l => l) nosem_match true)
               = Raised (ESemgrep (mkSemgrepError
                                     "found 'nosem' comment with id 'b', but no corresponding rule trying 'a'"
                                     2 ERROR false EmptyString EmptyString)))
    by reflexivity.
  split; [exact H1 |]. split; [exact H2 |].
  destruct (main_report_strict_raises example_env (fun l => l) true true
              [(mkRule "a" EmptyString, [nosem_match])] [] ["a.py"] 0
              [mkRule "a" EmptyString] [] fresh_json_handler nosem_match _
              H1 H2) as [_ [rm' [ex [ev [_ [_ E]]]]]].
  rewrite E. split; [reflexivity | discriminate].
Defined.

(** The same run with strict mode off: the finding is suppressed and the
    statistics count no finding. *)
Example main_report_suppresses :
  stats_line (state_of (main_report example_env (fun l => l) false false
                          [(mkRule "a" EmptyString, [nosem_match])] [] ["a.py"]
                          0 [mkRule "a" EmptyString] [] fresh_json_handler))
  = Some "ran 1 rules on 1 files: 0 findings".
Proof. vm_compute. reflexivity. Qed.
